(** * aws-iam-authenticator: token minting and verification

    A shallow embedding of [pkg/token] (the generator and the verifier),
    of the credential file cache it wraps around the SDK's credentials, and
    of the test doubles of the cache's tests.

    Go strings are byte sequences: they are modelled by [string], whose
    characters are the 256 values of [ascii].  Go's [int] and the
    nanosecond counts behind [time.Time] and [time.Duration] are modelled
    by [Z]. *)

From Stdlib Require Import ZArith Lia List String Ascii Bool.
From stdpp Require Import base option gmap strings.
Import ListNotations.

Local Open Scope string_scope.
Local Open Scope Z_scope.

(** ** Go's [strings] package (the functions the token code calls) *)

Module strings.

(** [strings.HasPrefix(s, prefix)]. *)
Definition HasPrefix (s prefix : string) : bool := String.prefix prefix s.

(** [strings.TrimPrefix(s, prefix)]: [s] without the leading [prefix],
    and [s] itself when it does not start with [prefix]. *)
Definition TrimPrefix (s prefix : string) : string :=
  if HasPrefix s prefix
  then String.substring (String.length prefix)
                        (String.length s - String.length prefix) s
  else s.

(** [strings.Split(s, sep)] for a one-byte separator, which is what every
    call of the token code passes ([":"], ["/"] and [";"]): the pieces of
    [s] between the occurrences of [sep], one more than there are
    occurrences. *)
Fixpoint Split (s : string) (sep : ascii) : list string :=
  match s with
  | EmptyString => [EmptyString]
  | String c s' =>
      if Ascii.eqb c sep then EmptyString :: Split s' sep
      else match Split s' sep with
           | [] => [String c EmptyString]
           | piece :: pieces => String c piece :: pieces
           end
  end.

(** Number of occurrences of the byte [sep] in [s]
    ([strings.Count] for a one-byte separator). *)
Fixpoint Count (s : string) (sep : ascii) : nat :=
  match s with
  | EmptyString => O
  | String c s' => (if Ascii.eqb c sep then 1 else 0)%nat + Count s' sep
  end.

End strings.

(** ** Go's [encoding/base64], [RawURLEncoding] *)

Module base64.

(** The URL-safe alphabet of RFC 4648 ([encodeURL]). *)
Definition encodeURL : string :=
  "ABCDEFGHIJKLMNOPQRSTUVWXYZabcdefghijklmnopqrstuvwxyz0123456789-_".

Definition byte_of (c : ascii) : Z := Z.of_N (N_of_ascii c).
Definition of_byte (z : Z) : ascii := ascii_of_N (Z.to_N z).

(** [enc.encode[v]]. *)
Definition encode (v : Z) : ascii :=
  match String.get (Z.to_nat v) encodeURL with
  | Some c => c
  | None => Ascii.zero
  end.

(** [enc.decodeMap[c]]: the position of [c] in the alphabet, or nothing
    (0xFF in the source) for a byte outside of it. *)
Definition decodeMap (c : ascii) : option Z :=
  option_map Z.of_nat (String.index 0 (String c EmptyString) encodeURL).

(** The 6-bit groups [Encode] emits: three source bytes make
    [val = b0<<16 | b1<<8 | b2] and the four groups [val>>18&0x3F],
    [val>>12&0x3F], [val>>6&0x3F], [val&0x3F]; a remainder of one or two
    bytes makes two or three groups, and no padding follows
    ([NoPadding]). *)
Fixpoint groups (src : string) : list Z :=
  match src with
  | EmptyString => []
  | String b0 EmptyString =>
      let val := Z.shiftl (byte_of b0) 16 in
      [Z.land (Z.shiftr val 18) 63; Z.land (Z.shiftr val 12) 63]
  | String b0 (String b1 EmptyString) =>
      let val := Z.lor (Z.shiftl (byte_of b0) 16) (Z.shiftl (byte_of b1) 8) in
      [Z.land (Z.shiftr val 18) 63; Z.land (Z.shiftr val 12) 63;
       Z.land (Z.shiftr val 6) 63]
  | String b0 (String b1 (String b2 rest)) =>
      let val := Z.lor (Z.shiftl (byte_of b0) 16)
                   (Z.lor (Z.shiftl (byte_of b1) 8) (byte_of b2)) in
      Z.land (Z.shiftr val 18) 63 :: Z.land (Z.shiftr val 12) 63 ::
      Z.land (Z.shiftr val 6) 63 :: Z.land val 63 :: groups rest
  end.

(** [RawURLEncoding.EncodeToString]. *)
Definition EncodeToString (src : string) : string :=
  string_of_list_ascii (map encode (groups src)).

(** The 6-bit values of the input of [DecodeString]: the decoder skips
    carriage returns and line feeds, and any other byte outside the
    alphabet (the padding character too, under [NoPadding]) is corrupt
    input. *)
Fixpoint values (s : string) : option (list Z) :=
  match s with
  | EmptyString => Some []
  | String c s' =>
      if (Ascii.eqb c "010" || Ascii.eqb c "013")%bool then values s'
      else match decodeMap c with
           | None => None
           | Some v => option_map (cons v) (values s')
           end
  end.

(** Four values make [val = v0<<18 | v1<<12 | v2<<6 | v3] and the bytes
    [val>>16], [val>>8], [val]; a last quantum of two or three values
    makes one or two bytes (the encoding is not strict: the unused low
    bits are not checked), and a last quantum of one value is corrupt. *)
Fixpoint bytes (vs : list Z) : option string :=
  match vs with
  | [] => Some EmptyString
  | [_] => None
  | [v0; v1] =>
      let val := Z.lor (Z.shiftl v0 18) (Z.shiftl v1 12) in
      Some (String (of_byte (Z.land (Z.shiftr val 16) 255)) EmptyString)
  | [v0; v1; v2] =>
      let val := Z.lor (Z.shiftl v0 18)
                   (Z.lor (Z.shiftl v1 12) (Z.shiftl v2 6)) in
      Some (String (of_byte (Z.land (Z.shiftr val 16) 255))
           (String (of_byte (Z.land (Z.shiftr val 8) 255)) EmptyString))
  | v0 :: v1 :: v2 :: v3 :: rest =>
      let val := Z.lor (Z.shiftl v0 18)
                   (Z.lor (Z.shiftl v1 12) (Z.lor (Z.shiftl v2 6) v3)) in
      option_map
        (fun tl => String (of_byte (Z.land (Z.shiftr val 16) 255))
                  (String (of_byte (Z.land (Z.shiftr val 8) 255))
                  (String (of_byte (Z.land val 255)) tl)))
        (bytes rest)
  end.

(** [RawURLEncoding.DecodeString]: the decoded bytes, or the text of the
    [CorruptInputError] (without the offset Go appends to it). *)
Definition DecodeString (s : string) : string + string :=
  match values s with
  | None => inl "illegal base64 data"
  | Some vs =>
      match bytes vs with
      | None => inl "illegal base64 data"
      | Some b => inr b
      end
  end.

(** The values of six bits. *)
Definition isGroup (v : Z) : Prop := 0 <= v < 64.

(** The bytes of the URL-safe alphabet: the letters, the digits, the
    hyphen and the underscore.  The padding character [=] is not one of
    them. *)
Definition urlSafe (c : ascii) : bool :=
  let n := byte_of c in
  ((65 <=? n) && (n <=? 90)) || ((97 <=? n) && (n <=? 122))
  || ((48 <=? n) && (n <=? 57)) || (n =? 45) || (n =? 95).

(** What the table of the alphabet owes to one value [n]: its character
    decodes to [n], is URL-safe, and is no line break. *)
Definition encode_ok (n : nat) : bool :=
  let v := Z.of_nat n in
  let c := encode v in
  match decodeMap c with
  | Some v' =>
      (v' =? v) && urlSafe c && negb (Ascii.eqb c "010")
      && negb (Ascii.eqb c "013")
  | None => false
  end.

(** The powers of two of the shifts, as numbers. *)
Ltac powers :=
  change (2 ^ 16) with 65536 in *; change (2 ^ 8) with 256 in *;
  change (2 ^ 6) with 64 in *; change (2 ^ 12) with 4096 in *;
  change (2 ^ 18) with 262144 in *.

End base64.

(** ** Go's [strconv] package *)

Module strconv.

Inductive NumError := ErrSyntax | ErrRange.

Definition isDigit (c : ascii) : bool :=
  let n := base64.byte_of c in (48 <=? n) && (n <=? 57).

(** The value of a run of decimal digits, most significant first, or
    nothing when a byte is not a digit. *)
Fixpoint digits (acc : Z) (s : string) : option Z :=
  match s with
  | EmptyString => Some acc
  | String c s' =>
      if isDigit c then digits (10 * acc + (base64.byte_of c - 48)) s'
      else None
  end.

Definition maxInt : Z := 2 ^ 63 - 1.
Definition minInt : Z := - 2 ^ 63.

(** [strconv.Atoi]: an optional sign and at least one decimal digit.  The
    value returned beside a syntax error is 0, and beside a range error
    the nearest [int] (64 bits). *)
Definition Atoi (s : string) : Z * option NumError :=
  let '(neg, body) :=
    match s with
    | String "-" s' => (true, s')
    | String "+" s' => (false, s')
    | _ => (false, s)
    end in
  match body with
  | EmptyString => (0, Some ErrSyntax)
  | _ =>
      match digits 0 body with
      | None => (0, Some ErrSyntax)
      | Some n =>
          if neg then
            if n <=? 2 ^ 63 then (- n, None) else (minInt, Some ErrRange)
          else
            if n <=? maxInt then (n, None) else (maxInt, Some ErrRange)
      end
  end.

(** The decimal digits of a natural number, as [%d] prints them. *)
Fixpoint utoa (fuel : nat) (n : Z) (acc : string) : string :=
  match fuel with
  | O => acc
  | S fuel' =>
      let acc' := String (base64.of_byte (48 + n mod 10)) acc in
      if n <? 10 then acc' else utoa fuel' (n / 10) acc'
  end.

(** [strconv.Itoa], which is what [%d] prints for an [int]. *)
Definition Itoa (n : Z) : string :=
  if n <? 0 then String "-" (utoa 20 (- n) EmptyString)
  else utoa 20 n EmptyString.

End strconv.

(** ** Go's [time] package: instants and durations *)

Module time.

(** A [time.Time], as the nanoseconds since the Unix epoch of the instant
    it names; a [time.Duration], a count of nanoseconds. *)
Definition Time := Z.
Definition Duration := Z.

Definition Nanosecond : Duration := 1.
Definition Second : Duration := 1000000000 * Nanosecond.
Definition Minute : Duration := 60 * Second.

(** [t.Add(d)]. *)
Definition Add (t : Time) (d : Duration) : Time := t + d.

(** [t.After(u)]: whether the instant [t] is after [u]. *)
Definition After (t u : Time) : bool := u <? t.

(** [t.Local()] changes the location a time is printed in, and not the
    instant. *)
Definition Local (t : Time) : Time := t.

End time.

(** ** Go's [net/url] and [net/http]: the data the verifier touches *)

Module url.

(** The fields of [url.URL] that [url.Parse] fills. *)
Record URL := {
  Scheme : string;
  Opaque : string;
  User : option string;
  Host : string;
  Path : string;
  RawQuery : string;
  Fragment : string;
}.

(** [url.Values] is a [map[string][]string].  The verifier ranges over
    one, and Go leaves the order of that unspecified: a value of this
    type lists the entries in the order the loop visits them. *)
Definition Values := list (string * list string).

(** [v.Get(key)]: the first value of [key], or the empty string. *)
Fixpoint Get (v : Values) (key : string) : string :=
  match v with
  | [] => EmptyString
  | (k, vs) :: rest =>
      if String.eqb k key then hd EmptyString vs else Get rest key
  end.

(** [v.Set(key, value)]: [v[key] = []string{value}]. *)
Fixpoint Set_ (v : Values) (key value : string) : Values :=
  match v with
  | [] => [(key, [value])]
  | (k, vs) :: rest =>
      if String.eqb k key then (k, [value]) :: rest
      else (k, vs) :: Set_ rest key value
  end.

(** [*url.Error]. *)
Record Error := { Op : string; URL_ : string; Err : string }.

End url.

Module http.

(** A request as [Verify] builds it: method, URL and the headers it
    sets. *)
Record Request := {
  Method : string;
  URL : string;
  Header : list (string * string);
}.

(** [req.Header.Set(key, value)]: the value replaces what the header
    held under the key.  (Go stores the key in its canonical form, the
    first letter of each word in upper case; the key is kept as given
    here.) *)
Definition Header_Set (req : Request) (key value : string) : Request :=
  {| Method := Method req; URL := URL req;
     Header :=
       (filter (fun kv => negb (String.eqb (fst kv) key)) (Header req)
        ++ [(key, value)])%list |}.

(** What came back: the status code, and the body or the error of
    reading it. *)
Record Response := {
  StatusCode : Z;
  Body : string + string;
}.

(** The error of [client.Do]: a [*url.Error], or another error by its
    text. *)
Inductive DoError :=
| urlError (e : url.Error)
| otherError (text : string).

End http.

(** ** [pkg/partitions] *)

Module partitions.

Definition partitionNames : list string :=
  ["aws"; "aws-cn"; "aws-us-gov"; "aws-iso"; "aws-iso-b"].

(** The table of partitions: under each key, the ["id"] and the
    ["regions"] of the entry. *)
Definition partitions : gmap string (string * list string) :=
  list_to_map [
    ("aws", ("aws",
       ["aws-global"; "af-south-1";
        "ap-east-1"; "ap-northeast-1"; "ap-northeast-2"; "ap-south-1";
        "ap-southeast-1"; "ap-southeast-2";
        "ca-central-1";
        "eu-central-1"; "eu-north-1"; "eu-south-1"; "eu-west-1";
        "eu-west-2"; "eu-west-3";
        "me-south-1";
        "sa-east-1";
        "us-east-1"; "us-east-2"; "us-west-1"; "us-west-2";
        "us-east-1-fips"; "us-east-2-fips"; "us-west-1-fips";
        "us-west-2-fips"]));
    ("aws-cn", ("aws-cn", ["cn-north-1"; "cn-northwest-1"]));
    ("aws-us-gov", ("aws-us-gov",
       ["us-gov-east-1"; "us-gov-west-1";
        "us-gov-east-1-fips"; "us-gov-west-1-fips"]));
    ("aws-iso", ("aws-iso", ["us-iso-east-1"]));
    ("aws-iso-b", ("aws-isb-b", ["us-isob-east-1"]))
  ].

(** [GetDefaultPartitionsNames] and [GetDefaultPartitions]. *)
Definition GetDefaultPartitionsNames : list string := partitionNames.

Definition GetDefaultPartitions : gmap string (string * list string) :=
  partitions.

(** [GetRegions(id)]: the regions of the partition, [nil] for an unknown
    one. *)
Definition GetRegions (id : string) : list string :=
  match partitions !! id with
  | Some value => snd value
  | None => []
  end.

Definition ValidPartition (id : string) : bool :=
  bool_decide (is_Some (partitions !! id)).

Definition GetDefaultPartitionId : string := "aws".

End partitions.

(** ** [pkg/token]: data *)

(** [Identity], what a successful [Verify] returns. *)
Record Identity := {
  ARN : string;
  CanonicalARN : string;
  AccountID : string;
  UserID : string;
  SessionName : string;
  AccessKeyID : string;
}.

(** The actual token expiration (presigned STS urls are valid for 15
    minutes after timestamp in x-amz-date). *)
Definition presignedURLExpiration : time.Duration := 15 * time.Minute.
Definition v1Prefix : string := "k8s-aws-v1.".
Definition maxTokenLenBytes : Z := 1024 * 4.
Definition clusterIDHeader : string := "x-k8s-aws-id".
Definition dateHeaderFormat : string := "20060102T150405Z".

(** [Token]: the field [Token] of the source is [Token_] here. *)
Record Token := {
  Token_ : string;
  Expiration : time.Time;
}.

(** The two error types of the package, and [OtherError] for an error
    that comes from elsewhere ([fmt.Errorf], the SDK), by its text. *)
Inductive error :=
| FormatError (message : string)
| STSError (message : string)
| OtherError (text : string).

Definition Error (e : error) : string :=
  match e with
  | FormatError message =>
      "input token was not properly formatted: " ++ message
  | STSError message => "sts getCallerIdentity failed: " ++ message
  | OtherError text => text
  end.

Definition NewSTSError (m : string) : error := STSError m.

Definition isFormatError (e : error) : bool :=
  match e with FormatError _ => true | _ => false end.

Definition isSTSError (e : error) : bool :=
  match e with STSError _ => true | _ => false end.

Definition parameterWhitelist : gmap string bool :=
  list_to_map [
    ("action", true);
    ("version", true);
    ("x-amz-algorithm", true);
    ("x-amz-credential", true);
    ("x-amz-date", true);
    ("x-amz-expires", true);
    ("x-amz-security-token", true);
    ("x-amz-signature", true);
    ("x-amz-signedheaders", true);
    ("x-amz-user-agent", true)
  ].

(** Indexing a [map[string]bool]: the value under the key, [false] when
    there is none. *)
Definition index_bool (m : gmap string bool) (key : string) : bool :=
  default false (m !! key).

(** The result type of the GetCallerIdentity endpoint, flattened. *)
Record getCallerIdentityWrapper := {
  Account : string;
  Arn : string;
  UserId : string;
  RequestId : string;
}.

(** What the verifier takes from Go's standard library and from packages
    that are not part of [pkg/token].  Each function that can fail returns
    the text of its error ([err.Error()]) on the left. *)
Record Library := {
  (** [url.Parse]. *)
  url_Parse : string -> string + url.URL;
  (** [url.ParseQuery], which returns the values it could parse beside the
      first error it met. *)
  url_ParseQuery : string -> url.Values * option string;
  (** [u.String()] and [u.Hostname()]. *)
  URL_String : url.URL -> string;
  URL_Hostname : url.URL -> string;
  (** [strings.ToLower]. *)
  strings_ToLower : string -> string;
  (** What [%q] prints for a string ([strconv.Quote]). *)
  fmt_q : string -> string;
  (** [time.Parse(layout, value)], and [t.String()]. *)
  time_Parse : string -> string -> string + time.Time;
  Time_String : time.Time -> string;
  (** [http.NewRequest(method, url, nil)]. *)
  http_NewRequest : string -> string -> string + http.Request;
  (** [json.Unmarshal] into a [getCallerIdentityWrapper]. *)
  json_Unmarshal : string -> string + getCallerIdentityWrapper;
  (** [arn.Canonicalize], of [pkg/arn]. *)
  arn_Canonicalize : string -> string + string;
  (** [sts.NewDefaultEndpointResolver().ResolveEndpoint(region, ...)]: the
      URL of the endpoint. *)
  ResolveEndpoint : string -> string + string;
}.

(** [err != nil]. *)
Definition isSome {A} (err : option A) : bool :=
  match err with Some _ => true | None => false end.

(** What a call of [Verify] observes of the world: the clock, and the
    answer of the HTTP client (which follows no redirect:
    [CheckRedirect] returns [http.ErrUseLastResponse]). *)
Record World := {
  Now : time.Time;
  Do : http.Request -> http.DoError + http.Response;
}.

(** How a call ends: with a value, with an error, or in a run-time
    panic. *)
Inductive result (A : Type) :=
| Ok (a : A)
| Err (e : error)
| Panic.
Arguments Ok {A} a.
Arguments Err {A} e.
Arguments Panic {A}.

(** The outcome of [Verify]: the requests sent to the remote service, in
    order, and how the call ended. *)
Definition outcome (A : Type) : Type := list http.Request * result A.

Definition fail {A} (e : error) : outcome A := ([], Err e).

(** [tokenVerifier].  Its [client] is the HTTP client of the [World]. *)
Record tokenVerifier := {
  clusterID : string;
  validSTShostnames : gmap string bool;
}.

(** ** [pkg/token]: the verifier *)

Section Verifier.

Variable L : Library.

(** [stsHostsForPartition]: the host names of the STS endpoints of the
    regions of a partition.  A region whose endpoint does not resolve, or
    resolves to a URL that does not parse, is logged and skipped. *)
Definition stsHostsForPartition (partitionID : string) : gmap string bool :=
  let regions := partitions.GetRegions partitionID in
  fold_left
    (fun (validSTShostnames : gmap string bool) (region : string) =>
       match ResolveEndpoint L region with
       | inl _ => validSTShostnames
       | inr endpoint =>
           match url_Parse L endpoint with
           | inl _ => validSTShostnames
           | inr parsedURL =>
               <[URL_Hostname L parsedURL := true]> validSTShostnames
           end
       end)
    regions ∅.

(** [NewVerifier]. *)
Definition NewVerifier (clusterID partitionID : string) : tokenVerifier :=
  {| clusterID := clusterID;
     validSTShostnames := stsHostsForPartition partitionID |}.

(** [verifyHost]: the error, if there is one. *)
Definition verifyHost (v : tokenVerifier) (host : string) : option error :=
  match validSTShostnames v !! host with
  | None =>
      Some (FormatError ("unexpected hostname " ++ fmt_q L host
                         ++ " in pre-signed URL"))
  | Some _ => None
  end.

(** The loop of [Verify] over [queryParams]: every key must be in the
    whitelist once lowered and carry one value, which is then set under
    the lowered key in [queryParamsLower]. *)
Fixpoint lowerParams (queryParams : url.Values)
    (queryParamsLower : url.Values) : error + url.Values :=
  match queryParams with
  | [] => inr queryParamsLower
  | (key, values) :: rest =>
      if negb (index_bool parameterWhitelist (strings_ToLower L key)) then
        inl (FormatError ("non-whitelisted query parameter " ++ fmt_q L key))
      else if negb (length values =? 1)%nat then
        inl (FormatError "query parameter with multiple values not supported")
      else
        lowerParams rest
          (url.Set_ queryParamsLower (strings_ToLower L key)
                    (hd EmptyString values))
  end.

(** [hasSignedClusterIDHeader]. *)
Definition hasSignedClusterIDHeader (paramsLower : url.Values) : bool :=
  let signedHeaders :=
    strings.Split (url.Get paramsLower "x-amz-signedheaders") ";" in
  existsb
    (fun hdr =>
       String.eqb (strings_ToLower L hdr) (strings_ToLower L clusterIDHeader))
    signedHeaders.

(** [Verify], from its first line to the loop over the query parameters:
    the length, the prefix, the base64 text, the URL, its scheme, its
    host, its path, its query.  The result is [parsedURL] and
    [queryParamsLower]. *)
Definition parseToken (v : tokenVerifier) (token : string)
  : error + (url.URL * url.Values) :=
  if maxTokenLenBytes <? Z.of_nat (String.length token) then
    inl (FormatError "token is too large")
  else if negb (strings.HasPrefix token v1Prefix) then
    inl (FormatError ("token is missing expected " ++ fmt_q L v1Prefix
                      ++ " prefix"))
  else
    match base64.DecodeString (strings.TrimPrefix token v1Prefix) with
    | inl err => inl (FormatError err)
    | inr tokenBytes =>
    match url_Parse L tokenBytes with
    | inl err => inl (FormatError err)
    | inr parsedURL =>
        if negb (String.eqb (url.Scheme parsedURL) "https") then
          inl (FormatError ("unexpected scheme "
                            ++ fmt_q L (url.Scheme parsedURL)
                            ++ " in pre-signed URL"))
        else
          match verifyHost v (url.Host parsedURL) with
          | Some err => inl err
          | None =>
              if negb (String.eqb (url.Path parsedURL) "/") then
                inl (FormatError "unexpected path in pre-signed URL")
              else
                match url_ParseQuery L (url.RawQuery parsedURL) with
                | (_, Some _) => inl (FormatError "malformed query parameter")
                | (queryParams, None) =>
                    match lowerParams queryParams [] with
                    | inl err => inl err
                    | inr queryParamsLower =>
                        inr (parsedURL, queryParamsLower)
                    end
                end
          end
    end
    end.

(** Obtain AWS Access Key ID from supplied credentials:
    [strings.Split(queryParamsLower.Get("x-amz-credential"), "/")[0]].
    [Split] returns at least one piece, so that there is a first one. *)
Definition accessKeyIDOf (queryParamsLower : url.Values) : string :=
  hd EmptyString
     (strings.Split (url.Get queryParamsLower "x-amz-credential") "/").

(** [Verify], from the check of the action to the check of the date: the
    action, the signed headers, [x-amz-expires], [x-amz-date] and the
    expiry, at the time [now] that [time.Now()] returns.  The result is
    [accessKeyID]. *)
Definition checkParams (now : time.Time) (queryParamsLower : url.Values)
  : error + string :=
  if negb (String.eqb (url.Get queryParamsLower "action") "GetCallerIdentity")
  then inl (FormatError "unexpected action parameter in pre-signed URL")
  else if negb (hasSignedClusterIDHeader queryParamsLower) then
    inl (FormatError ("client did not sign the " ++ clusterIDHeader
                      ++ " header in the pre-signed URL"))
  else
    let '(expires, err) :=
      strconv.Atoi (url.Get queryParamsLower "x-amz-expires") in
    if (isSome err || (expires <? 0) || (900 <? expires))%bool then
      inl (FormatError ("invalid X-Amz-Expires parameter in pre-signed URL: "
                        ++ strconv.Itoa expires))
    else
      let date := url.Get queryParamsLower "x-amz-date" in
      if String.eqb date "" then
        inl (FormatError
               "X-Amz-Date parameter must be present in pre-signed URL")
      else
        let accessKeyID := accessKeyIDOf queryParamsLower in
        match time_Parse L dateHeaderFormat date with
        | inl err =>
            inl (FormatError ("error parsing X-Amz-Date parameter " ++ date
                              ++ " into format " ++ dateHeaderFormat ++ ": "
                              ++ err))
        | inr dateParam =>
            let expiration := time.Add dateParam presignedURLExpiration in
            if time.After now expiration then
              inl (FormatError
                     ("X-Amz-Date parameter is expired ("
                      ++ strconv.Itoa (presignedURLExpiration / time.Minute)
                      ++ " minute expiration) " ++ Time_String L dateParam))
            else inr accessKeyID
        end.

(** The request [Verify] sends: a GET of the parsed URL with the cluster
    ID header and the accept header.  The error of [http.NewRequest] is
    not looked at: when there is one the request is [nil], and setting a
    header on it panics. *)
Definition newRequest (v : tokenVerifier) (parsedURL : url.URL)
  : option http.Request :=
  match http_NewRequest L "GET" (URL_String L parsedURL) with
  | inl _ => None
  | inr req =>
      Some (http.Header_Set
              (http.Header_Set req clusterIDHeader (clusterID v))
              "accept" "application/json")
  end.

(** [Verify], after the answer of the remote service has come: the
    status, the body, and the identity it describes. *)
Definition parseResponse (accessKeyID : string)
    (answer : http.DoError + http.Response) : result Identity :=
  match answer with
  | inl (http.urlError urlErr) =>
      Err (NewSTSError ("error during GET: " ++ url.Err urlErr))
  | inl (http.otherError err) =>
      Err (NewSTSError ("error during GET: " ++ err))
  | inr response =>
      match http.Body response with
      | inl err => Err (NewSTSError ("error reading HTTP result: " ++ err))
      | inr responseBody =>
          if negb (http.StatusCode response =? 200) then
            Err (NewSTSError ("error from AWS (expected 200, got "
                              ++ strconv.Itoa (http.StatusCode response)
                              ++ "). Body: " ++ responseBody))
          else
            match json_Unmarshal L responseBody with
            | inl err => Err (NewSTSError err)
            | inr callerIdentity =>
                match arn_Canonicalize L (Arn callerIdentity) with
                | inl err => Err (NewSTSError err)
                | inr canonicalARN =>
                    (* The user ID is either UserID:SessionName (for assumed
                       roles) or just UserID (for IAM User principals). *)
                    let userIDParts :=
                      strings.Split (UserId callerIdentity) ":" in
                    if (length userIDParts =? 2)%nat then
                      Ok {| ARN := Arn callerIdentity;
                            CanonicalARN := canonicalARN;
                            AccountID := Account callerIdentity;
                            UserID := nth 0 userIDParts EmptyString;
                            SessionName := nth 1 userIDParts EmptyString;
                            AccessKeyID := accessKeyID |}
                    else if (length userIDParts =? 1)%nat then
                      Ok {| ARN := Arn callerIdentity;
                            CanonicalARN := canonicalARN;
                            AccountID := Account callerIdentity;
                            UserID := nth 0 userIDParts EmptyString;
                            SessionName := EmptyString;
                            AccessKeyID := accessKeyID |}
                    else
                      Err (STSError ("malformed UserID "
                                     ++ fmt_q L (UserId callerIdentity)))
                end
            end
      end
  end.

(** [Verify], from the construction of the request on. *)
Definition callSTS (v : tokenVerifier) (w : World) (parsedURL : url.URL)
    (accessKeyID : string) : outcome Identity :=
  match newRequest v parsedURL with
  | None => ([], Panic)
  | Some req => ([req], parseResponse accessKeyID (Do w req))
  end.

(** [Verify]: the three parts in the order of the source. *)
Definition Verify (v : tokenVerifier) (w : World) (token : string)
  : outcome Identity :=
  match parseToken v token with
  | inl err => fail err
  | inr (parsedURL, queryParamsLower) =>
      match checkParams (Now w) queryParamsLower with
      | inl err => fail err
      | inr accessKeyID => callSTS v w parsedURL accessKeyID
      end
  end.

(** *** The steps of the specification, as properties of a token *)

(** Steps 1 to 3 and the parse of step 4: the token is not too long,
    carries the prefix, and its base64 text decodes to a string that
    parses as the URL [u]. *)
Definition decodesTo (token : string) (u : url.URL) : Prop :=
  Z.of_nat (String.length token) <= maxTokenLenBytes /\
  strings.HasPrefix token v1Prefix = true /\
  exists tokenBytes,
    base64.DecodeString (strings.TrimPrefix token v1Prefix) = inr tokenBytes /\
    url_Parse L tokenBytes = inr u.

(** Steps 7 to 10, but for the parse of the date: the action is
    [GetCallerIdentity], the signed headers name the cluster ID header,
    [x-amz-expires] is an integer between 0 and 900, and [x-amz-date] is
    there. *)
Definition paramsValid (queryParamsLower : url.Values) : Prop :=
  url.Get queryParamsLower "action" = "GetCallerIdentity" /\
  hasSignedClusterIDHeader queryParamsLower = true /\
  (exists expires,
      strconv.Atoi (url.Get queryParamsLower "x-amz-expires")
      = (expires, None) /\ 0 <= expires <= 900) /\
  url.Get queryParamsLower "x-amz-date" <> EmptyString.

(** The failures after the outbound call that the specification lists:
    a transport error, a status other than 200, an unparseable body, a
    malformed user ID. *)
Inductive callFailure : http.DoError + http.Response -> Prop :=
| transportError (err : http.DoError) : callFailure (inl err)
| non200 (response : http.Response) (body : string) :
    http.Body response = inr body ->
    http.StatusCode response <> 200 ->
    callFailure (inr response)
| unparseableBody (response : http.Response) (body text : string) :
    http.Body response = inr body ->
    http.StatusCode response = 200 ->
    json_Unmarshal L body = inl text ->
    callFailure (inr response)
| malformedUserID (response : http.Response) (body : string)
    (callerIdentity : getCallerIdentityWrapper) :
    http.Body response = inr body ->
    http.StatusCode response = 200 ->
    json_Unmarshal L body = inr callerIdentity ->
    length (strings.Split (UserId callerIdentity) ":") <> 1%nat ->
    length (strings.Split (UserId callerIdentity) ":") <> 2%nat ->
    callFailure (inr response).

End Verifier.

(** ** Two runs of the verifier

    Go ranges over a map in an order that is not specified and that
    changes from one run to the next: two runs of [Verify] on one query
    may visit its parameters in different orders.  A [Library] stands for
    one run, whose [url_ParseQuery] lists the parameters in the order in
    which the loop of that run visits them.  Two libraries are
    [reordered] when they stand for two runs of the same program: they
    agree on every function, and on the parameters of every query but for
    their order. *)
Record reordered (L L' : Library) : Prop := {
  same_url_Parse : forall s, url_Parse L s = url_Parse L' s;
  same_parameters :
    forall q, Permutation (fst (url_ParseQuery L q))
                          (fst (url_ParseQuery L' q));
  same_query_error :
    forall q, snd (url_ParseQuery L q) = snd (url_ParseQuery L' q);
  same_URL_String : forall u, URL_String L u = URL_String L' u;
  same_URL_Hostname : forall u, URL_Hostname L u = URL_Hostname L' u;
  same_ToLower : forall s, strings_ToLower L s = strings_ToLower L' s;
  same_fmt_q : forall s, fmt_q L s = fmt_q L' s;
  same_time_Parse :
    forall layout value, time_Parse L layout value
                         = time_Parse L' layout value;
  same_Time_String : forall t, Time_String L t = Time_String L' t;
  same_NewRequest :
    forall method rawURL, http_NewRequest L method rawURL
                          = http_NewRequest L' method rawURL;
  same_Unmarshal : forall body, json_Unmarshal L body = json_Unmarshal L' body;
  same_Canonicalize :
    forall arn, arn_Canonicalize L arn = arn_Canonicalize L' arn;
  same_ResolveEndpoint :
    forall region, ResolveEndpoint L region = ResolveEndpoint L' region;
}.

(** ** [pkg/token]: the generator *)

Module generator.

(** [StdinStderrTokenProvider], which gets the MFA token from standard
    input. *)
Inductive tokenProvider := StdinStderrTokenProvider.

(** [stscreds.AssumeRoleOptions]: the fields the generator sets.  An
    empty [RoleSessionName] makes the SDK invent a session name of its
    own when the role is assumed. *)
Record AssumeRoleOptions := {
  RoleARN : string;
  ExternalID : option string;
  RoleSessionName : string;
  TokenProvider : option tokenProvider;
}.

(** Credentials providers: those a session comes with, by their source;
    the file cache of this package around a provider
    ([aws.NewCredentialsCache(&cacheProvider)]); the provider that assumes
    a role through a client.  And the configuration an STS client is made
    from ([aws.Config], of which [sts.NewFromConfig] keeps the region and
    the credentials). *)
Local Unset Elimination Schemes.
Inductive CredentialsProvider :=
| sessionCredentials (source : string)
| fileCacheProvider (clusterID profile roleARN : string)
    (credentials : option CredentialsProvider)
| AssumeRoleProvider (client : Config) (options : AssumeRoleOptions)
with Config :=
| mkConfig (region : string) (credentials : option CredentialsProvider).
Local Set Elimination Schemes.

Definition Region_ (c : Config) : string :=
  match c with mkConfig region _ => region end.
Definition Credentials (c : Config) : option CredentialsProvider :=
  match c with mkConfig _ credentials => credentials end.

(** An [*sts.Client]. *)
Definition Client := Config.

(** [sts.NewFromConfig(cfg)], and [sts.NewFromConfig(cfg, fn)] with a
    function that sets [options.Credentials]. *)
Definition NewFromConfig (cfg : Config) : Client := cfg.
Definition NewFromConfigWith (cfg : Config) (creds : CredentialsProvider)
  : Client := mkConfig (Region_ cfg) (Some creds).

(** [stscreds.NewAssumeRoleProvider(client, roleARN, optFns...)]: the
    option functions are applied, in order, to options that hold the
    client and the role. *)
Definition NewAssumeRoleProvider (client : Client) (roleARN : string)
    (optFns : list (AssumeRoleOptions -> AssumeRoleOptions))
  : CredentialsProvider :=
  let o := {| RoleARN := roleARN; ExternalID := None;
              RoleSessionName := EmptyString; TokenProvider := None |} in
  AssumeRoleProvider client (fold_left (fun o fn => fn o) optFns o).

Record GetTokenOptions := {
  Region : string;
  ClusterID : string;
  AssumeRoleARN : string;
  AssumeRoleExternalID : string;
  SessionName : string;
  Session : Config;
}.

Record t := {
  forwardSessionName : bool;
  cache : bool;
}.

(** [NewGenerator]. *)
Definition NewGenerator (forwardSessionName cache : bool) : t :=
  {| forwardSessionName := forwardSessionName; cache := cache |}.

(** What the function given to [config.LoadDefaultConfig] sets in the load
    options: the user agent key and value, the region, the endpoint of the
    endpoint credentials, and the function on the options of a role that
    the shared configuration makes the session assume. *)
Record LoadOptions := {
  UserAgentKeyValue : string * string;
  LoadRegion : string;
  EndpointCredentialsEndpoint : option string;
  AssumeRoleCredentialOptions : AssumeRoleOptions -> AssumeRoleOptions;
}.

(** What the presigner is asked for: the header values set on the
    request, and the middleware removed from the build step. *)
Record PresignOptions := {
  SetHeaderValue : list (string * string);
  BuildRemove : list string;
}.

(** What the generator takes from the SDK, from the rest of the
    repository, from the environment and from the clock. *)
Record SDK := {
  (** [pkg.Version]. *)
  Version : string;
  (** [sts.NewDefaultEndpointResolver().ResolveEndpoint(region, ...)]: the
      URL of the endpoint. *)
  ResolveEndpoint_ : string -> string + string;
  (** [config.LoadDefaultConfig]. *)
  LoadDefaultConfig : LoadOptions -> string + Config;
  (** [os.Getenv]. *)
  Getenv : string -> string;
  (** [NewFileCacheProvider(clusterID, profile, roleARN, creds)]: the
      error of opening the file cache, if there is one. *)
  NewFileCacheProvider_ :
    string -> string -> string -> option CredentialsProvider -> option string;
  (** [stsClient.GetCallerIdentity]: the [UserId] of the answer. *)
  GetCallerIdentity : Client -> error + string;
  (** [presigner.PresignGetCallerIdentity]: the URL of the presigned
      request. *)
  PresignGetCallerIdentity : Client -> PresignOptions -> error + string;
  (** [time.Now()]. *)
  Now : time.Time;
}.

(** [config.DefaultSharedConfigProfile]. *)
Definition DefaultSharedConfigProfile : string := "default".

(** The options [GetWithSTS] presigns with: the cluster ID header, the
    [X-Amz-Expires] header, and no [UserAgent] middleware. *)
Definition presignOptions (clusterID : string) : PresignOptions :=
  {| SetHeaderValue := [(clusterIDHeader, clusterID);
                        ("X-Amz-Expires", "60")];
     BuildRemove := ["UserAgent"] |}.

(** A function of [sessionSetters]: calling it assigns the variable
    [sessionName] that it captured.  It is given as the value the
    variable holds after the call, from the value before. *)
Definition setter := string -> string.

Section Generator.

Variable K : SDK.

(** [GetWithSTS]. *)
Definition GetWithSTS (g : t) (clusterID : string) (client : Client)
  : error + Token :=
  match PresignGetCallerIdentity K client (presignOptions clusterID) with
  | inl err => inl err
  | inr presignedURL =>
      (* Set token expiration to 1 minute before the presigned URL
         expires for some cushion *)
      let tokenExpiration :=
        time.Add (time.Local (Now K))
                 (presignedURLExpiration - 1 * time.Minute) in
      inr {| Token_ := v1Prefix ++ base64.EncodeToString presignedURL;
             Expiration := tokenExpiration |}
  end.

(** The load options [GetWithOptions] asks a session with. *)
Definition loadOptions (options : GetTokenOptions) : LoadOptions :=
  {| UserAgentKeyValue := ("aws-iam-authenticator", Version K);
     LoadRegion := Region options;
     EndpointCredentialsEndpoint :=
       if negb (String.eqb (Region options) "") then
         match ResolveEndpoint_ K (Region options) with
         | inl _ => None
         | inr endpoint => Some endpoint
         end
       else None;
     AssumeRoleCredentialOptions :=
       fun assumeRoleOptions =>
         let externalID :=
           if negb (String.eqb (AssumeRoleExternalID options) "")
           then Some (AssumeRoleExternalID options)
           else ExternalID assumeRoleOptions in
         let roleSessionName :=
           if negb (String.eqb (SessionName options) "")
           then SessionName options
           else RoleSessionName assumeRoleOptions in
         let roleARN :=
           if negb (String.eqb (AssumeRoleARN options) "")
           then AssumeRoleARN options
           else RoleARN assumeRoleOptions in
         {| RoleARN := roleARN; ExternalID := externalID;
            RoleSessionName := roleSessionName;
            TokenProvider := Some StdinStderrTokenProvider |} |}.

(** The body of [if options.Session.Credentials == nil]: a session with
    the base credentials available, its credentials inside the file cache
    when [cache] is set and the cache opens (when it does not, the error
    is printed and the session is used as it is). *)
Definition newSession (g : t) (options : GetTokenOptions) : error + Config :=
  match LoadDefaultConfig K (loadOptions options) with
  | inl err => inl (OtherError ("could not create session: " ++ err))
  | inr sess =>
      if cache g then
        (* figure out what profile we're using *)
        let profile :=
          if (0 <? String.length (Getenv K "AWS_PROFILE"))%nat
          then Getenv K "AWS_PROFILE"
          else DefaultSharedConfigProfile in
        (* create a caching Provider wrapper around the Credentials *)
        match NewFileCacheProvider_ K (ClusterID options) profile
                (AssumeRoleARN options) (Credentials sess) with
        | None =>
            inr (mkConfig (Region_ sess)
                   (Some (fileCacheProvider (ClusterID options) profile
                            (AssumeRoleARN options) (Credentials sess))))
        | Some _ => inr sess
        end
      else inr sess
  end.

(** The first half of the body of [if options.AssumeRoleARN != ""]:
    the functions appended to [sessionSetters]. *)
Definition sessionSettersOf (g : t) (options : GetTokenOptions)
    (stsClient : Client) : error + list setter :=
  let sessionSetters : list setter := [] in
  if forwardSessionName g then
    (* If the current session is already a federated identity, carry
       through this session name onto the new session to provide better
       debugging capabilities *)
    match GetCallerIdentity K stsClient with
    | inl err => inl err
    | inr userId =>
        let userIDParts := strings.Split userId ":" in
        if (length userIDParts =? 2)%nat then
          inr (sessionSetters ++ [fun _ => nth 1 userIDParts EmptyString])%list
        else inr sessionSetters
    end
  else if negb (String.eqb (SessionName options) "") then
    inr (sessionSetters ++ [fun _ => SessionName options])%list
  else inr sessionSetters.

(** The body of [if options.AssumeRoleARN != ""]: the client that
    replaces [stsClient], beside the final [sessionSetters].  The
    variable [sessionName] is declared empty; the only assignments to it
    are in the functions of [sessionSetters], and no statement calls
    one of them or hands the slice on, so the option function given to
    [NewAssumeRoleProvider] reads it as declared. *)
Definition assumeRole (g : t) (options : GetTokenOptions)
    (stsClient : Client) : error + (list setter * Client) :=
  let sessionName : string := EmptyString in
  match sessionSettersOf g options stsClient with
  | inl err => inl err
  | inr sessionSetters =>
      (* create STS-based credentials that will assume the given role *)
      let creds :=
        NewAssumeRoleProvider stsClient (AssumeRoleARN options)
          [fun assumeRoleOptions =>
             let assumeRoleOptions :=
               if negb (String.eqb (AssumeRoleExternalID options) "") then
                 {| RoleARN := RoleARN assumeRoleOptions;
                    ExternalID := Some (AssumeRoleExternalID options);
                    RoleSessionName := RoleSessionName assumeRoleOptions;
                    TokenProvider := TokenProvider assumeRoleOptions |}
               else assumeRoleOptions in
             if negb (String.eqb sessionName "") then
               {| RoleARN := RoleARN assumeRoleOptions;
                  ExternalID := ExternalID assumeRoleOptions;
                  RoleSessionName := sessionName;
                  TokenProvider := TokenProvider assumeRoleOptions |}
             else assumeRoleOptions] in
      (* create an STS API interface that uses the assumed role's
         temporary credentials *)
      inr (sessionSetters, NewFromConfigWith (Session options) creds)
  end.

(** [GetWithOptions] up to its last line: the options with their session,
    and the client handed to [GetWithSTS]. *)
Definition clientOf (g : t) (options : GetTokenOptions)
  : error + (GetTokenOptions * Client) :=
  if String.eqb (ClusterID options) "" then
    inl (OtherError "ClusterID is required")
  else
    match
      match Credentials (Session options) with
      | None =>
          match newSession g options with
          | inl err => inl err
          | inr sess =>
              inr {| Region := Region options;
                     ClusterID := ClusterID options;
                     AssumeRoleARN := AssumeRoleARN options;
                     AssumeRoleExternalID := AssumeRoleExternalID options;
                     SessionName := SessionName options;
                     Session := sess |}
          end
      | Some _ => inr options
      end
    with
    | inl err => inl err
    | inr options =>
        (* use an STS client based on the direct credentials *)
        let stsClient := NewFromConfig (Session options) in
        (* if a roleARN was specified, replace the STS client with one
           that uses temporary credentials from that role. *)
        if negb (String.eqb (AssumeRoleARN options) "") then
          match assumeRole g options stsClient with
          | inl err => inl err
          | inr (_, stsClient) => inr (options, stsClient)
          end
        else inr (options, stsClient)
    end.

(** [GetWithOptions]. *)
Definition GetWithOptions (g : t) (options : GetTokenOptions)
  : error + Token :=
  match clientOf g options with
  | inl err => inl err
  | inr (options, stsClient) => GetWithSTS g (ClusterID options) stsClient
  end.

(** [Get], [GetWithRole] and [GetWithRoleForSession]. *)
Definition emptyConfig : Config := mkConfig EmptyString None.

Definition Get (g : t) (clusterID : string) : error + Token :=
  GetWithOptions g
    {| Region := EmptyString; ClusterID := clusterID;
       AssumeRoleARN := EmptyString; AssumeRoleExternalID := EmptyString;
       SessionName := EmptyString; Session := emptyConfig |}.

Definition GetWithRole (g : t) (clusterID roleARN : string)
  : error + Token :=
  GetWithOptions g
    {| Region := EmptyString; ClusterID := clusterID;
       AssumeRoleARN := roleARN; AssumeRoleExternalID := EmptyString;
       SessionName := EmptyString; Session := emptyConfig |}.

Definition GetWithRoleForSession (g : t) (clusterID roleARN : string)
    (sess : Config) : error + Token :=
  GetWithOptions g
    {| Region := EmptyString; ClusterID := clusterID;
       AssumeRoleARN := roleARN; AssumeRoleExternalID := EmptyString;
       SessionName := EmptyString; Session := sess |}.

End Generator.

End generator.

(** ** The credential file cache

    The tests of the cache and their test doubles are among the sources;
    the cache itself is not.  Its operations are modelled from the
    specification, over the capabilities the specification gives it: a
    filesystem, an environment, a file lock, the upstream credentials
    provider. *)

Module filecache.

(** [aws.Credentials]. *)
Record Credentials := {
  AccessKeyID : string;
  SecretAccessKey : string;
  SessionToken : string;
  Source : string;
  CanExpire : bool;
  Expires : time.Time;
}.

Record cacheKey := {
  clusterID : string;
  profile : string;
  roleARN : string;
}.

(** The cache file: clusters, then cluster ID, then profile, then role
    ARN, then the credential. *)
Abbreviation cacheFile :=
  (gmap string (gmap string (gmap string Credentials))).

(** Modelled from the spec: the lookup in the cache file (the cache is
    not among the sources).  The credential under a key, if the whole path
    to it is there. *)
Definition cacheFile_Get (c : cacheFile) (k : cacheKey)
  : option Credentials :=
  match c !! clusterID k with
  | None => None
  | Some profiles =>
      match profiles !! profile k with
      | None => None
      | Some roles => roles !! roleARN k
      end
  end.

(** Modelled from the spec: the upsert of the cache file (the cache is
    not among the sources).  The file with the credential put under a
    key. *)
Definition cacheFile_Put (c : cacheFile) (k : cacheKey)
    (cred : Credentials) : cacheFile :=
  let profiles := default ∅ (c !! clusterID k) in
  let roles := default ∅ (profiles !! profile k) in
  <[clusterID k := <[profile k := <[roleARN k := cred]> roles]> profiles]> c.

(** Modelled from the spec: the expiry of a cached credential (the cache
    is not among the sources).  A credential is expired when
    [can_expire && now >= expires_at], or when absent. *)
Definition IsExpired (now : time.Time) (cached : option Credentials) : bool :=
  match cached with
  | None => true
  | Some cred => CanExpire cred && (Expires cred <=? now)
  end.

(** An error of the filesystem: the file does not exist
    ([os.ErrNotExist]), or another error by its text. *)
Inductive oserror :=
| ErrNotExist
| ErrOther (text : string).

Definition IsNotExist (err : option oserror) : bool :=
  match err with Some ErrNotExist => true | _ => false end.

(** [os.FileInfo], as [testFileInfo] implements it. *)
Record FileInfo := {
  name : string;
  size : Z;
  mode : Z;
  modTime : time.Time;
}.

(** What the cache did to the world, in order. *)
Inductive event :=
| EvStat (filename : string)
| EvReadFile (filename : string)
| EvWriteFile (filename data : string) (perm : Z)
| EvMkdirAll (path : string) (perm : Z)
| EvTryLock (filename : string)
| EvTryRLock (filename : string)
| EvUnlock (filename : string)
| EvUpstream.

(** Modelled from the spec: the capabilities of the cache (the cache is
    not among the sources), over a world of states [S]: the
    filesystem ([Stat], [ReadFile], [WriteFile], [MkdirAll]), the
    environment ([Getenv], [LookupEnv]), the lock on a file
    ([TryLockContext], [TryRLockContext] with their retry interval, and
    [Unlock]), the upstream provider with the expiration it exposes if it
    exposes one, the clock, and the serialization of the cache file. *)
Record Capabilities (S : Type) := {
  Stat : string -> S -> S * (FileInfo * option oserror);
  ReadFile : string -> S -> S * (string * option oserror);
  WriteFile : string -> string -> Z -> S -> S * option oserror;
  MkdirAll : string -> Z -> S -> S * option oserror;
  Getenv : string -> S -> string;
  LookupEnv : string -> S -> option string;
  TryLockContext : string -> time.Duration -> S -> S * (bool * option string);
  TryRLockContext : string -> time.Duration -> S -> S * (bool * option string);
  Unlock : string -> S -> S;
  upstream : S -> S * (string + Credentials * option time.Time);
  clock : S -> time.Time;
  yaml_Unmarshal : string -> string + cacheFile;
  yaml_Marshal : cacheFile -> string;
}.
Arguments Stat {S}. Arguments ReadFile {S}. Arguments WriteFile {S}.
Arguments MkdirAll {S}. Arguments Getenv {S}. Arguments LookupEnv {S}.
Arguments TryLockContext {S}. Arguments TryRLockContext {S}.
Arguments Unlock {S}. Arguments upstream {S}. Arguments clock {S}.
Arguments yaml_Unmarshal {S}. Arguments yaml_Marshal {S}.

(** A computation over the world that logs what it does. *)
Definition M (S A : Type) : Type := S * list event -> (S * list event) * A.

Definition ret {S A} (a : A) : M S A := fun st => (st, a).

Definition bind {S A B} (m : M S A) (k : A -> M S B) : M S B :=
  fun st => let '(st', a) := m st in k a st'.

Definition run {S A} (m : M S A) (s : S) : (S * list event) * A := m (s, []).

(** One operation on the world, logged. *)
Definition op {S A} (e : event) (f : S -> S * A) : M S A :=
  fun '(s, log) => let '(s', a) := f s in ((s', (log ++ [e])%list), a).

(** Reading the world, which is no operation on it. *)
Definition gets {S A} (f : S -> A) : M S A := fun st => (st, f (fst st)).

Declare Scope cache_scope.
Delimit Scope cache_scope with cache.
Notation "'do' x <- m ; k" := (bind m (fun x => k))
  (at level 10, x name, m at level 100, k at level 200) : cache_scope.
Notation "'do' ' p <- m ; k" := (bind m (fun p => k))
  (at level 10, p pattern, m at level 100, k at level 200) : cache_scope.

(** [filepath.Dir] of a path with [/] as separator: the path without its
    last element, and [.] when there is no directory in it. *)
Fixpoint Dir_aux (path : string) : option string :=
  match path with
  | EmptyString => None
  | String c rest =>
      match Dir_aux rest with
      | Some d => Some (String c d)
      | None => if Ascii.eqb c "/" then Some EmptyString else None
      end
  end.

Definition Dir (path : string) : string :=
  match Dir_aux path with
  | None => "."
  | Some EmptyString => "/"
  | Some d => d
  end.

(** Modelled from the spec: the retry interval of the lock, about 5 ms
    (the cache is not among the sources). *)
Definition retryInterval : time.Duration := 5 * 1000000 * time.Nanosecond.

(** [FileCacheProvider], by the fields the tests read: the key and the
    cached credential, absent when the file holds none under the key.  Its
    [credentials], the upstream provider, are the [upstream] of the
    capabilities. *)
Record FileCacheProvider := {
  cacheKey_ : cacheKey;
  cachedCredential : option Credentials;
}.

Section Cache.

Context {S : Type}.
Variable C : Capabilities S.

Local Open Scope cache_scope.

(** Modelled from the spec: [CacheFilename] (the cache is not among the
    sources).  The default is
    [<HOME>/.kube/cache/aws-iam-authenticator/credentials.yaml], where
    [HOME] falls back to [USERPROFILE]; the environment variable
    [AWS_IAM_AUTHENTICATOR_CACHE_FILE] overrides it. *)
Definition CacheFilename (s : S) : string :=
  match LookupEnv C "AWS_IAM_AUTHENTICATOR_CACHE_FILE" s with
  | Some filename => filename
  | None =>
      let home :=
        if String.eqb (Getenv C "HOME" s) "" then Getenv C "USERPROFILE" s
        else Getenv C "HOME" s in
      (home ++ "/.kube/cache/aws-iam-authenticator/credentials.yaml")%string
  end.

(** Modelled from the spec: reading and parsing the cache file.  A
    missing file reads as an empty cache; a file that cannot be read,
    or parsed, is an error. *)
Definition readCache (filename : string) : M S (string + cacheFile) :=
  do '(data, err) <- op (EvReadFile filename) (ReadFile C filename);
  match err with
  | Some ErrNotExist => ret (inr ∅)
  | Some (ErrOther text) =>
      ret (inl ("unable to open file " ++ filename ++ ": " ++ text)%string)
  | None => ret (yaml_Unmarshal C data)
  end.

(** Modelled from the spec: [NewFileCacheProvider], the initialization
    of the cache.
    - Ensure the parent directory exists (mode 0700) and the file
      exists (mode 0600); reject if the existing permissions are group
      or world accessible (any bit outside the owner set).
    - Acquire a shared lock with bounded retry; fail on a lock
      acquisition error.
    - Read and parse the cache file.  Unparseable contents fail; a
      missing file, an empty file or a missing path to the key yield an
      expired cached credential.
    The specification names no failure of ensuring that the directory
    and the file exist, and the test of a missing file has every
    operation of the filesystem fail and expects success: the model
    goes on after them. *)
Definition NewFileCacheProvider (clusterID profile roleARN : string)
  : M S (string + FileCacheProvider) :=
  do filename <- gets CacheFilename;
  do _ <- op (EvMkdirAll (Dir filename) 448) (MkdirAll C (Dir filename) 448);
  do '(info, err) <- op (EvStat filename) (Stat C filename);
  do missing <-
    (if IsNotExist err then
       do _ <- op (EvWriteFile filename EmptyString 384)
                  (WriteFile C filename EmptyString 384);
       ret true
     else ret false);
  if negb missing && negb (Z.land (mode info) 63 =? 0) then
    ret (inl ("cache file " ++ filename ++ " is not private")%string)
  else
    do '(ok, lockErr) <- op (EvTryRLock filename)
                            (TryRLockContext C filename retryInterval);
    if negb ok then
      ret (inl ("unable to read lock file " ++ filename ++ ": "
                ++ default EmptyString lockErr)%string)
    else
      do cache <- readCache filename;
      do _ <- op (EvUnlock filename) (fun s => (Unlock C filename s, tt));
      match cache with
      | inl text => ret (inl text)
      | inr cache =>
          let key := {| clusterID := clusterID; profile := profile;
                        roleARN := roleARN |} in
          ret (inr {| cacheKey_ := key;
                      cachedCredential := cacheFile_Get cache key |})
      end.

(** Modelled from the spec: keep the credential with the later
    [expires_at] (the cache is not among the sources). *)
Definition later (old : option Credentials) (new : Credentials)
  : Credentials :=
  match old with
  | Some old => if Expires new <? Expires old then old else new
  | None => new
  end.

(** Modelled from the spec: the refresh of [Retrieve] (the cache is
    not among the sources).
    - Call the upstream provider.  If the credential it returns
      carries no expiration, return it as it is and do not persist it.
    - If it carries an expiration: attempt to acquire the exclusive
      file lock.  On lock failure or write failure, return the
      credential anyway.  On success, read the file again, put the
      credential with the later expiry under the key, write the file
      (mode 0600), release the lock.
    A file that cannot be read again or parsed is overwritten: the
    test of the failing write has the read fail too and expects the
    file written.  The credential kept in memory is the one of the
    provider, with the expiration the provider exposes. *)
Definition refresh (p : FileCacheProvider)
  : M S (FileCacheProvider * (string + Credentials)) :=
  do answer <- op EvUpstream (upstream C);
  match answer with
  | inl err => ret (p, inl err)
  | inr (credential, None) => ret (p, inr credential)
  | inr (credential, Some expiration) =>
      let cached :=
        {| AccessKeyID := AccessKeyID credential;
           SecretAccessKey := SecretAccessKey credential;
           SessionToken := SessionToken credential;
           Source := Source credential;
           CanExpire := true;
           Expires := expiration |} in
      let p' := {| cacheKey_ := cacheKey_ p;
                   cachedCredential := Some cached |} in
      do filename <- gets CacheFilename;
      do '(ok, _) <- op (EvTryLock filename)
                        (TryLockContext C filename retryInterval);
      if negb ok then ret (p', inr credential)
      else
        do cache <- readCache filename;
        let cache :=
          match cache with inl _ => ∅ | inr cache => cache end in
        let kept := later (cacheFile_Get cache (cacheKey_ p)) cached in
        let data := yaml_Marshal C (cacheFile_Put cache (cacheKey_ p) kept) in
        do _ <- op (EvWriteFile filename data 384)
                   (WriteFile C filename data 384);
        do _ <- op (EvUnlock filename) (fun s => (Unlock C filename s, tt));
        ret (p', inr credential)
  end.

(** Modelled from the spec: [Retrieve] (the cache is not among the
    sources).  If the cached credential is not expired, return it (no
    I/O); otherwise refresh. *)
Definition Retrieve (p : FileCacheProvider)
  : M S (FileCacheProvider * (string + Credentials)) :=
  do now <- gets (clock C);
  match cachedCredential p with
  | Some cred =>
      if negb (IsExpired now (Some cred)) then ret (p, inr cred)
      else refresh p
  | None => refresh p
  end.

(** What the world answers to the operations of [NewFileCacheProvider],
    in their order, whether or not the initialization gets as far: the
    file information and the error of [Stat], whether the shared lock
    was acquired, the data and the error of [ReadFile]. *)
Record answers := {
  statInfo : FileInfo;
  statErr : option oserror;
  rlockOk : bool;
  readData : string;
  readErr : option oserror;
}.

Definition probe (s : S) : answers :=
  let filename := CacheFilename s in
  let '(s1, _) := MkdirAll C (Dir filename) 448 s in
  let '(s2, (info, err)) := Stat C filename s1 in
  let s3 :=
    if IsNotExist err then fst (WriteFile C filename EmptyString 384 s2)
    else s2 in
  let '(s4, (ok, _)) := TryRLockContext C filename retryInterval s3 in
  let '(_, (data, rerr)) := ReadFile C filename s4 in
  {| statInfo := info; statErr := err; rlockOk := ok;
     readData := data; readErr := rerr |}.

(** The file is there with permissions outside the owner bits. *)
Definition badPermissions (a : answers) : Prop :=
  IsNotExist (statErr a) = false /\ Z.land (mode (statInfo a)) 63 <> 0.

(** The lock cannot be acquired. *)
Definition unlockable (a : answers) : Prop := rlockOk a = false.

(** The file cannot be read, for another reason than its absence. *)
Definition unreadable (a : answers) : Prop :=
  exists text, readErr a = Some (ErrOther text).

(** The contents of the file are unparseable. *)
Definition unparseable (a : answers) : Prop :=
  readErr a = None /\ exists text, yaml_Unmarshal C (readData a) = inl text.

(** There is no cache file. *)
Definition missingFile (a : answers) : Prop :=
  readErr a = Some ErrNotExist.

(** The cache file is empty. *)
Definition emptyFile (a : answers) : Prop :=
  readErr a = None /\ readData a = EmptyString.

(** The cache file has no credential under the key. *)
Definition lacksPath (a : answers) (k : cacheKey) : Prop :=
  readErr a = None /\
  exists cache, yaml_Unmarshal C (readData a) = inr cache /\
                cacheFile_Get cache k = None.

(** The writes among the events of a log. *)
Definition writes (log : list event) : list (string * Z) :=
  flat_map
    (fun e => match e with
              | EvWriteFile filename _ perm => [(filename, perm)]
              | _ => []
              end)
    log.

End Cache.

(** The properties of the answers, unfolded. *)
Ltac unfold_answers :=
  unfold badPermissions, unlockable, unreadable, unparseable, missingFile,
    emptyFile, lacksPath;
  cbn [statInfo statErr rlockOk readData readErr cachedCredential cacheKey_].

(** Projections and tests of booleans, computed. *)
Ltac reduce := cbv beta iota zeta delta [fst snd negb andb].

End filecache.

(** ** The test doubles of the tests of the cache *)

Module mocks.

Import filecache.

Record testFS := {
  filename : string;
  fileinfo : FileInfo;
  data : string;
  err : option oserror;
  perm : Z;
}.

Definition testFS_Stat (name : string) (t : testFS)
  : testFS * (FileInfo * option oserror) :=
  ({| filename := name; fileinfo := fileinfo t; data := data t;
      err := err t; perm := perm t |},
   (fileinfo t, err t)).

Definition testFS_ReadFile (name : string) (t : testFS)
  : testFS * (string * option oserror) :=
  ({| filename := name; fileinfo := fileinfo t; data := data t;
      err := err t; perm := perm t |},
   (data t, err t)).

Definition testFS_WriteFile (name d : string) (pm : Z) (t : testFS)
  : testFS * option oserror :=
  ({| filename := name; fileinfo := fileinfo t; data := d;
      err := err t; perm := pm |},
   err t).

Definition testFS_MkdirAll (path : string) (pm : Z) (t : testFS)
  : testFS * option oserror :=
  ({| filename := path; fileinfo := fileinfo t; data := data t;
      err := err t; perm := pm |},
   err t).

Definition testFS_reset : testFS :=
  {| filename := EmptyString;
     fileinfo := {| name := EmptyString; size := 0; mode := 0;
                    modTime := 0 |};
     data := EmptyString; err := None; perm := 384 |}.

Record testEnv := { values : gmap string string }.

Definition testEnv_Getenv (key : string) (e : testEnv) : string :=
  default EmptyString (values e !! key).

Definition testEnv_LookupEnv (key : string) (e : testEnv) : option string :=
  values e !! key.

Definition testEnv_reset : testEnv := {| values := ∅ |}.

Record testFilelock := {
  retryDelay : time.Duration;
  success : bool;
  lockErr : option string;
}.

Definition testFilelock_TryLockContext (delay : time.Duration)
    (l : testFilelock) : testFilelock * (bool * option string) :=
  ({| retryDelay := delay; success := success l; lockErr := lockErr l |},
   (success l, lockErr l)).

Definition testFilelock_TryRLockContext (delay : time.Duration)
    (l : testFilelock) : testFilelock * (bool * option string) :=
  ({| retryDelay := delay; success := success l; lockErr := lockErr l |},
   (success l, lockErr l)).

Definition testFilelock_reset : testFilelock :=
  {| retryDelay := 0; success := true; lockErr := None |}.

(** [stubProvider], and [stubProviderExpirer] when [expiration] is
    there. *)
Record stubProvider := {
  creds : Credentials;
  expired : bool;
  providerErr : option string;
  expiration : option time.Time;
}.

(** [Retrieve] of the stub, as the credentials cache of the SDK around it
    hands it on: the stub is marked fresh, the source of its credentials
    is set, and the answer is its error if it has one and its credentials
    otherwise, with the expiration of [ExpiresAt] when the stub has that
    method. *)
Definition stubProvider_Retrieve (p : stubProvider)
  : stubProvider * (string + Credentials * option time.Time) :=
  let creds' :=
    {| AccessKeyID := AccessKeyID (creds p);
       SecretAccessKey := SecretAccessKey (creds p);
       SessionToken := SessionToken (creds p);
       Source := "stubProvider";
       CanExpire := CanExpire (creds p);
       Expires := Expires (creds p) |} in
  ({| creds := creds'; expired := false; providerErr := providerErr p;
      expiration := expiration p |},
   match providerErr p with
   | Some e => inl e
   | None => inr (creds', expiration p)
   end).

(** The doubles a test works with, the provider it puts under the cache,
    and the time of its clock. *)
Record world := {
  tf : testFS;
  te : testEnv;
  testFlock : testFilelock;
  provider : stubProvider;
  now : time.Time;
}.

Definition on_tf {A} (f : testFS -> testFS * A) (w : world) : world * A :=
  let '(t, a) := f (tf w) in
  ({| tf := t; te := te w; testFlock := testFlock w;
      provider := provider w; now := now w |}, a).

Definition on_testFlock {A} (f : testFilelock -> testFilelock * A)
    (w : world) : world * A :=
  let '(l, a) := f (testFlock w) in
  ({| tf := tf w; te := te w; testFlock := l;
      provider := provider w; now := now w |}, a).

Definition on_provider {A} (f : stubProvider -> stubProvider * A)
    (w : world) : world * A :=
  let '(p, a) := f (provider w) in
  ({| tf := tf w; te := te w; testFlock := testFlock w;
      provider := p; now := now w |}, a).

(** [makeCredential]: the instant is 2020-09-19T13:14:00.001Z. *)
Definition makeCredential : Credentials :=
  {| AccessKeyID := "AKID";
     SecretAccessKey := "SECRET";
     SessionToken := "TOKEN";
     Source := "stubProvider";
     Expires := 1600521240001000000;
     CanExpire := true |}.

End mocks.


(** ** [pkg/arn] *)

Module arn.

(** The pieces of a list of strings, joined by a separator
    ([strings.Join]). *)
Fixpoint Join (pieces : list string) (sep : string) : string :=
  match pieces with
  | [] => EmptyString
  | [piece] => piece
  | piece :: rest => piece ++ sep ++ Join rest sep
  end.

(** Modelled from the spec: [arn.Canonicalize] ([pkg/arn] is not among
    the sources).  If the ARN matches
    [arn:<partition>:sts::<account>:assumed-role/<role>/<session>],
    return [arn:<partition>:iam::<account>:role/<role>].  Otherwise
    validate the general ARN shape (the prefix [arn] and five more
    sections, the last of which may hold colons) and return it
    unchanged.  Malformed is an error. *)
Definition Canonicalize (arn : string) : string + string :=
  match strings.Split arn ":" with
  | prefix :: partition :: service :: region :: account :: resource :: more =>
      if negb (String.eqb prefix "arn") then
        inl ("arn '" ++ arn ++ "' is invalid: 'arn: invalid prefix'")
      else
        match service, region, more,
              strings.Split resource "/" with
        | "sts", "", [], ["assumed-role"; role; _] =>
            inr (Join ["arn"; partition; "iam"; ""; account; "role/" ++ role]
                      ":")
        | _, _, _, _ => inr arn
        end
  | _ => inl ("arn '" ++ arn ++ "' is invalid: 'arn: not enough sections'")
  end.

End arn.

(** ** A model of the library on plain text

    The functions of Go's standard library that the verifier calls, on the
    inputs the examples below use: URLs and queries of printable ASCII,
    dates of sixteen bytes, response bodies whose strings hold no escape.
    The theorems on [Verify] hold for every [Library]; this one makes
    [Verify] run. *)

Module golib.

(** The double quote. *)
Definition dq : string := String (ascii_of_nat 34) EmptyString.

(** [strings.ToLower] of ASCII text. *)
Definition lower (c : ascii) : ascii :=
  let n := base64.byte_of c in
  if (65 <=? n) && (n <=? 90) then base64.of_byte (n + 32) else c.

Fixpoint ToLower (s : string) : string :=
  match s with
  | EmptyString => EmptyString
  | String c s' => String (lower c) (ToLower s')
  end.

(** [%q] of text that needs no escape. *)
Definition Quote (s : string) : string := dq ++ s ++ dq.

(** The text before the first occurrence of a byte, and the text after
    it if it occurs. *)
Fixpoint cut (s : string) (sep : ascii) : string * option string :=
  match s with
  | EmptyString => (EmptyString, None)
  | String c s' =>
      if Ascii.eqb c sep then (EmptyString, Some s')
      else let '(before, after) := cut s' sep in (String c before, after)
  end.

Definition isLetter (c : ascii) : bool :=
  let n := base64.byte_of c in
  ((65 <=? n) && (n <=? 90)) || ((97 <=? n) && (n <=? 122)).

Definition isControl (c : ascii) : bool :=
  let n := base64.byte_of c in (n <? 32) || (n =? 127).

Fixpoint any (p : ascii -> bool) (s : string) : bool :=
  match s with
  | EmptyString => false
  | String c s' => p c || any p s'
  end.

(** [getScheme]: the scheme before the first colon and the rest, when
    what stands before the colon is a letter followed by letters, digits
    and [+-.]. *)
Definition getScheme (rawURL : string) : string * string :=
  match cut rawURL ":" with
  | (scheme, Some rest) =>
      match scheme with
      | String c _ =>
          if isLetter c
             && negb (any (fun c => negb (isLetter c || strconv.isDigit c
                                      || Ascii.eqb c "+" || Ascii.eqb c "-"
                                      || Ascii.eqb c ".")) scheme)
          then (scheme, rest) else (EmptyString, rawURL)
      | EmptyString => (EmptyString, rawURL)
      end
  | (_, None) => (EmptyString, rawURL)
  end.

(** [url.Parse] of a URL without escapes. *)
Definition Parse (rawURL : string) : string + url.URL :=
  if any isControl rawURL then
    inl ("parse " ++ Quote rawURL ++ ": net/url: invalid control character in URL")
  else
    let '(u, frag) := cut rawURL "#" in
    let '(rest, query) := cut u "?" in
    let '(scheme, rest) := getScheme rest in
    if String.prefix "//" rest then
      let authority_path := String.substring 2 (String.length rest - 2) rest in
      let '(authority, path) := cut authority_path "/" in
      let '(user, host) :=
        match cut authority "@" with
        | (user, Some host) => (Some user, host)
        | (host, None) => (None, host)
        end in
      inr {| url.Scheme := ToLower scheme; url.Opaque := EmptyString;
             url.User := user; url.Host := host;
             url.Path := match path with
                         | Some p => String "/" p
                         | None => EmptyString
                         end;
             url.RawQuery := default EmptyString query;
             url.Fragment := default EmptyString frag |}
    else if String.prefix "/" rest || String.eqb scheme "" then
      inr {| url.Scheme := ToLower scheme; url.Opaque := EmptyString;
             url.User := None; url.Host := EmptyString; url.Path := rest;
             url.RawQuery := default EmptyString query;
             url.Fragment := default EmptyString frag |}
    else
      inr {| url.Scheme := ToLower scheme; url.Opaque := rest;
             url.User := None; url.Host := EmptyString;
             url.Path := EmptyString;
             url.RawQuery := default EmptyString query;
             url.Fragment := default EmptyString frag |}.

(** [u.String()] of what [Parse] returns. *)
Definition String_ (u : url.URL) : string :=
  (if String.eqb (url.Scheme u) "" then "" else url.Scheme u ++ ":")
  ++ (if String.eqb (url.Opaque u) "" then
        (if String.eqb (url.Host u) "" && negb (isSome (url.User u)) then ""
         else "//" ++ match url.User u with
                      | Some user => user ++ "@"
                      | None => ""
                      end ++ url.Host u)
        ++ url.Path u
      else url.Opaque u)
  ++ (if String.eqb (url.RawQuery u) "" then "" else "?" ++ url.RawQuery u)
  ++ (if String.eqb (url.Fragment u) "" then "" else "#" ++ url.Fragment u).

(** [u.Hostname()]: the host without a port. *)
Definition Hostname (u : url.URL) : string := fst (cut (url.Host u) ":").

Definition hexValue (c : ascii) : option Z :=
  let n := base64.byte_of c in
  if (48 <=? n) && (n <=? 57) then Some (n - 48)
  else if (97 <=? n) && (n <=? 102) then Some (n - 87)
  else if (65 <=? n) && (n <=? 70) then Some (n - 55)
  else None.

(** [url.QueryUnescape]. *)
Fixpoint QueryUnescape (s : string) : option string :=
  match s with
  | EmptyString => Some EmptyString
  | String "%" (String h (String l s')) =>
      match hexValue h, hexValue l, QueryUnescape s' with
      | Some hv, Some lv, Some rest =>
          Some (String (base64.of_byte (16 * hv + lv)) rest)
      | _, _, _ => None
      end
  | String "%" _ => None
  | String "+" s' => option_map (String " ") (QueryUnescape s')
  | String c s' => option_map (String c) (QueryUnescape s')
  end.

(** [v[key] = append(v[key], value)]. *)
Fixpoint Add (v : url.Values) (key value : string) : url.Values :=
  match v with
  | [] => [(key, [value])]
  | (k, vs) :: rest =>
      if String.eqb k key then (k, (vs ++ [value])%list) :: rest
      else (k, vs) :: Add rest key value
  end.

(** [url.ParseQuery]: the pairs between ampersands, each cut at its
    first equals sign; a pair with a semicolon or a bad escape is
    skipped, and the first such error is returned beside the values. *)
Definition ParseQuery (query : string) : url.Values * option string :=
  fold_left
    (fun (acc : url.Values * option string) (pair : string) =>
       let '(m, err) := acc in
       if String.eqb pair "" then acc
       else if any (Ascii.eqb ";") pair then
         (m, match err with
             | None => Some "invalid semicolon separator in query"
             | _ => err
             end)
       else
         let '(key, value) := cut pair "=" in
         match QueryUnescape key,
               QueryUnescape (default EmptyString value) with
         | Some key, Some value => (Add m key value, err)
         | _, _ =>
             (m, match err with
                 | None => Some "invalid URL escape"
                 | _ => err
                 end)
         end)
    (strings.Split query "&") ([], None).

(** Days since 1970-01-01 of a date of the proleptic Gregorian
    calendar, and back. *)
Definition daysFromCivil (y m d : Z) : Z :=
  let y := if m <=? 2 then y - 1 else y in
  let era := y / 400 in
  let yoe := y - era * 400 in
  let doy := (153 * (if 2 <? m then m - 3 else m + 9) + 2) / 5 + d - 1 in
  let doe := yoe * 365 + yoe / 4 - yoe / 100 + doy in
  era * 146097 + doe - 719468.

Definition civilFromDays (z : Z) : Z * Z * Z :=
  let z := z + 719468 in
  let era := z / 146097 in
  let doe := z - era * 146097 in
  let yoe := (doe - doe / 1460 + doe / 36524 - doe / 146096) / 365 in
  let y := yoe + era * 400 in
  let doy := doe - (365 * yoe + yoe / 4 - yoe / 100) in
  let mp := (5 * doy + 2) / 153 in
  let d := doy - (153 * mp + 2) / 5 + 1 in
  let m := if mp <? 10 then mp + 3 else mp - 9 in
  (if m <=? 2 then y + 1 else y, m, d).

Definition daysIn (m y : Z) : Z :=
  if m =? 2 then
    if ((y mod 4 =? 0) && negb (y mod 100 =? 0)) || (y mod 400 =? 0)
    then 29 else 28
  else if (m =? 4) || (m =? 6) || (m =? 9) || (m =? 11) then 30
  else 31.

(** The digits of [s] from [start], [len] of them, as a number. *)
Definition number (s : string) (start len : nat) : option Z :=
  strconv.digits 0 (String.substring start len s).

(** [time.Parse] with the layout [20060102T150405Z], of a value of
    sixteen bytes. *)
Definition Parse_ (layout value : string) : string + time.Time :=
  let bad := inl ("parsing time " ++ Quote value ++ " as " ++ Quote layout
                  ++ ": cannot parse") in
  if negb (String.eqb layout dateHeaderFormat) then bad
  else if negb (String.length value =? 16)%nat then bad
  else
    match number value 0 4, number value 4 2, number value 6 2,
          String.get 8 value,
          number value 9 2, number value 11 2, number value 13 2,
          String.get 15 value with
    | Some y, Some m, Some d, Some "T"%char,
      Some hh, Some mm, Some ss, Some "Z"%char =>
        if (1 <=? m) && (m <=? 12) && (1 <=? d) && (d <=? daysIn m y)
           && (hh <? 24) && (mm <? 60) && (ss <? 60)
        then
          inr ((((daysFromCivil y m d * 24 + hh) * 60 + mm) * 60 + ss)
               * time.Second)
        else inl ("parsing time " ++ Quote value ++ ": out of range")
    | _, _, _, _, _, _, _, _ => bad
    end.

(** A number in decimal, with zeros in front up to a width. *)
Definition pad (width : nat) (n : Z) : string :=
  let s := strconv.Itoa n in
  string_of_list_ascii (repeat "0"%char (width - String.length s)) ++ s.

(** [t.String()] of a time of whole seconds, in UTC. *)
Definition TimeString (t : time.Time) : string :=
  let secs := t / time.Second in
  let days := secs / 86400 in
  let rem := secs mod 86400 in
  let '(y, m, d) := civilFromDays days in
  pad 4 y ++ "-" ++ pad 2 m ++ "-" ++ pad 2 d ++ " "
  ++ pad 2 (rem / 3600) ++ ":" ++ pad 2 (rem mod 3600 / 60) ++ ":"
  ++ pad 2 (rem mod 60) ++ " +0000 UTC".

(** [http.NewRequest]. *)
Definition NewRequest (method rawURL : string) : string + http.Request :=
  match Parse rawURL with
  | inl err => inl err
  | inr _ => inr {| http.Method := method; http.URL := rawURL;
                    http.Header := [] |}
  end.

(** The text after the first occurrence of [pat] in [s]. *)
Definition after (pat s : string) : option string :=
  match String.index 0 pat s with
  | Some i =>
      let start := (i + String.length pat)%nat in
      Some (String.substring start (String.length s - start) s)
  | None => None
  end.

(** The string under a name in a JSON text whose strings hold no
    escape, and the empty string when the name is not there. *)
Definition field (name body : string) : string :=
  match after (dq ++ name ++ dq ++ ":" ++ dq) body with
  | Some rest => fst (cut rest (ascii_of_nat 34))
  | None => EmptyString
  end.

(** [json.Unmarshal] into a [getCallerIdentityWrapper], of such a
    text. *)
Definition Unmarshal (body : string) : string + getCallerIdentityWrapper :=
  match body with
  | String "{" _ =>
      inr {| Account := field "Account" body;
             Arn := field "Arn" body;
             UserId := field "UserId" body;
             RequestId := field "RequestId" body |}
  | String c _ =>
      inl ("invalid character '" ++ String c EmptyString
           ++ "' looking for beginning of value")
  | EmptyString => inl "unexpected end of JSON input"
  end.

(** The endpoint of STS in a region of the partition [aws].  (The SDK
    names the endpoints of the FIPS regions otherwise; no example uses
    one.) *)
Definition ResolveEndpoint_ (region : string) : string + string :=
  if String.eqb region "aws-global" then inr "https://sts.amazonaws.com"
  else inr ("https://sts." ++ region ++ ".amazonaws.com").

Definition library : Library :=
  {| url_Parse := Parse;
     url_ParseQuery := ParseQuery;
     URL_String := String_;
     URL_Hostname := Hostname;
     strings_ToLower := ToLower;
     fmt_q := Quote;
     time_Parse := Parse_;
     Time_String := TimeString;
     http_NewRequest := NewRequest;
     json_Unmarshal := Unmarshal;
     arn_Canonicalize := arn.Canonicalize;
     ResolveEndpoint := ResolveEndpoint_ |}.

(** [library] in another run, whose loop visits the parameters of a query
    in the opposite order. *)
Definition reversed : Library :=
  {| url_Parse := Parse;
     url_ParseQuery := fun query => (rev (fst (ParseQuery query)),
                                     snd (ParseQuery query));
     URL_String := String_;
     URL_Hostname := Hostname;
     strings_ToLower := ToLower;
     fmt_q := Quote;
     time_Parse := Parse_;
     Time_String := TimeString;
     http_NewRequest := NewRequest;
     json_Unmarshal := Unmarshal;
     arn_Canonicalize := arn.Canonicalize;
     ResolveEndpoint := ResolveEndpoint_ |}.

(** A text with every apostrophe turned into a double quote. *)
Fixpoint quoted (s : string) : string :=
  match s with
  | EmptyString => EmptyString
  | String c s' =>
      String (if Ascii.eqb c "'" then ascii_of_nat 34 else c) (quoted s')
  end.

End golib.


(** ** The serialization of the cache file, on the text the tests use *)

Module yaml.

Import filecache.

Definition nl : string := String (ascii_of_nat 10) EmptyString.

(** A text without the zeros at its end. *)
Fixpoint trimZeros (s : string) : string :=
  match s with
  | EmptyString => EmptyString
  | String c rest =>
      match trimZeros rest with
      | EmptyString => if Ascii.eqb c "0" then EmptyString
                       else String c EmptyString
      | rest' => String c rest'
      end
  end.

(** [t.Format(time.RFC3339Nano)] of a time in UTC. *)
Definition formatRFC3339Nano (t : time.Time) : string :=
  let secs := t / time.Second in
  let nanos := t mod time.Second in
  let days := secs / 86400 in
  let rem := secs mod 86400 in
  let '(y, m, d) := golib.civilFromDays days in
  golib.pad 4 y ++ "-" ++ golib.pad 2 m ++ "-" ++ golib.pad 2 d ++ "T"
  ++ golib.pad 2 (rem / 3600) ++ ":" ++ golib.pad 2 (rem mod 3600 / 60)
  ++ ":" ++ golib.pad 2 (rem mod 60)
  ++ (if nanos =? 0 then "" else "." ++ trimZeros (golib.pad 9 nanos))
  ++ "Z".

(** The time a text of that format names, in UTC. *)
Definition parseRFC3339 (s : string) : option time.Time :=
  match golib.number s 0 4, golib.number s 5 2, golib.number s 8 2,
        golib.number s 11 2, golib.number s 14 2, golib.number s 17 2 with
  | Some y, Some m, Some d, Some hh, Some mm, Some ss =>
      let tail := String.substring 19 (String.length s - 19) s in
      let nanos :=
        match tail with
        | "Z" => Some 0
        | String "." frac =>
            match golib.cut frac "Z" with
            | (digits, Some EmptyString) =>
                match strconv.digits 0 digits with
                | Some n =>
                    if (String.length digits <=? 9)%nat
                    then Some (n * 10 ^ (9 - Z.of_nat (String.length digits)))
                    else None
                | None => None
                end
            | _ => None
            end
        | _ => None
        end in
      match nanos with
      | Some nanos =>
          if String.eqb (String.substring 4 1 s) "-"
             && String.eqb (String.substring 7 1 s) "-"
             && String.eqb (String.substring 10 1 s) "T"
             && String.eqb (String.substring 13 1 s) ":"
             && String.eqb (String.substring 16 1 s) ":"
          then
            Some ((((golib.daysFromCivil y m d * 24 + hh) * 60 + mm) * 60 + ss)
                  * time.Second + nanos)
          else None
      | None => None
      end
  | _, _, _, _, _, _ => None
  end.

Definition indent (n : nat) : string :=
  string_of_list_ascii (repeat " "%char n).

Definition concat (pieces : list string) : string :=
  fold_right String.append EmptyString pieces.

Definition marshalCredential (c : Credentials) : string :=
  indent 8 ++ "credential:" ++ nl
  ++ indent 10 ++ "accesskeyid: " ++ AccessKeyID c ++ nl
  ++ indent 10 ++ "secretaccesskey: " ++ SecretAccessKey c ++ nl
  ++ indent 10 ++ "sessiontoken: " ++ SessionToken c ++ nl
  ++ indent 10 ++ "source: " ++ Source c ++ nl
  ++ indent 10 ++ "canexpire: " ++ (if CanExpire c then "true" else "false")
  ++ nl
  ++ indent 10 ++ "expires: " ++ formatRFC3339Nano (Expires c) ++ nl.

(** [yaml.Marshal] of a cache file. *)
Definition Marshal (c : cacheFile) : string :=
  "clusters:" ++ nl
  ++ concat
       (map (fun '(cluster, profiles) =>
               indent 2 ++ cluster ++ ":" ++ nl
               ++ concat
                    (map (fun '(profile, roles) =>
                            indent 4 ++ profile ++ ":" ++ nl
                            ++ concat
                                 (map (fun '(role, cred) =>
                                         indent 6 ++ role ++ ":" ++ nl
                                         ++ marshalCredential cred)
                                      (map_to_list (roles : gmap string Credentials))))
                         (map_to_list
                            (profiles : gmap string (gmap string Credentials)))))
            (map_to_list c)).

(** The number of spaces a line starts with, and the rest of it. *)
Fixpoint indented (line : string) : nat * string :=
  match line with
  | String " " rest => let '(n, s) := indented rest in (Datatypes.S n, s)
  | _ => (O, line)
  end.

(** The key of a line that ends in a colon. *)
Definition keyOf (s : string) : option string :=
  let n := String.length s in
  if String.eqb (String.substring (n - 1) 1 s) ":"
  then Some (String.substring 0 (n - 1) s) else None.

Definition zeroCredentials : Credentials :=
  {| AccessKeyID := EmptyString; SecretAccessKey := EmptyString;
     SessionToken := EmptyString; Source := EmptyString;
     CanExpire := false; Expires := -62135596800 * time.Second |}.

(** A credential with the field of a line set. *)
Definition setField (c : Credentials) (line : string) : option Credentials :=
  match golib.after ": " line, golib.cut line ":" with
  | Some value, (name, _) =>
      let mk a s t o ce e :=
        Some {| AccessKeyID := a; SecretAccessKey := s; SessionToken := t;
                Source := o; CanExpire := ce; Expires := e |} in
      if String.eqb name "accesskeyid" then
        mk value (SecretAccessKey c) (SessionToken c) (Source c)
           (CanExpire c) (Expires c)
      else if String.eqb name "secretaccesskey" then
        mk (AccessKeyID c) value (SessionToken c) (Source c)
           (CanExpire c) (Expires c)
      else if String.eqb name "sessiontoken" then
        mk (AccessKeyID c) (SecretAccessKey c) value (Source c)
           (CanExpire c) (Expires c)
      else if String.eqb name "source" then
        mk (AccessKeyID c) (SecretAccessKey c) (SessionToken c) value
           (CanExpire c) (Expires c)
      else if String.eqb name "canexpire" then
        if String.eqb value "true" then
          mk (AccessKeyID c) (SecretAccessKey c) (SessionToken c) (Source c)
             true (Expires c)
        else if String.eqb value "false" then
          mk (AccessKeyID c) (SecretAccessKey c) (SessionToken c) (Source c)
             false (Expires c)
        else None
      else if String.eqb name "expires" then
        match parseRFC3339 value with
        | Some t =>
            mk (AccessKeyID c) (SecretAccessKey c) (SessionToken c)
               (Source c) (CanExpire c) t
        | None => None
        end
      else None
  | None, _ => None
  end.

(** Where the reader of a cache file stands: the file read so far, and
    the cluster, profile and role of the lines to come. *)
Record reader := {
  file : cacheFile;
  cluster : option string;
  profile_ : option string;
  role : option string;
}.

Definition readLine (st : option reader) (line : string) : option reader :=
  match st with
  | None => None
  | Some r =>
      if String.eqb line "" then Some r
      else
        let '(n, text) := indented line in
        match n, keyOf text, cluster r, profile_ r, role r with
        | 0%nat, Some "clusters", _, _, _ =>
            Some {| file := file r; cluster := None; profile_ := None;
                    role := None |}
        | 2%nat, Some k, _, _, _ =>
            Some {| file := <[k := default ∅ (file r !! k)]> (file r);
                    cluster := Some k; profile_ := None; role := None |}
        | 4%nat, Some k, Some c, _, _ =>
            let profiles := default ∅ (file r !! c) in
            Some {| file :=
                      <[c := <[k := default ∅ (profiles !! k)]> profiles]>
                        (file r);
                    cluster := Some c; profile_ := Some k; role := None |}
        | 6%nat, Some k, Some c, Some p, _ =>
            Some {| file := file r; cluster := Some c; profile_ := Some p;
                    role := Some k |}
        | 8%nat, Some "credential", Some c, Some p, Some a =>
            Some {| file :=
                      cacheFile_Put (file r)
                        {| clusterID := c; profile := p; roleARN := a |}
                        zeroCredentials;
                    cluster := Some c; profile_ := Some p; role := Some a |}
        | 10%nat, _, Some c, Some p, Some a =>
            let key := {| clusterID := c; profile := p; roleARN := a |} in
            match cacheFile_Get (file r) key with
            | Some cred =>
                match setField cred text with
                | Some cred' =>
                    Some {| file := cacheFile_Put (file r) key cred';
                            cluster := Some c; profile_ := Some p;
                            role := Some a |}
                | None => None
                end
            | None => None
            end
        | _, _, _, _, _ => None
        end
  end.

(** [yaml.Unmarshal] into a cache file, of the text [Marshal] writes. *)
Definition Unmarshal (data : string) : string + cacheFile :=
  match fold_left readLine (strings.Split data (ascii_of_nat 10))
                  (Some {| file := ∅; cluster := None; profile_ := None;
                           role := None |}) with
  | Some r => inr (file r)
  | None => inl "yaml: unmarshal errors"
  end.

End yaml.

Module mockcap.
Import filecache mocks.

(** The capabilities of the cache, on the doubles. *)
Definition capabilities : Capabilities world :=
  {| Stat := fun name => on_tf (testFS_Stat name);
     ReadFile := fun name => on_tf (testFS_ReadFile name);
     WriteFile := fun name d pm => on_tf (testFS_WriteFile name d pm);
     MkdirAll := fun path pm => on_tf (testFS_MkdirAll path pm);
     Getenv := fun key w => testEnv_Getenv key (te w);
     LookupEnv := fun key w => testEnv_LookupEnv key (te w);
     TryLockContext :=
       fun _ delay => on_testFlock (testFilelock_TryLockContext delay);
     TryRLockContext :=
       fun _ delay => on_testFlock (testFilelock_TryRLockContext delay);
     Unlock := fun _ w => w;
     upstream := on_provider stubProvider_Retrieve;
     clock := now;
     yaml_Unmarshal := yaml.Unmarshal;
     yaml_Marshal := yaml.Marshal |}.

(** [getMocks], around a provider and a clock. *)
Definition getMocks (p : stubProvider) (t : time.Time) : world :=
  {| tf := testFS_reset; te := testEnv_reset; testFlock := testFilelock_reset;
     provider := p; now := t |}.

Definition withErr (e : option oserror) (w : world) : world :=
  {| tf := {| filename := filename (tf w); fileinfo := fileinfo (tf w);
              data := data (tf w); err := e; perm := perm (tf w) |};
     te := te w; testFlock := testFlock w; provider := provider w;
     now := now w |}.

Definition withData (d : string) (w : world) : world :=
  {| tf := {| filename := filename (tf w); fileinfo := fileinfo (tf w);
              data := d; err := err (tf w); perm := perm (tf w) |};
     te := te w; testFlock := testFlock w; provider := provider w;
     now := now w |}.

Definition withMode (m : Z) (w : world) : world :=
  {| tf := {| filename := filename (tf w);
              fileinfo := {| name := name (fileinfo (tf w));
                             size := size (fileinfo (tf w));
                             mode := m;
                             modTime := modTime (fileinfo (tf w)) |};
              data := data (tf w); err := err (tf w); perm := perm (tf w) |};
     te := te w; testFlock := testFlock w; provider := provider w;
     now := now w |}.

Definition withLock (ok : bool) (e : option string) (w : world) : world :=
  {| tf := tf w; te := te w;
     testFlock := {| retryDelay := retryDelay (testFlock w); success := ok;
                     lockErr := e |};
     provider := provider w; now := now w |}.

Definition stub : stubProvider :=
  {| creds := makeCredential; expired := false; providerErr := None;
     expiration := None |}.

Definition stubExpirer : stubProvider :=
  {| creds := makeCredential; expired := false; providerErr := None;
     expiration := Some 1600521240001000000 |}.

(** The expected data of [TestFileCacheProvider_Retrieve_WithExpirer_Unwritable]. *)
Definition expectedData : string :=
  yaml.concat
    (map (fun line => line ++ yaml.nl)
       ["clusters:";
        "  CLUSTER:";
        "    PROFILE:";
        "      ARN:";
        "        credential:";
        "          accesskeyid: AKID";
        "          secretaccesskey: SECRET";
        "          sessiontoken: TOKEN";
        "          source: stubProvider";
        "          canexpire: true";
        "          expires: 2020-09-19T13:14:00.001Z"]).
End mockcap.


(** ** The inputs of the examples *)

Module examples.

(** 2020-01-01T00:00:00Z. *)
Definition signingTime : time.Time := 1577836800 * time.Second.

(** A presigned URL as the generator obtains one, signed at
    [signingTime]. *)
Definition presignedURL : string :=
  "https://sts.amazonaws.com/?Action=GetCallerIdentity&Version=2011-06-15&X-Amz-Algorithm=AWS4-HMAC-SHA256&X-Amz-Credential=AKIAEXAMPLE%2F20200101%2Fus-east-1%2Fsts%2Faws4_request&X-Amz-Date=20200101T000000Z&X-Amz-Expires=60&X-Amz-SignedHeaders=host%3Bx-k8s-aws-id&X-Amz-Signature=abcdef".

Definition token : string := v1Prefix ++ base64.EncodeToString presignedURL.

Definition parsedURL : url.URL :=
  {| url.Scheme := "https"; url.Opaque := ""; url.User := None;
     url.Host := "sts.amazonaws.com"; url.Path := "/";
     url.RawQuery :=
       "Action=GetCallerIdentity&Version=2011-06-15&X-Amz-Algorithm=AWS4-HMAC-SHA256&X-Amz-Credential=AKIAEXAMPLE%2F20200101%2Fus-east-1%2Fsts%2Faws4_request&X-Amz-Date=20200101T000000Z&X-Amz-Expires=60&X-Amz-SignedHeaders=host%3Bx-k8s-aws-id&X-Amz-Signature=abcdef";
     url.Fragment := "" |}.

Definition queryParamsLower : url.Values :=
  [("action", ["GetCallerIdentity"]);
   ("version", ["2011-06-15"]);
   ("x-amz-algorithm", ["AWS4-HMAC-SHA256"]);
   ("x-amz-credential", ["AKIAEXAMPLE/20200101/us-east-1/sts/aws4_request"]);
   ("x-amz-date", ["20200101T000000Z"]);
   ("x-amz-expires", ["60"]);
   ("x-amz-signedheaders", ["host;x-k8s-aws-id"]);
   ("x-amz-signature", ["abcdef"])].

(** The same URL without [X-Amz-Credential] and [X-Amz-Signature]. *)
Definition unsignedURL : string :=
  "https://sts.amazonaws.com/?Action=GetCallerIdentity&Version=2011-06-15&X-Amz-Date=20200101T000000Z&X-Amz-Expires=60&X-Amz-SignedHeaders=host%3Bx-k8s-aws-id".

Definition unsignedToken : string :=
  v1Prefix ++ base64.EncodeToString unsignedURL.

Definition unsignedParsedURL : url.URL :=
  {| url.Scheme := "https"; url.Opaque := ""; url.User := None;
     url.Host := "sts.amazonaws.com"; url.Path := "/";
     url.RawQuery :=
       "Action=GetCallerIdentity&Version=2011-06-15&X-Amz-Date=20200101T000000Z&X-Amz-Expires=60&X-Amz-SignedHeaders=host%3Bx-k8s-aws-id";
     url.Fragment := "" |}.

Definition unsignedQueryParams : url.Values :=
  [("Action", ["GetCallerIdentity"]);
   ("Version", ["2011-06-15"]);
   ("X-Amz-Date", ["20200101T000000Z"]);
   ("X-Amz-Expires", ["60"]);
   ("X-Amz-SignedHeaders", ["host;x-k8s-aws-id"])].

Definition unsignedQueryParamsLower : url.Values :=
  [("action", ["GetCallerIdentity"]);
   ("version", ["2011-06-15"]);
   ("x-amz-date", ["20200101T000000Z"]);
   ("x-amz-expires", ["60"]);
   ("x-amz-signedheaders", ["host;x-k8s-aws-id"])].

(** A URL of scheme [https] whose host is no STS endpoint and whose path
    is not [/]. *)
Definition strayURL : string :=
  "https://evil.example.com/latest/meta-data?Action=GetCallerIdentity".

Definition strayToken : string := v1Prefix ++ base64.EncodeToString strayURL.

Definition strayParsedURL : url.URL :=
  {| url.Scheme := "https"; url.Opaque := ""; url.User := None;
     url.Host := "evil.example.com"; url.Path := "/latest/meta-data";
     url.RawQuery := "Action=GetCallerIdentity"; url.Fragment := "" |}.

(** An STS endpoint, and a path that is not [/]. *)
Definition pathURL : string :=
  "https://sts.amazonaws.com/latest/meta-data?Action=GetCallerIdentity".

Definition pathToken : string := v1Prefix ++ base64.EncodeToString pathURL.

Definition pathParsedURL : url.URL :=
  {| url.Scheme := "https"; url.Opaque := ""; url.User := None;
     url.Host := "sts.amazonaws.com"; url.Path := "/latest/meta-data";
     url.RawQuery := "Action=GetCallerIdentity"; url.Fragment := "" |}.

(** A URL of scheme [http]. *)
Definition plainToken : string :=
  v1Prefix ++ base64.EncodeToString "http://sts.amazonaws.com/".

(** The body of an answer of STS for an assumed role. *)
Definition body : string := golib.quoted
  "{'GetCallerIdentityResponse':{'GetCallerIdentityResult':{'Account':'123456789012','Arn':'arn:aws:sts::123456789012:assumed-role/dev/sess-1','UserId':'AROAEXAMPLE:sess-1'},'ResponseMetadata':{'RequestId':'r-1'}}}".

Definition callerIdentity : getCallerIdentityWrapper :=
  {| Account := "123456789012";
     Arn := "arn:aws:sts::123456789012:assumed-role/dev/sess-1";
     UserId := "AROAEXAMPLE:sess-1";
     RequestId := "r-1" |}.

Definition response : http.Response :=
  {| http.StatusCode := 200; http.Body := inr body |}.

(** A world whose clock reads [now] and whose STS answers [response]. *)
Definition world (now : time.Time) : World :=
  {| Now := now; Do := fun _ => inr response |}.

Definition verifier : tokenVerifier :=
  NewVerifier golib.library "my-cluster" "aws".

Definition request (rawURL : string) : http.Request :=
  {| http.Method := "GET"; http.URL := rawURL;
     http.Header := [("x-k8s-aws-id", "my-cluster");
                     ("accept", "application/json")] |}.

Definition identity (accessKeyID : string) : Identity :=
  {| ARN := "arn:aws:sts::123456789012:assumed-role/dev/sess-1";
     CanonicalARN := "arn:aws:iam::123456789012:role/dev";
     AccountID := "123456789012";
     UserID := "AROAEXAMPLE";
     SessionName := "sess-1";
     AccessKeyID := accessKeyID |}.

(** An SDK whose caller is the assumed role [AROAEXAMPLE:alice] and whose
    presigner returns [presignedURL]. *)
Definition sdk : generator.SDK :=
  {| generator.Version := "v0.5.3";
     generator.ResolveEndpoint_ := golib.ResolveEndpoint_;
     generator.LoadDefaultConfig :=
       fun _ =>
         inr (generator.mkConfig "us-east-1"
                (Some (generator.sessionCredentials "EnvConfigCredentials")));
     generator.Getenv := fun _ => EmptyString;
     generator.NewFileCacheProvider_ := fun _ _ _ _ => None;
     generator.GetCallerIdentity := fun _ => inr "AROAEXAMPLE:alice";
     generator.PresignGetCallerIdentity := fun _ _ => inr presignedURL;
     generator.Now := signingTime |}.

Definition session : generator.Config :=
  generator.mkConfig "us-east-1"
    (Some (generator.sessionCredentials "EnvConfigCredentials")).

(** Options that name a role to assume, an external ID and a session
    name. *)
Definition options : generator.GetTokenOptions :=
  {| generator.Region := "us-east-1";
     generator.ClusterID := "my-cluster";
     generator.AssumeRoleARN := "arn:aws:iam::123456789012:role/deploy";
     generator.AssumeRoleExternalID := "ext-1";
     generator.SessionName := "my-session";
     generator.Session := session |}.

(** The provider that replaces the credentials of the client. *)
Definition assumed (roleSessionName : string) : generator.Client :=
  generator.mkConfig "us-east-1"
    (Some (generator.AssumeRoleProvider session
             {| generator.RoleARN := "arn:aws:iam::123456789012:role/deploy";
                generator.ExternalID := Some "ext-1";
                generator.RoleSessionName := roleSessionName;
                generator.TokenProvider := None |})).

(** The time of the clock of the tests of the cache. *)
Definition testTime : time.Time := 1600000000 * time.Second.

(** [NewFileCacheProvider("CLUSTER", "PROFILE", "ARN", c)] on the
    doubles. *)
Definition opened (w : mocks.world)
  : (mocks.world * list filecache.event)
    * (string + filecache.FileCacheProvider) :=
  filecache.run
    (filecache.NewFileCacheProvider mockcap.capabilities
       "CLUSTER" "PROFILE" "ARN") w.

Definition testKey : filecache.cacheKey :=
  {| filecache.clusterID := "CLUSTER"; filecache.profile := "PROFILE";
     filecache.roleARN := "ARN" |}.

(** The provider of a cache opened on a missing file. *)
Definition missingProvider : filecache.FileCacheProvider :=
  {| filecache.cacheKey_ := testKey; filecache.cachedCredential := None |}.

Definition cacheFilename : string :=
  "/.kube/cache/aws-iam-authenticator/credentials.yaml".

(** The doubles after the cache was opened on a missing file, as the
    tests of [Retrieve] set them: the lock fails, or the filesystem
    does. *)
Definition unlockableWorld : mocks.world :=
  mockcap.withLock false (Some "lock stuck, needs wd-40")
    (mockcap.withErr (Some filecache.ErrNotExist)
       (mockcap.getMocks mockcap.stubExpirer testTime)).

Definition unwritableWorld : mocks.world :=
  mockcap.withErr (Some (filecache.ErrOther "can't write cache"))
    (mockcap.getMocks mockcap.stubExpirer testTime).

(** An SDK like [sdk], whose file cache does not open. *)
Definition uncachedSdk : generator.SDK :=
  {| generator.Version := "v0.5.3";
     generator.ResolveEndpoint_ := golib.ResolveEndpoint_;
     generator.LoadDefaultConfig :=
       fun _ =>
         inr (generator.mkConfig "us-east-1"
                (Some (generator.sessionCredentials "EnvConfigCredentials")));
     generator.Getenv := fun _ => EmptyString;
     generator.NewFileCacheProvider_ :=
       fun _ _ _ _ => Some "cache file is not readable";
     generator.GetCallerIdentity := fun _ => inr "AROAEXAMPLE:alice";
     generator.PresignGetCallerIdentity := fun _ _ => inr presignedURL;
     generator.Now := signingTime |}.

(** An SDK like [sdk], with no configuration to load and a profile in the
    environment. *)
Definition bareSdk : generator.SDK :=
  {| generator.Version := "v0.5.3";
     generator.ResolveEndpoint_ := golib.ResolveEndpoint_;
     generator.LoadDefaultConfig := fun _ => inl "no configuration";
     generator.Getenv := fun _ => "dev";
     generator.NewFileCacheProvider_ :=
       fun _ _ _ _ => Some "cache file is not readable";
     generator.GetCallerIdentity := fun _ => inr "AROAEXAMPLE:alice";
     generator.PresignGetCallerIdentity := fun _ _ => inr presignedURL;
     generator.Now := signingTime |}.

(** Options that name the cluster and nothing else. *)
Definition plainOptions : generator.GetTokenOptions :=
  {| generator.Region := "";
     generator.ClusterID := "my-cluster";
     generator.AssumeRoleARN := "";
     generator.AssumeRoleExternalID := "";
     generator.SessionName := "";
     generator.Session := generator.emptyConfig |}.

(** The token of [presignedURL], minted at [signingTime]. *)
Definition minted : Token :=
  {| Token_ := token; Expiration := signingTime + 14 * time.Minute |}.

(** An answer of STS that denies the request. *)
Definition denied : http.Response :=
  {| http.StatusCode := 403; http.Body := inr "denied" |}.

(** A world whose clock reads [now] and whose STS gives [answer]. *)
Definition answering (now : time.Time)
    (answer : http.DoError + http.Response) : World :=
  {| Now := now; Do := fun _ => answer |}.

(** A URL of scheme [http] whose host is no STS endpoint and whose path
    is not [/]. *)
Definition schemeURL : string :=
  "http://evil.example.com/latest/meta-data?Action=GetCallerIdentity".

Definition schemeToken : string :=
  v1Prefix ++ base64.EncodeToString schemeURL.

Definition schemeParsedURL : url.URL :=
  {| url.Scheme := "http"; url.Opaque := ""; url.User := None;
     url.Host := "evil.example.com"; url.Path := "/latest/meta-data";
     url.RawQuery := "Action=GetCallerIdentity"; url.Fragment := "" |}.

(** The body of an answer of STS for an IAM user, without an ARN. *)
Definition noArnBody : string := golib.quoted
  "{'GetCallerIdentityResponse':{'GetCallerIdentityResult':{'Account':'123456789012','UserId':'AIDAEXAMPLE'},'ResponseMetadata':{'RequestId':'r-2'}}}".

Definition noArnIdentity : getCallerIdentityWrapper :=
  {| Account := "123456789012"; Arn := ""; UserId := "AIDAEXAMPLE";
     RequestId := "r-2" |}.

Definition noArnResponse : http.Response :=
  {| http.StatusCode := 200; http.Body := inr noArnBody |}.

(** An SDK like [sdk], whose presigner signs only a request that carries
    the cluster ID [my-cluster] in the cluster ID header. *)
Definition strictSdk : generator.SDK :=
  {| generator.Version := "v0.5.3";
     generator.ResolveEndpoint_ := golib.ResolveEndpoint_;
     generator.LoadDefaultConfig :=
       fun _ =>
         inr (generator.mkConfig "us-east-1"
                (Some (generator.sessionCredentials "EnvConfigCredentials")));
     generator.Getenv := fun _ => EmptyString;
     generator.NewFileCacheProvider_ := fun _ _ _ _ => None;
     generator.GetCallerIdentity := fun _ => inr "AROAEXAMPLE:alice";
     generator.PresignGetCallerIdentity :=
       fun _ o =>
         match generator.SetHeaderValue o with
         | ("x-k8s-aws-id", "my-cluster") :: _ => inr presignedURL
         | _ => inl (OtherError "the cluster ID header is not set")
         end;
     generator.Now := signingTime |}.

End examples.

(** * Properties *)

(** ** [strings] *)

Lemma Split_length (s : string) (sep : ascii) :
  length (strings.Split s sep) = Datatypes.S (strings.Count s sep).
Proof.
  induction s as [| c s IH]; cbn [strings.Split strings.Count]; [reflexivity |].
  destruct (Ascii.eqb c sep); cbn [length Nat.add].
  - rewrite IH. reflexivity.
  - destruct (strings.Split s sep) as [| piece pieces]; [discriminate |].
    cbn [length] in *. exact IH.
Qed.

Lemma Split_without_separator (s : string) (sep : ascii) :
  strings.Count s sep = O -> strings.Split s sep = [s].
Proof.
  induction s as [| c s IH]; cbn [strings.Split strings.Count]; [reflexivity |].
  destruct (Ascii.eqb c sep); [discriminate |].
  cbn [Nat.add]. intros H. rewrite (IH H). reflexivity.
Qed.

Lemma substring_all (s : string) : String.substring 0 (String.length s) s = s.
Proof.
  induction s as [| c s IH]; [reflexivity |].
  cbn [String.length String.substring]. rewrite IH. reflexivity.
Qed.

Lemma append_cons (c : ascii) (p s : string) :
  String c p ++ s = String c (p ++ s).
Proof. reflexivity. Qed.

Lemma prefix_append (p s : string) : String.prefix p (p ++ s) = true.
Proof.
  induction p as [| c p IH]; [destruct s; reflexivity |].
  rewrite append_cons. cbn [String.prefix].
  destruct (ascii_dec c c); [exact IH | contradiction].
Qed.

Lemma substring_append (p s : string) :
  String.substring (String.length p)
    (String.length (p ++ s) - String.length p) (p ++ s) = s.
Proof.
  induction p as [| c p IH].
  - change (EmptyString ++ s) with s. cbn [String.length].
    rewrite Nat.sub_0_r. apply substring_all.
  - rewrite append_cons. cbn [String.length String.substring Nat.sub].
    exact IH.
Qed.

Lemma TrimPrefix_v1Prefix (s : string) :
  strings.HasPrefix (v1Prefix ++ s) v1Prefix = true /\
  strings.TrimPrefix (v1Prefix ++ s) v1Prefix = s.
Proof.
  unfold strings.TrimPrefix, strings.HasPrefix.
  rewrite prefix_append. split; [reflexivity | apply substring_append].
Qed.

(** ** [base64]: decoding is the inverse of encoding *)

Lemma lor_shiftl_add (hi lo n : Z) :
  0 <= n -> 0 <= lo < 2 ^ n -> Z.lor (Z.shiftl hi n) lo = hi * 2 ^ n + lo.
Proof.
  intros Hn Hlo.
  assert (Hland : Z.land (Z.shiftl hi n) lo = 0).
  { apply Z.bits_inj'. intros m Hm.
    rewrite Z.land_spec, Z.bits_0.
    destruct (Z.lt_ge_cases m n) as [Hlt | Hge].
    - rewrite Z.shiftl_spec_low by assumption. reflexivity.
    - assert (Hbit : Z.testbit lo m = false).
      { apply Z.testbit_false; [assumption |].
        rewrite Z.div_small; [reflexivity |].
        split; [lia |]. apply Z.lt_le_trans with (2 ^ n); [lia |].
        apply Z.pow_le_mono_r; lia. }
      rewrite Hbit. apply andb_false_r. }
  rewrite <- Z.lxor_lor by assumption.
  rewrite <- Z.add_nocarry_lxor by assumption.
  rewrite Z.shiftl_mul_pow2 by assumption. reflexivity.
Qed.

Lemma lor_mul_add (hi lo n : Z) :
  0 <= n -> 0 <= lo < 2 ^ n -> Z.lor (hi * 2 ^ n) lo = hi * 2 ^ n + lo.
Proof.
  intros Hn Hlo. rewrite <- (lor_shiftl_add hi lo n) by assumption.
  rewrite Z.shiftl_mul_pow2 by assumption. reflexivity.
Qed.

Lemma byte_of_range (c : ascii) : 0 <= base64.byte_of c < 256.
Proof. unfold base64.byte_of. pose proof (N_ascii_bounded c). lia. Qed.

Lemma of_byte_of (c : ascii) : base64.of_byte (base64.byte_of c) = c.
Proof.
  unfold base64.of_byte, base64.byte_of.
  rewrite N2Z.id. apply ascii_N_embedding.
Qed.

Lemma land63 (x : Z) : Z.land x 63 = x mod 64.
Proof. exact (Z.land_ones x 6 ltac:(lia)). Qed.

Lemma land255 (x : Z) : Z.land x 255 = x mod 256.
Proof. exact (Z.land_ones x 8 ltac:(lia)). Qed.

Lemma quantum3 (a b c : Z) :
  0 <= a < 256 -> 0 <= b < 256 -> 0 <= c < 256 ->
  let val := Z.lor (Z.shiftl a 16) (Z.lor (Z.shiftl b 8) c) in
  let v0 := Z.land (Z.shiftr val 18) 63 in
  let v1 := Z.land (Z.shiftr val 12) 63 in
  let v2 := Z.land (Z.shiftr val 6) 63 in
  let v3 := Z.land val 63 in
  let val' := Z.lor (Z.shiftl v0 18)
                (Z.lor (Z.shiftl v1 12) (Z.lor (Z.shiftl v2 6) v3)) in
  Z.land (Z.shiftr val' 16) 255 = a /\
  Z.land (Z.shiftr val' 8) 255 = b /\
  Z.land val' 255 = c.
Proof.
  intros Ha Hb Hc. cbv zeta. rewrite ?land63, ?land255.
  rewrite ?Z.shiftr_div_pow2, ?Z.shiftl_mul_pow2 by lia.
  rewrite (lor_mul_add b c 8) by lia.
  rewrite (lor_mul_add a _ 16) by lia.
  set (val := a * 2 ^ 16 + (b * 2 ^ 8 + c)).
  pose proof (Z.mod_pos_bound val 64 ltac:(lia)).
  pose proof (Z.mod_pos_bound (val / 2 ^ 6) 64 ltac:(lia)).
  pose proof (Z.mod_pos_bound (val / 2 ^ 12) 64 ltac:(lia)).
  pose proof (Z.mod_pos_bound (val / 2 ^ 18) 64 ltac:(lia)).
  rewrite (lor_mul_add _ (val mod 64) 6) by lia.
  rewrite (lor_mul_add _ _ 12) by lia.
  rewrite (lor_mul_add _ _ 18) by lia.
  subst val. base64.powers.
  repeat split; Z.div_mod_to_equations; lia.
Qed.

Lemma quantum2 (a b : Z) :
  0 <= a < 256 -> 0 <= b < 256 ->
  let val := Z.lor (Z.shiftl a 16) (Z.shiftl b 8) in
  let v0 := Z.land (Z.shiftr val 18) 63 in
  let v1 := Z.land (Z.shiftr val 12) 63 in
  let v2 := Z.land (Z.shiftr val 6) 63 in
  let val' := Z.lor (Z.shiftl v0 18)
                (Z.lor (Z.shiftl v1 12) (Z.shiftl v2 6)) in
  Z.land (Z.shiftr val' 16) 255 = a /\
  Z.land (Z.shiftr val' 8) 255 = b.
Proof.
  intros Ha Hb. cbv zeta. rewrite ?land63, ?land255.
  rewrite ?Z.shiftr_div_pow2, ?Z.shiftl_mul_pow2 by lia.
  rewrite (lor_mul_add a _ 16) by lia.
  set (val := a * 2 ^ 16 + b * 2 ^ 8).
  pose proof (Z.mod_pos_bound (val / 2 ^ 6) 64 ltac:(lia)).
  pose proof (Z.mod_pos_bound (val / 2 ^ 12) 64 ltac:(lia)).
  pose proof (Z.mod_pos_bound (val / 2 ^ 18) 64 ltac:(lia)).
  rewrite (lor_mul_add _ _ 12) by lia.
  rewrite (lor_mul_add _ _ 18) by lia.
  subst val. base64.powers.
  split; Z.div_mod_to_equations; lia.
Qed.

Lemma quantum1 (a : Z) :
  0 <= a < 256 ->
  let val := Z.shiftl a 16 in
  let v0 := Z.land (Z.shiftr val 18) 63 in
  let v1 := Z.land (Z.shiftr val 12) 63 in
  let val' := Z.lor (Z.shiftl v0 18) (Z.shiftl v1 12) in
  Z.land (Z.shiftr val' 16) 255 = a.
Proof.
  intros Ha. cbv zeta. rewrite ?land63, ?land255.
  rewrite ?Z.shiftr_div_pow2, ?Z.shiftl_mul_pow2 by lia.
  set (val := a * 2 ^ 16).
  pose proof (Z.mod_pos_bound (val / 2 ^ 12) 64 ltac:(lia)).
  pose proof (Z.mod_pos_bound (val / 2 ^ 18) 64 ltac:(lia)).
  rewrite (lor_mul_add _ _ 18) by lia.
  subst val. base64.powers.
  Z.div_mod_to_equations; lia.
Qed.

(** Induction on a string, three bytes at a time. *)
Lemma string_ind3 (P : string -> Prop) :
  P EmptyString ->
  (forall a, P (String a EmptyString)) ->
  (forall a b, P (String a (String b EmptyString))) ->
  (forall a b c rest, P rest -> P (String a (String b (String c rest)))) ->
  forall s, P s.
Proof.
  intros H0 H1 H2 H3 s.
  assert (H : P s /\ (forall a, P (String a s))
              /\ (forall a b, P (String a (String b s)))).
  { induction s as [| c s IH].
    - repeat split; auto.
    - destruct IH as (IH0 & IH1 & IH2). repeat split; auto. }
  apply H.
Qed.

Lemma bytes_groups (src : string) :
  base64.bytes (base64.groups src) = Some src.
Proof.
  induction src as [| a | a b | a b c rest IH] using string_ind3.
  - reflexivity.
  - cbn [base64.groups base64.bytes].
    rewrite (quantum1 _ (byte_of_range a)), of_byte_of. reflexivity.
  - cbn [base64.groups base64.bytes].
    destruct (quantum2 _ _ (byte_of_range a) (byte_of_range b)) as [Ea Eb].
    rewrite Ea, Eb, !of_byte_of. reflexivity.
  - cbn [base64.groups base64.bytes]. rewrite IH. cbn [option_map].
    destruct (quantum3 _ _ _ (byte_of_range a) (byte_of_range b)
                (byte_of_range c)) as (Ea & Eb & Ec).
    rewrite Ea, Eb, Ec, !of_byte_of. reflexivity.
Qed.

Lemma land63_group (x : Z) : base64.isGroup (Z.land x 63).
Proof. unfold base64.isGroup. rewrite land63. apply Z.mod_pos_bound. lia. Qed.

Lemma groups_range (src : string) :
  List.Forall base64.isGroup (base64.groups src).
Proof.
  induction src as [| a | a b | a b c rest IH] using string_ind3;
    cbn [base64.groups];
    repeat first [ exact IH | apply List.Forall_nil
                 | apply List.Forall_cons; [apply land63_group |] ].
Qed.

Lemma encode_table : forallb base64.encode_ok (seq 0 64) = true.
Proof. vm_compute. reflexivity. Qed.

Lemma encode_spec (v : Z) :
  base64.isGroup v ->
  base64.decodeMap (base64.encode v) = Some v /\
  base64.urlSafe (base64.encode v) = true /\
  Ascii.eqb (base64.encode v) "010" = false /\
  Ascii.eqb (base64.encode v) "013" = false.
Proof.
  intros Hv.
  pose proof encode_table as H. rewrite forallb_forall in H.
  specialize (H (Z.to_nat v)).
  assert (Hin : In (Z.to_nat v) (seq 0 64)).
  { apply in_seq. unfold base64.isGroup in Hv. lia. }
  specialize (H Hin). unfold base64.encode_ok in H.
  rewrite Z2Nat.id in H by (unfold base64.isGroup in Hv; lia).
  destruct (base64.decodeMap (base64.encode v)) as [v' |]; [| discriminate].
  apply andb_prop in H. destruct H as [H H4].
  apply andb_prop in H. destruct H as [H H3].
  apply andb_prop in H. destruct H as [H1 H2].
  apply Z.eqb_eq in H1. subst v'.
  apply negb_true_iff in H3. apply negb_true_iff in H4. auto.
Qed.

Lemma values_encode (gs : list Z) :
  List.Forall base64.isGroup gs ->
  base64.values (string_of_list_ascii (map base64.encode gs)) = Some gs.
Proof.
  induction 1 as [| v gs Hv _ IH]; [reflexivity |].
  cbn [map string_of_list_ascii base64.values].
  destruct (encode_spec v Hv) as (Hd & _ & Hn & Hr).
  rewrite Hn, Hr, Hd, IH. reflexivity.
Qed.

Lemma DecodeString_EncodeToString (src : string) :
  base64.DecodeString (base64.EncodeToString src) = inr src.
Proof.
  unfold base64.DecodeString, base64.EncodeToString.
  rewrite values_encode by apply groups_range.
  rewrite bytes_groups. reflexivity.
Qed.

Lemma EncodeToString_urlSafe (src : string) :
  forallb base64.urlSafe (list_ascii_of_string (base64.EncodeToString src))
  = true.
Proof.
  unfold base64.EncodeToString. rewrite list_ascii_of_string_of_list_ascii.
  apply forallb_forall. intros c Hc. apply in_map_iff in Hc.
  destruct Hc as (v & <- & Hv).
  pose proof (groups_range src) as HF. rewrite List.Forall_forall in HF.
  apply encode_spec. apply HF. exact Hv.
Qed.

Lemma length_groups (src : string) :
  Z.of_nat (length (base64.groups src))
  = (4 * Z.of_nat (String.length src) + 2) / 3.
Proof.
  induction src as [| a | a b | a b c rest IH] using string_ind3;
    try reflexivity.
  cbn [base64.groups length String.length].
  rewrite !Nat2Z.inj_succ, IH. Z.div_mod_to_equations. lia.
Qed.

Lemma EncodeToString_length (src : string) :
  Z.of_nat (String.length (base64.EncodeToString src))
  = (4 * Z.of_nat (String.length src) + 2) / 3.
Proof.
  unfold base64.EncodeToString. rewrite <- length_groups.
  generalize (base64.groups src). intros gs.
  induction gs as [| g gs IH]; [reflexivity |].
  cbn [map string_of_list_ascii String.length length].
  rewrite !Nat2Z.inj_succ, IH. reflexivity.
Qed.

Example base64_on_text :
  base64.EncodeToString "foobar" = "Zm9vYmFy" /\
  base64.EncodeToString "fooba" = "Zm9vYmE" /\
  base64.EncodeToString "foob" = "Zm9vYg" /\
  base64.DecodeString "Zm9vYg" = inr "foob" /\
  base64.DecodeString "Zm9vYg==" = inl "illegal base64 data" /\
  base64.DecodeString "Zm9vY" = inl "illegal base64 data".
Proof. repeat split; vm_compute; reflexivity. Qed.

(** ** The generator *)

Lemma presignedURLExpiration_minutes :
  presignedURLExpiration = 15 * 60 * 1000000000 /\
  presignedURLExpiration - 1 * time.Minute = 14 * 60 * 1000000000.
Proof. split; reflexivity. Qed.

(** C3.  For every successful presign of the GetCallerIdentity request,
    [GetWithSTS] returns a token whose string is the prefix
    [k8s-aws-v1.] followed by the URL-safe base64 encoding without padding
    of the presigned URL (every byte of the encoding is of the URL-safe
    alphabet, there are [ceil(4n/3)] of them for a URL of [n] bytes, and
    the text after the prefix decodes to the URL), and whose expiration is
    the current time plus 14 minutes, one minute before the 15 minutes of
    the presigned URL. *)
Theorem GetWithSTS_token (K : generator.SDK) (g : generator.t)
    (clusterID : string) (client : generator.Client) (presignedURL : string) :
  generator.PresignGetCallerIdentity K client
    (generator.presignOptions clusterID) = inr presignedURL ->
  exists tok,
    generator.GetWithSTS K g clusterID client = inr tok /\
    Token_ tok = "k8s-aws-v1." ++ base64.EncodeToString presignedURL /\
    forallb base64.urlSafe
      (list_ascii_of_string (base64.EncodeToString presignedURL)) = true /\
    Z.of_nat (String.length (base64.EncodeToString presignedURL))
    = (4 * Z.of_nat (String.length presignedURL) + 2) / 3 /\
    base64.DecodeString (strings.TrimPrefix (Token_ tok) v1Prefix)
    = inr presignedURL /\
    Expiration tok = generator.Now K + 14 * time.Minute /\
    Expiration tok + 1 * time.Minute
    = generator.Now K + presignedURLExpiration.
Proof.
  intros Hpresign. unfold generator.GetWithSTS. rewrite Hpresign.
  eexists. split; [reflexivity |]. cbn [Token_ Expiration].
  split; [reflexivity |].
  split; [apply EncodeToString_urlSafe |].
  split; [apply EncodeToString_length |].
  split.
  - destruct (TrimPrefix_v1Prefix (base64.EncodeToString presignedURL))
      as [_ ->].
    apply DecodeString_EncodeToString.
  - unfold time.Add, time.Local, presignedURLExpiration, time.Minute,
      time.Second, time.Nanosecond. split; lia.
Qed.

Lemma GetWithSTS_token_witness :
  generator.PresignGetCallerIdentity examples.sdk examples.session
    (generator.presignOptions "my-cluster") = inr examples.presignedURL /\
  exists tok,
    generator.GetWithSTS examples.sdk (generator.NewGenerator false false)
      "my-cluster" examples.session = inr tok /\
    Token_ tok = "k8s-aws-v1." ++ base64.EncodeToString examples.presignedURL /\
    forallb base64.urlSafe
      (list_ascii_of_string (base64.EncodeToString examples.presignedURL))
    = true /\
    Z.of_nat (String.length (base64.EncodeToString examples.presignedURL))
    = (4 * Z.of_nat (String.length examples.presignedURL) + 2) / 3 /\
    base64.DecodeString (strings.TrimPrefix (Token_ tok) v1Prefix)
    = inr examples.presignedURL /\
    Expiration tok = generator.Now examples.sdk + 14 * time.Minute /\
    Expiration tok + 1 * time.Minute
    = generator.Now examples.sdk + presignedURLExpiration.
Proof.
  split; [reflexivity |].
  apply (GetWithSTS_token examples.sdk (generator.NewGenerator false false)
           "my-cluster" examples.session examples.presignedURL).
  reflexivity.
Defined.

Example GetWithSTS_on_example :
  generator.GetWithSTS examples.sdk (generator.NewGenerator false false)
    "my-cluster" examples.session
  = inr {| Token_ := "k8s-aws-v1.aHR0cHM6Ly9zdHMuYW1hem9uYXdzLmNvbS8_QWN0aW9uPUdldENhbGxlcklkZW50aXR5JlZlcnNpb249MjAxMS0wNi0xNSZYLUFtei1BbGdvcml0aG09QVdTNC1ITUFDLVNIQTI1NiZYLUFtei1DcmVkZW50aWFsPUFLSUFFWEFNUExFJTJGMjAyMDAxMDElMkZ1cy1lYXN0LTElMkZzdHMlMkZhd3M0X3JlcXVlc3QmWC1BbXotRGF0ZT0yMDIwMDEwMVQwMDAwMDBaJlgtQW16LUV4cGlyZXM9NjAmWC1BbXotU2lnbmVkSGVhZGVycz1ob3N0JTNCeC1rOHMtYXdzLWlkJlgtQW16LVNpZ25hdHVyZT1hYmNkZWY";
           Expiration := examples.signingTime + 840000000000 |}.
Proof. vm_compute. reflexivity. Qed.

(** The option function given to [NewAssumeRoleProvider] never sets a
    session name: whatever the generator, the options and the identity of
    the caller, the provider that replaces the credentials of the client
    holds the role, the external ID when there is one, and an empty
    [RoleSessionName]. *)
Lemma assumeRole_provider (K : generator.SDK) (g : generator.t)
    (options : generator.GetTokenOptions) (stsClient : generator.Client)
    (sessionSetters : list generator.setter) (client : generator.Client) :
  generator.assumeRole K g options stsClient = inr (sessionSetters, client) ->
  client =
    generator.NewFromConfigWith (generator.Session options)
      (generator.AssumeRoleProvider stsClient
         {| generator.RoleARN := generator.AssumeRoleARN options;
            generator.ExternalID :=
              if String.eqb (generator.AssumeRoleExternalID options) ""
              then None
              else Some (generator.AssumeRoleExternalID options);
            generator.RoleSessionName := EmptyString;
            generator.TokenProvider := None |}).
Proof.
  unfold generator.assumeRole. intros H.
  destruct (generator.sessionSettersOf K g options stsClient) as [e | setters];
    [discriminate |].
  inversion H; subst. unfold generator.NewAssumeRoleProvider.
  cbn [fold_left generator.RoleARN generator.ExternalID
       generator.RoleSessionName generator.TokenProvider String.eqb negb].
  destruct (String.eqb (generator.AssumeRoleExternalID options) "");
    reflexivity.
Qed.

(** C4.  With [assume_role_arn] set, an external ID and the session name
    [my-session] in the options: without [forwardSessionName] the function
    that would assign the session name [my-session] is appended to
    [sessionSetters], and with [forwardSessionName] and the caller
    [AROAEXAMPLE:alice] the function that would assign [alice] is; in both
    cases the function is never called, and the provider that replaces the
    credentials carries the external ID and an empty role session name. *)
Theorem assumeRole_drops_session_name :
  (exists setter,
      generator.assumeRole examples.sdk (generator.NewGenerator false false)
        examples.options examples.session
      = inr ([setter], examples.assumed EmptyString) /\
      setter EmptyString = "my-session") /\
  (exists setter,
      generator.assumeRole examples.sdk (generator.NewGenerator true false)
        examples.options examples.session
      = inr ([setter], examples.assumed EmptyString) /\
      setter EmptyString = "alice") /\
  generator.clientOf examples.sdk (generator.NewGenerator false false)
    examples.options
  = inr (examples.options, examples.assumed EmptyString) /\
  generator.clientOf examples.sdk (generator.NewGenerator true false)
    examples.options
  = inr (examples.options, examples.assumed EmptyString).
Proof.
  split; [| split; [| split]].
  - eexists. split; reflexivity.
  - eexists. split; reflexivity.
  - reflexivity.
  - reflexivity.
Qed.

(** The function on the options of a role that the load options carry
    does set the session name of the options. *)
Example loadOptions_sets_session_name :
  generator.RoleSessionName
    (generator.AssumeRoleCredentialOptions
       (generator.loadOptions examples.sdk examples.options)
       {| generator.RoleARN := EmptyString; generator.ExternalID := None;
          generator.RoleSessionName := EmptyString;
          generator.TokenProvider := None |})
  = "my-session".
Proof. reflexivity. Qed.

(** ** The verifier *)

Section VerifierFacts.

Variable L : Library.

Lemma isFormatError_inv (e : error) :
  isFormatError e = true -> exists m, e = FormatError m.
Proof. destruct e; try discriminate. eauto. Qed.

(** Every error of the checks before the outbound call is a
    [FormatError]. *)
Lemma lowerParams_error (qp acc : url.Values) (e : error) :
  lowerParams L qp acc = inl e -> isFormatError e = true.
Proof.
  revert acc. induction qp as [| [key values] rest IH]; intros acc H;
    cbn [lowerParams] in H.
  - discriminate.
  - destruct (negb (index_bool parameterWhitelist (strings_ToLower L key))).
    + inversion H. reflexivity.
    + destruct (negb (length values =? 1)%nat).
      * inversion H. reflexivity.
      * eapply IH. exact H.
Qed.

Lemma verifyHost_error (v : tokenVerifier) (host : string) (e : error) :
  verifyHost L v host = Some e -> isFormatError e = true.
Proof.
  unfold verifyHost.
  destruct (validSTShostnames v !! host); intros H; inversion H.
  reflexivity.
Qed.

Lemma parseToken_error (v : tokenVerifier) (token : string) (e : error) :
  parseToken L v token = inl e -> isFormatError e = true.
Proof.
  unfold parseToken. intros H.
  repeat match type of H with
         | (if ?c then _ else _) = _ => destruct c eqn:?
         | match ?x with _ => _ end = _ => destruct x eqn:?
         | inl _ = inl _ => inversion H; subst; clear H
         | inr _ = inl _ => discriminate H
         end;
    eauto using verifyHost_error, lowerParams_error.
Qed.

Lemma checkParams_error (now : time.Time) (qpl : url.Values) (e : error) :
  checkParams L now qpl = inl e -> isFormatError e = true.
Proof.
  unfold checkParams. intros H.
  repeat match type of H with
         | (if ?c then _ else _) = _ => destruct c eqn:?
         | match ?x with _ => _ end = _ => destruct x eqn:?
         | (let '(_, _) := ?x in _) = _ => destruct x eqn:?
         | inl _ = inl _ => inversion H; subst; clear H
         | inr _ = inl _ => discriminate H
         end; reflexivity.
Qed.

(** What comes of the answer of the remote service is an identity that
    carries the access key ID, or an [STSError]. *)
Lemma parseResponse_result (k : string)
    (answer : http.DoError + http.Response) :
  (exists id, parseResponse L k answer = Ok id /\ AccessKeyID id = k) \/
  (exists m, parseResponse L k answer = Err (STSError m)).
Proof.
  unfold parseResponse.
  repeat match goal with
         | |- context [match ?x with _ => _ end] => destruct x eqn:?
         end; eauto.
Qed.

Lemma parseResponse_callFailure (k : string)
    (answer : http.DoError + http.Response) :
  callFailure L answer ->
  exists m, parseResponse L k answer = Err (STSError m).
Proof.
  intros H.
  destruct H as [err | response body Hb Hs | response body text Hb Hs Hj
                | response body ci Hb Hs Hj H1 H2]; unfold parseResponse.
  - destruct err; eauto.
  - rewrite Hb. destruct (Z.eqb_spec (http.StatusCode response) 200);
      [contradiction |].
    cbn [negb]. eauto.
  - rewrite Hb, Hs, Hj. cbn. eauto.
  - rewrite Hb, Hs, Hj. cbn [Z.eqb Pos.eqb negb].
    destruct (arn_Canonicalize L (Arn ci)); [eauto |].
    destruct (Nat.eqb_spec (length (strings.Split (UserId ci) ":")) 2);
      [contradiction |].
    destruct (Nat.eqb_spec (length (strings.Split (UserId ci) ":")) 1);
      [contradiction |].
    eauto.
Qed.

(** The two ways a call of [Verify] goes: a check fails (or the request
    cannot be built) and nothing is sent, or one request is sent and the
    result is read off the answer. *)
Lemma Verify_inv (v : tokenVerifier) (w : World) (token : string)
    (calls : list http.Request) (r : result Identity) :
  Verify L v w token = (calls, r) ->
  (calls = [] /\ ((exists m, r = Err (FormatError m)) \/ r = Panic)) \/
  (exists u qpl k req,
      parseToken L v token = inr (u, qpl) /\
      checkParams L (Now w) qpl = inr k /\
      newRequest L v u = Some req /\
      calls = [req] /\ r = parseResponse L k (Do w req)).
Proof.
  unfold Verify, callSTS, fail. intros H.
  destruct (parseToken L v token) as [e | [u qpl]] eqn:Hp.
  - inversion H; subst. left. split; [reflexivity |]. left.
    destruct (isFormatError_inv e (parseToken_error _ _ _ Hp)) as [m ->].
    eauto.
  - destruct (checkParams L (Now w) qpl) as [e | k] eqn:Hc.
    + inversion H; subst. left. split; [reflexivity |]. left.
      destruct (isFormatError_inv e (checkParams_error _ _ _ Hc)) as [m ->].
      eauto.
    + destruct (newRequest L v u) as [req |] eqn:Hr.
      * inversion H; subst. right. exists u, qpl, k, req. auto.
      * inversion H; subst. left. auto.
Qed.

(** [checkParams] on parameters that pass steps 7 to 10: what is left is
    the comparison of the clock with the date. *)
Lemma checkParams_valid (now : time.Time) (qpl : url.Values) (d : time.Time) :
  paramsValid L qpl ->
  time_Parse L dateHeaderFormat (url.Get qpl "x-amz-date") = inr d ->
  checkParams L now qpl =
    if time.After now (time.Add d presignedURLExpiration) then
      inl (FormatError
             ("X-Amz-Date parameter is expired ("
              ++ strconv.Itoa (presignedURLExpiration / time.Minute)
              ++ " minute expiration) " ++ Time_String L d))
    else inr (accessKeyIDOf qpl).
Proof.
  intros (Hact & Hsig & (expires & Hexp & Hrange) & Hdate) Hparse.
  unfold checkParams. rewrite Hact, Hsig, Hexp.
  change (String.eqb "GetCallerIdentity" "GetCallerIdentity") with true.
  cbn [negb isSome orb].
  replace (expires <? 0) with false by lia.
  replace (900 <? expires) with false by lia.
  cbn [orb].
  destruct (String.eqb_spec (url.Get qpl "x-amz-date") "") as [E | _];
    [contradiction |].
  rewrite Hparse. reflexivity.
Qed.

Lemma After_expiration (now d : time.Time) :
  time.After now (time.Add d presignedURLExpiration)
  = (d + 15 * time.Minute <? now).
Proof. reflexivity. Qed.

(** After the expiration, [Verify] returns a [FormatError] and sends
    nothing, whatever the other parameters are. *)
Lemma Verify_expired (v : tokenVerifier) (w : World) (token : string)
    (u : url.URL) (qpl : url.Values) (d : time.Time) :
  parseToken L v token = inr (u, qpl) ->
  time_Parse L dateHeaderFormat (url.Get qpl "x-amz-date") = inr d ->
  d + 15 * time.Minute < Now w ->
  exists m, Verify L v w token = ([], Err (FormatError m)).
Proof.
  intros Hp Hd Hlate. unfold Verify, fail. rewrite Hp.
  destruct (checkParams L (Now w) qpl) as [e | k] eqn:Hc.
  - destruct (isFormatError_inv e (checkParams_error _ _ _ Hc)) as [m ->].
    eauto.
  - exfalso. revert Hc. unfold checkParams.
    repeat match goal with
           | |- context [if ?c then _ else _] => destruct c eqn:?
           | |- context [let '(_, _) := ?x in _] => destruct x eqn:?
           end; try discriminate.
    all: rewrite Hd, After_expiration.
    all: destruct (Z.ltb_spec (d + 15 * time.Minute) (Now w));
      [discriminate | lia].
Qed.

(** Up to the expiration, the instant of the expiration included, a token
    that passes the other checks passes the temporal one, and [Verify]
    goes on to the request. *)
Lemma Verify_not_expired (v : tokenVerifier) (w : World) (token : string)
    (u : url.URL) (qpl : url.Values) (d : time.Time) :
  parseToken L v token = inr (u, qpl) ->
  paramsValid L qpl ->
  time_Parse L dateHeaderFormat (url.Get qpl "x-amz-date") = inr d ->
  Now w <= d + 15 * time.Minute ->
  Verify L v w token = callSTS L v w u (accessKeyIDOf qpl).
Proof.
  intros Hp Hv Hd Hnow. unfold Verify. rewrite Hp.
  rewrite (checkParams_valid (Now w) qpl d Hv Hd), After_expiration.
  destruct (Z.ltb_spec (d + 15 * time.Minute) (Now w)); [lia |].
  reflexivity.
Qed.

Lemma parseToken_decodesTo (v : tokenVerifier) (token : string) (u : url.URL) :
  decodesTo L token u ->
  parseToken L v token =
    if negb (String.eqb (url.Scheme u) "https") then
      inl (FormatError ("unexpected scheme " ++ fmt_q L (url.Scheme u)
                        ++ " in pre-signed URL"))
    else
      match verifyHost L v (url.Host u) with
      | Some err => inl err
      | None =>
          if negb (String.eqb (url.Path u) "/") then
            inl (FormatError "unexpected path in pre-signed URL")
          else
            match url_ParseQuery L (url.RawQuery u) with
            | (_, Some _) => inl (FormatError "malformed query parameter")
            | (queryParams, None) =>
                match lowerParams L queryParams [] with
                | inl err => inl err
                | inr queryParamsLower => inr (u, queryParamsLower)
                end
            end
      end.
Proof.
  intros (Hlen & Hpre & bytes & Hdec & Hurl). unfold parseToken.
  replace (maxTokenLenBytes <? Z.of_nat (String.length token)) with false
    by lia.
  rewrite Hpre, Hdec, Hurl. reflexivity.
Qed.

Lemma parseToken_inv (v : tokenVerifier) (token : string) (u : url.URL)
    (qpl : url.Values) :
  parseToken L v token = inr (u, qpl) ->
  decodesTo L token u /\
  url.Scheme u = "https" /\
  is_Some (validSTShostnames v !! url.Host u) /\
  url.Path u = "/" /\
  exists qp, url_ParseQuery L (url.RawQuery u) = (qp, None) /\
             lowerParams L qp [] = inr qpl.
Proof.
  unfold parseToken, decodesTo, verifyHost. intros H.
  destruct (Z.ltb_spec maxTokenLenBytes (Z.of_nat (String.length token)));
    [discriminate |].
  destruct (strings.HasPrefix token v1Prefix) eqn:Hpre; [| discriminate].
  cbn [negb] in H.
  destruct (base64.DecodeString _) as [? | bytes] eqn:Hdec; [discriminate |].
  destruct (url_Parse L bytes) as [? | u'] eqn:Hurl; [discriminate |].
  destruct (String.eqb_spec (url.Scheme u') "https") as [Hs |];
    [| discriminate].
  cbn [negb] in H.
  destruct (validSTShostnames v !! url.Host u') eqn:Hh; [| discriminate].
  destruct (String.eqb_spec (url.Path u') "/") as [Hpath |]; [| discriminate].
  cbn [negb] in H.
  destruct (url_ParseQuery L (url.RawQuery u')) as [qp [? |]] eqn:Hq;
    [discriminate |].
  destruct (lowerParams L qp []) as [? | qpl'] eqn:Hl; [discriminate |].
  inversion H; subst. rewrite Hh. repeat split; eauto.
Qed.

Lemma Get_Set (v : url.Values) (k x k' : string) :
  url.Get (url.Set_ v k x) k' = if String.eqb k k' then x else url.Get v k'.
Proof.
  induction v as [| [k0 vs] rest IH]; cbn [url.Set_ url.Get].
  - destruct (String.eqb k k'); reflexivity.
  - destruct (String.eqb_spec k0 k) as [-> | Hne]; cbn [url.Get hd].
    + destruct (String.eqb k k'); reflexivity.
    + rewrite IH. destruct (String.eqb_spec k0 k') as [-> | Hne'].
      * destruct (String.eqb_spec k k'); [congruence | reflexivity].
      * reflexivity.
Qed.

(** A lowered key that no key of the query lowers to holds what it held
    before the loop. *)
Lemma lowerParams_Get_other (qp acc qpl : url.Values) (key : string) :
  lowerParams L qp acc = inr qpl ->
  (forall k vs, In (k, vs) qp -> strings_ToLower L k <> key) ->
  url.Get qpl key = url.Get acc key.
Proof.
  revert acc. induction qp as [| [k vs] rest IH]; intros acc H Hkeys;
    cbn [lowerParams] in H.
  - inversion H. reflexivity.
  - destruct (negb (index_bool parameterWhitelist (strings_ToLower L k)));
      [discriminate |].
    destruct (negb (length vs =? 1)%nat); [discriminate |].
    rewrite (IH _ H)
      by (intros k' vs' Hin; apply (Hkeys k' vs'); right; exact Hin).
    rewrite Get_Set.
    destruct (String.eqb_spec (strings_ToLower L k) key) as [E |];
      [| reflexivity].
    exfalso. apply (Hkeys k vs); [left; reflexivity | exact E].
Qed.

(** C1, as the code has it.  For every token that passes the checks up to
    the query parameters and whose [x-amz-date] parses as [d]: whenever
    the current time is after [d] + 15 minutes, [Verify] returns a
    [FormatError] and makes no outbound call; and when the other
    parameters are valid, [Verify] passes the temporal check exactly when
    the current time is not after [d] + 15 minutes, the boundary instant
    [now = d + 15 minutes] included, where it goes on to the request. *)
Theorem Verify_expiry (v : tokenVerifier) (w : World) (token : string)
    (u : url.URL) (qpl : url.Values) (d : time.Time) :
  parseToken L v token = inr (u, qpl) ->
  time_Parse L dateHeaderFormat (url.Get qpl "x-amz-date") = inr d ->
  (d + 15 * time.Minute < Now w ->
   exists m, Verify L v w token = ([], Err (FormatError m))) /\
  (paramsValid L qpl ->
   Now w <= d + 15 * time.Minute ->
   Verify L v w token = callSTS L v w u (accessKeyIDOf qpl)) /\
  (paramsValid L qpl ->
   Now w = d + 15 * time.Minute ->
   Verify L v w token = callSTS L v w u (accessKeyIDOf qpl)).
Proof.
  intros Hp Hd. split; [| split].
  - intros Hlate. exact (Verify_expired v w token u qpl d Hp Hd Hlate).
  - intros Hv Hnow. exact (Verify_not_expired v w token u qpl d Hp Hv Hd Hnow).
  - intros Hv Hnow. apply (Verify_not_expired v w token u qpl d Hp Hv Hd). lia.
Qed.

(** C2.  The errors of [Verify] are of two kinds, parted by the outbound
    call: an error that [Verify] returns is a [FormatError] returned with
    no request sent, or an [STSError] returned after the one request was
    sent; a failure of a check before the call (of the structure of the
    token, of the allow-list of hosts, of the parameters and the date)
    makes [Verify] return a [FormatError] with no request sent; and when
    the checks pass and the request is built, [Verify] sends that one
    request, and on each failure after the call that the specification
    lists (transport error, status other than 200, unparseable body,
    malformed user ID) it returns an [STSError]. *)
Theorem Verify_errors_partitioned (v : tokenVerifier) (w : World)
    (token : string) :
  (forall calls e,
      Verify L v w token = (calls, Err e) ->
      (isFormatError e = true /\ calls = []) \/
      (isSTSError e = true /\ exists req, calls = [req])) /\
  ((exists e, parseToken L v token = inl e) \/
   (exists u qpl e, parseToken L v token = inr (u, qpl) /\
                    checkParams L (Now w) qpl = inl e) ->
   exists m, Verify L v w token = ([], Err (FormatError m))) /\
  (forall u qpl k req0,
      parseToken L v token = inr (u, qpl) ->
      checkParams L (Now w) qpl = inr k ->
      http_NewRequest L "GET" (URL_String L u) = inr req0 ->
      exists req,
        fst (Verify L v w token) = [req] /\
        (callFailure L (Do w req) ->
         exists m, Verify L v w token = ([req], Err (STSError m)))).
Proof.
  split; [| split].
  - intros calls e H. apply Verify_inv in H.
    destruct H as [[-> [[m Hm] | Hm]]
                  | (u & qpl & k & req & _ & _ & _ & -> & Hr)].
    + inversion Hm; subst. left. auto.
    + discriminate.
    + right.
      destruct (parseResponse_result k (Do w req))
        as [(id & Hid & _) | (m & Hm)].
      * congruence.
      * rewrite Hm in Hr. inversion Hr; subst. split; [reflexivity | eauto].
  - unfold Verify, fail. intros [[e He] | (u & qpl & e & Hp & Hc)].
    + rewrite He.
      destruct (isFormatError_inv e (parseToken_error _ _ _ He)) as [m ->].
      eauto.
    + rewrite Hp, Hc.
      destruct (isFormatError_inv e (checkParams_error _ _ _ Hc)) as [m ->].
      eauto.
  - intros u qpl k req0 Hp Hc Hn. unfold Verify, callSTS, newRequest.
    rewrite Hp, Hc, Hn. cbn [fst]. eexists. split; [reflexivity |].
    intros Hfail.
    destruct (parseResponse_callFailure k _ Hfail) as [m Hm].
    exists m. rewrite Hm. reflexivity.
Qed.

(** Two strings that differ at a position differ. *)
Lemma differ_at (n : nat) (a b : string) :
  String.get n a <> String.get n b -> a <> b.
Proof. intros H E. apply H. rewrite E. reflexivity. Qed.

(** No other check returns the error of the path. *)
Lemma lowerParams_not_path (qp acc : url.Values) (e : error) :
  lowerParams L qp acc = inl e ->
  e <> FormatError "unexpected path in pre-signed URL".
Proof.
  revert acc. induction qp as [| [key values] rest IH]; intros acc H;
    cbn [lowerParams] in H.
  - discriminate.
  - destruct (negb (index_bool parameterWhitelist (strings_ToLower L key))).
    + inversion H. intros E.
      inversion E as [Em]; revert Em; apply (differ_at 0); cbv; discriminate.
    + destruct (negb (length values =? 1)%nat).
      * inversion H. discriminate.
      * eapply IH. exact H.
Qed.

Lemma checkParams_not_path (now : time.Time) (qpl : url.Values) (e : error) :
  checkParams L now qpl = inl e ->
  e <> FormatError "unexpected path in pre-signed URL".
Proof.
  unfold checkParams. intros H.
  repeat match type of H with
         | (if ?c then _ else _) = _ => destruct c eqn:?
         | match ?x with _ => _ end = _ => destruct x eqn:?
         | (let '(_, _) := ?x in _) = _ => destruct x eqn:?
         | inr _ = inl _ => discriminate H
         end;
    inversion H; subst e; clear H; intros E; inversion E as [Em]; revert Em;
    first [ apply (differ_at 0); cbv; discriminate
          | apply (differ_at 11); cbv; discriminate ].
Qed.

(** C5, as the code has it.  [Verify] checks the scheme, then the host
    against the allow-set, then the path.  For a token that decodes to a
    URL: a scheme other than [https] is rejected with the [FormatError]
    of the scheme, whatever the host and the path; with the scheme
    [https], a host outside the allow-set is rejected with the
    [FormatError] of the host name, whatever the path; with the scheme
    [https] and a host in the allow-set, a path other than [/] is rejected
    with the [FormatError] of the path; and the [FormatError] of the path
    is returned only then: with no request sent, the scheme [https], the
    host in the allow-set and a path other than [/]. *)
Theorem Verify_host_before_path (v : tokenVerifier) (w : World)
    (token : string) (u : url.URL) :
  decodesTo L token u ->
  (url.Scheme u <> "https" ->
   Verify L v w token =
     ([], Err (FormatError ("unexpected scheme " ++ fmt_q L (url.Scheme u)
                            ++ " in pre-signed URL")))) /\
  (url.Scheme u = "https" ->
   validSTShostnames v !! url.Host u = None ->
   Verify L v w token =
     ([], Err (FormatError ("unexpected hostname " ++ fmt_q L (url.Host u)
                            ++ " in pre-signed URL")))) /\
  (url.Scheme u = "https" ->
   is_Some (validSTShostnames v !! url.Host u) ->
   url.Path u <> "/" ->
   Verify L v w token =
     ([], Err (FormatError "unexpected path in pre-signed URL"))) /\
  (forall calls,
      Verify L v w token
      = (calls, Err (FormatError "unexpected path in pre-signed URL")) ->
      calls = [] /\
      url.Scheme u = "https" /\
      is_Some (validSTShostnames v !! url.Host u) /\
      url.Path u <> "/").
Proof.
  intros Hd. unfold Verify.
  rewrite (parseToken_decodesTo v token u Hd). unfold verifyHost, fail.
  destruct (String.eqb_spec (url.Scheme u) "https") as [Hs | Hs]; cbn [negb].
  2:{ split; [intros _; reflexivity |].
      split; [intros E; contradiction |].
      split; [intros E; contradiction |].
      intros calls H. exfalso.
      inversion H as [[Hc Em]]; revert Em; apply (differ_at 11); cbv;
        discriminate. }
  split; [intros E; contradiction |].
  destruct (validSTShostnames v !! url.Host u) as [b |] eqn:Hh.
  2:{ split; [intros _ _; reflexivity |].
      split; [intros _ [b Hb]; discriminate Hb |].
      intros calls H. exfalso.
      inversion H as [[Hc Em]]; revert Em; apply (differ_at 11); cbv;
        discriminate. }
  split; [intros _ E; discriminate E |].
  destruct (String.eqb_spec (url.Path u) "/") as [Hp | Hp]; cbn [negb].
  2:{ split; [intros _ _ _; reflexivity |].
      intros calls H. inversion H. eauto. }
  split; [intros _ _ E; contradiction |].
  intros calls H. exfalso.
  destruct (url_ParseQuery L (url.RawQuery u)) as [qp [qe |]].
  { inversion H. }
  destruct (lowerParams L qp []) as [e | qpl] eqn:Hl.
  { inversion H as [[Hc Ee]]. exact (lowerParams_not_path _ _ _ Hl Ee). }
  destruct (checkParams L (Now w) qpl) as [e | k] eqn:Hc.
  { inversion H as [[Hcalls Ee]]. exact (checkParams_not_path _ _ _ Hc Ee). }
  unfold callSTS in H.
  destruct (newRequest L v u) as [req |]; [| discriminate H].
  destruct (parseResponse_result k (Do w req))
    as [(id & Hid & _) | (m & Hm)]; rewrite ?Hid, ?Hm in H; discriminate H.
Qed.

(** C6, as the code has it.  When [Verify] has sent its request and the
    answer is a 200 whose body parses, the ARN of the answer is made
    canonical before the user ID is split: when that fails, [Verify]
    returns an [STSError], whatever the user ID; when it succeeds, the
    pieces of the user ID between colons decide the result: one piece
    makes the identity of an IAM user, with that piece as user ID and an
    empty session name; two pieces make the identity of an assumed role,
    with the first as user ID and the second as session name.  Any other
    number of pieces makes [Verify] return an [STSError]. *)
Theorem Verify_identity_of_user_id (v : tokenVerifier) (w : World)
    (token : string) (req : http.Request) (r : result Identity)
    (response : http.Response) (body : string)
    (callerIdentity : getCallerIdentityWrapper) :
  Verify L v w token = ([req], r) ->
  Do w req = inr response ->
  http.StatusCode response = 200 ->
  http.Body response = inr body ->
  json_Unmarshal L body = inr callerIdentity ->
  let userIDParts := strings.Split (UserId callerIdentity) ":" in
  (forall canonicalARN userID,
      arn_Canonicalize L (Arn callerIdentity) = inr canonicalARN ->
      userIDParts = [userID] ->
      exists id, r = Ok id /\ UserID id = userID /\
                 SessionName id = EmptyString /\
                 ARN id = Arn callerIdentity /\
                 AccountID id = Account callerIdentity /\
                 CanonicalARN id = canonicalARN) /\
  (forall canonicalARN userID sessionName,
      arn_Canonicalize L (Arn callerIdentity) = inr canonicalARN ->
      userIDParts = [userID; sessionName] ->
      exists id, r = Ok id /\ UserID id = userID /\
                 SessionName id = sessionName /\
                 ARN id = Arn callerIdentity /\
                 AccountID id = Account callerIdentity /\
                 CanonicalARN id = canonicalARN) /\
  (length userIDParts <> 1%nat -> length userIDParts <> 2%nat ->
   exists m, r = Err (STSError m)) /\
  (forall text,
      arn_Canonicalize L (Arn callerIdentity) = inl text ->
      r = Err (STSError text)).
Proof.
  intros HV HDo Hs Hb Hj parts.
  apply Verify_inv in HV.
  destruct HV as [[Hnil _] | (u & qpl & k & req' & _ & _ & _ & Hreq & ->)];
    [discriminate |].
  inversion Hreq; subst req'. rewrite HDo.
  split; [| split; [| split]].
  - intros c userID Hc Hparts. unfold parseResponse.
    rewrite Hb, Hs, Hj, Hc. fold parts. rewrite Hparts. cbn. eauto 10.
  - intros c userID sessionName Hc Hparts. unfold parseResponse.
    rewrite Hb, Hs, Hj, Hc. fold parts. rewrite Hparts. cbn. eauto 10.
  - intros H1 H2. apply parseResponse_callFailure.
    eapply malformedUserID; eauto.
  - intros text Hc. unfold parseResponse.
    rewrite Hb, Hs, Hj, Hc. reflexivity.
Qed.

(** C10.  The checks of [Verify] never require [x-amz-signature] or
    [x-amz-credential]: for a token that passes the checks of the length,
    the prefix, the base64 text, the scheme, the host, the path and the
    whitelist, whose query has neither key, and whose other parameters
    (action, signed headers, [x-amz-expires], [x-amz-date]) are valid with
    the date not expired, both parameters read as the empty string and
    [Verify] passes every check before the outbound call; when the
    request is built, [Verify] sends it, and for an answer with the
    status 200, a body that parses, an ARN that canonicalizes and a user
    ID of one or two pieces, it returns an identity whose [AccessKeyID] is
    the empty string. *)
Theorem Verify_without_signature_and_credential (v : tokenVerifier)
    (w : World) (token : string) (u : url.URL) (qpl qp : url.Values)
    (d : time.Time) :
  parseToken L v token = inr (u, qpl) ->
  url_ParseQuery L (url.RawQuery u) = (qp, None) ->
  (forall key values,
      In (key, values) qp ->
      strings_ToLower L key <> "x-amz-signature" /\
      strings_ToLower L key <> "x-amz-credential") ->
  paramsValid L qpl ->
  time_Parse L dateHeaderFormat (url.Get qpl "x-amz-date") = inr d ->
  Now w <= d + 15 * time.Minute ->
  url.Get qpl "x-amz-signature" = EmptyString /\
  url.Get qpl "x-amz-credential" = EmptyString /\
  Verify L v w token = callSTS L v w u EmptyString /\
  (forall calls id,
      Verify L v w token = (calls, Ok id) ->
      AccessKeyID id = EmptyString /\ exists req, calls = [req]) /\
  (forall req0,
      http_NewRequest L "GET" (URL_String L u) = inr req0 ->
      exists req,
        fst (Verify L v w token) = [req] /\
        forall response body callerIdentity canonicalARN,
          Do w req = inr response ->
          http.StatusCode response = 200 ->
          http.Body response = inr body ->
          json_Unmarshal L body = inr callerIdentity ->
          arn_Canonicalize L (Arn callerIdentity) = inr canonicalARN ->
          (length (strings.Split (UserId callerIdentity) ":") = 1%nat \/
           length (strings.Split (UserId callerIdentity) ":") = 2%nat) ->
          exists id,
            Verify L v w token = ([req], Ok id) /\
            AccessKeyID id = EmptyString).
Proof.
  intros Hp Hq Hkeys Hv Hd Hnow.
  destruct (parseToken_inv v token u qpl Hp) as (_ & _ & _ & _ & qp' & Hq' & Hl).
  rewrite Hq in Hq'. inversion Hq'; subst qp'.
  assert (Hsig : url.Get qpl "x-amz-signature" = EmptyString).
  { rewrite (lowerParams_Get_other qp [] qpl _ Hl); [reflexivity |].
    intros k vs Hin. apply (Hkeys k vs Hin). }
  assert (Hcred : url.Get qpl "x-amz-credential" = EmptyString).
  { rewrite (lowerParams_Get_other qp [] qpl _ Hl); [reflexivity |].
    intros k vs Hin. apply (Hkeys k vs Hin). }
  assert (HV : Verify L v w token = callSTS L v w u EmptyString).
  { rewrite (Verify_not_expired v w token u qpl d Hp Hv Hd Hnow).
    unfold accessKeyIDOf. rewrite Hcred. reflexivity. }
  split; [exact Hsig |]. split; [exact Hcred |]. split; [exact HV |].
  split.
  - intros calls id H. rewrite HV in H. unfold callSTS in H.
    destruct (newRequest L v u) as [req |]; [| discriminate].
    inversion H.
    destruct (parseResponse_result EmptyString (Do w req))
      as [(id' & Hid & Hk) | (m & Hm)]; [| congruence].
    split; [congruence | eauto].
  - intros req0 Hn. rewrite HV. unfold callSTS, newRequest. rewrite Hn.
    cbn [fst]. eexists. split; [reflexivity |].
    intros response body ci c HDo Hs Hb Hj Hc Hparts.
    unfold parseResponse. rewrite HDo, Hb, Hs, Hj, Hc.
    change (negb (200 =? 200)) with false. cbv iota.
    destruct Hparts as [H1 | H2].
    + rewrite H1. cbn [Nat.eqb]. eexists. split; reflexivity.
    + rewrite H2. cbn [Nat.eqb]. eexists. split; reflexivity.
Qed.

End VerifierFacts.

(** ** The verifier on the examples *)

Example NewVerifier_hosts :
  validSTShostnames examples.verifier !! "sts.amazonaws.com" = Some true /\
  validSTShostnames examples.verifier !! "sts.us-east-1.amazonaws.com"
  = Some true /\
  validSTShostnames examples.verifier !! "evil.example.com" = None.
Proof. repeat split; vm_compute; reflexivity. Qed.

Example parseToken_on_example :
  parseToken golib.library examples.verifier examples.token
  = inr (examples.parsedURL, examples.queryParamsLower).
Proof. vm_compute. reflexivity. Qed.

Example parseToken_on_unsigned :
  parseToken golib.library examples.verifier examples.unsignedToken
  = inr (examples.unsignedParsedURL, examples.unsignedQueryParamsLower).
Proof. vm_compute. reflexivity. Qed.

Lemma paramsValid_on_example :
  paramsValid golib.library examples.queryParamsLower.
Proof.
  unfold paramsValid.
  split; [vm_compute; reflexivity |].
  split; [vm_compute; reflexivity |].
  split; [exists 60; split; [vm_compute; reflexivity | lia] |].
  vm_compute. discriminate.
Defined.

Lemma paramsValid_on_unsigned :
  paramsValid golib.library examples.unsignedQueryParamsLower.
Proof.
  unfold paramsValid.
  split; [vm_compute; reflexivity |].
  split; [vm_compute; reflexivity |].
  split; [exists 60; split; [vm_compute; reflexivity | lia] |].
  vm_compute. discriminate.
Defined.

(** Scenario 5 of the specification: a token whose decoded URL has the
    scheme [http]. *)
Example Verify_on_http :
  Verify golib.library examples.verifier (examples.world examples.signingTime)
    examples.plainToken
  = ([], Err (FormatError ("unexpected scheme " ++ golib.Quote "http"
                           ++ " in pre-signed URL"))).
Proof. vm_compute. reflexivity. Qed.

(** Scenario 6 of the specification: the user ID [AROAEXAMPLE:sess-1]. *)
Example Verify_on_example :
  Verify golib.library examples.verifier (examples.world examples.signingTime)
    examples.token
  = ([examples.request examples.presignedURL],
     Ok (examples.identity "AKIAEXAMPLE")).
Proof. vm_compute. reflexivity. Qed.

Lemma Verify_expiry_witness :
  parseToken golib.library examples.verifier examples.token
  = inr (examples.parsedURL, examples.queryParamsLower) /\
  time_Parse golib.library dateHeaderFormat
    (url.Get examples.queryParamsLower "x-amz-date")
  = inr examples.signingTime /\
  (exists m,
      Verify golib.library examples.verifier
        (examples.world (examples.signingTime + 15 * time.Minute + 1))
        examples.token
      = ([], Err (FormatError m))) /\
  Verify golib.library examples.verifier
    (examples.world (examples.signingTime + 15 * time.Minute)) examples.token
  = callSTS golib.library examples.verifier
      (examples.world (examples.signingTime + 15 * time.Minute))
      examples.parsedURL (accessKeyIDOf examples.queryParamsLower).
Proof.
  split; [vm_compute; reflexivity |].
  split; [vm_compute; reflexivity |].
  split.
  - apply (proj1 (Verify_expiry golib.library examples.verifier
                    (examples.world (examples.signingTime + 15 * time.Minute + 1))
                    examples.token examples.parsedURL
                    examples.queryParamsLower examples.signingTime
                    parseToken_on_example eq_refl)).
    vm_compute. reflexivity.
  - apply (proj1 (proj2 (Verify_expiry golib.library examples.verifier
                    (examples.world (examples.signingTime + 15 * time.Minute))
                    examples.token examples.parsedURL
                    examples.queryParamsLower examples.signingTime
                    parseToken_on_example eq_refl))).
    + exact paramsValid_on_example.
    + vm_compute. discriminate.
Defined.

(** At the instant [x-amz-date] + 15 minutes a token whose date parses is
    not rejected: [Verify] sends its request and returns the identity. *)
Lemma Verify_at_expiration_counterexample :
  time_Parse golib.library dateHeaderFormat
    (url.Get examples.queryParamsLower "x-amz-date")
  = inr examples.signingTime /\
  Now (examples.world (examples.signingTime + 15 * time.Minute))
  = examples.signingTime + 15 * time.Minute /\
  Verify golib.library examples.verifier
    (examples.world (examples.signingTime + 15 * time.Minute)) examples.token
  = ([examples.request examples.presignedURL],
     Ok (examples.identity "AKIAEXAMPLE")).
Proof. repeat split; vm_compute; reflexivity. Qed.

Lemma Verify_errors_partitioned_witness :
  Verify golib.library examples.verifier (examples.world examples.signingTime)
    examples.plainToken
  = ([], Err (FormatError ("unexpected scheme " ++ golib.Quote "http"
                           ++ " in pre-signed URL"))) /\
  ((isFormatError (FormatError ("unexpected scheme " ++ golib.Quote "http"
                                ++ " in pre-signed URL")) = true
    /\ @nil http.Request = []) \/
   (isSTSError (FormatError ("unexpected scheme " ++ golib.Quote "http"
                             ++ " in pre-signed URL")) = true
    /\ exists req, @nil http.Request = [req])) /\
  (exists req,
      fst (Verify golib.library examples.verifier
             (examples.answering examples.signingTime (inr examples.denied))
             examples.token)
      = [req] /\
      exists m,
        Verify golib.library examples.verifier
          (examples.answering examples.signingTime (inr examples.denied))
          examples.token
        = ([req], Err (STSError m))) /\
  (exists req,
      fst (Verify golib.library examples.verifier
             (examples.answering examples.signingTime
                (inl (http.otherError "connection refused")))
             examples.token)
      = [req] /\
      exists m,
        Verify golib.library examples.verifier
          (examples.answering examples.signingTime
             (inl (http.otherError "connection refused")))
          examples.token
        = ([req], Err (STSError m))).
Proof.
  split; [vm_compute; reflexivity |].
  split.
  { apply (proj1 (Verify_errors_partitioned golib.library examples.verifier
                    (examples.world examples.signingTime) examples.plainToken)).
    vm_compute. reflexivity. }
  split.
  - destruct (proj2 (proj2 (Verify_errors_partitioned golib.library
                              examples.verifier
                              (examples.answering examples.signingTime
                                 (inr examples.denied))
                              examples.token))
                examples.parsedURL examples.queryParamsLower "AKIAEXAMPLE"
                {| http.Method := "GET"; http.URL := examples.presignedURL;
                   http.Header := [] |})
      as (req & Hreq & Hfail).
    + exact parseToken_on_example.
    + vm_compute. reflexivity.
    + vm_compute. reflexivity.
    + exists req. split; [exact Hreq |]. apply Hfail.
      apply (non200 golib.library examples.denied "denied").
      * reflexivity.
      * discriminate.
  - destruct (proj2 (proj2 (Verify_errors_partitioned golib.library
                              examples.verifier
                              (examples.answering examples.signingTime
                                 (inl (http.otherError "connection refused")))
                              examples.token))
                examples.parsedURL examples.queryParamsLower "AKIAEXAMPLE"
                {| http.Method := "GET"; http.URL := examples.presignedURL;
                   http.Header := [] |})
      as (req & Hreq & Hfail).
    + exact parseToken_on_example.
    + vm_compute. reflexivity.
    + vm_compute. reflexivity.
    + exists req. split; [exact Hreq |]. apply Hfail.
      apply (transportError golib.library).
Defined.

Lemma decodesTo_stray :
  decodesTo golib.library examples.strayToken examples.strayParsedURL.
Proof.
  unfold decodesTo. split; [vm_compute; discriminate |].
  split; [vm_compute; reflexivity |].
  exists examples.strayURL. split; vm_compute; reflexivity.
Defined.

Lemma decodesTo_path :
  decodesTo golib.library examples.pathToken examples.pathParsedURL.
Proof.
  unfold decodesTo. split; [vm_compute; discriminate |].
  split; [vm_compute; reflexivity |].
  exists examples.pathURL. split; vm_compute; reflexivity.
Defined.

Lemma decodesTo_scheme :
  decodesTo golib.library examples.schemeToken examples.schemeParsedURL.
Proof.
  unfold decodesTo. split; [vm_compute; discriminate |].
  split; [vm_compute; reflexivity |].
  exists examples.schemeURL. split; vm_compute; reflexivity.
Defined.

Lemma Verify_host_before_path_witness :
  decodesTo golib.library examples.schemeToken examples.schemeParsedURL /\
  decodesTo golib.library examples.strayToken examples.strayParsedURL /\
  decodesTo golib.library examples.pathToken examples.pathParsedURL /\
  Verify golib.library examples.verifier (examples.world examples.signingTime)
    examples.schemeToken
  = ([], Err (FormatError ("unexpected scheme " ++ golib.Quote "http"
                           ++ " in pre-signed URL"))) /\
  Verify golib.library examples.verifier (examples.world examples.signingTime)
    examples.strayToken
  = ([], Err (FormatError ("unexpected hostname "
                           ++ golib.Quote "evil.example.com"
                           ++ " in pre-signed URL"))) /\
  Verify golib.library examples.verifier (examples.world examples.signingTime)
    examples.pathToken
  = ([], Err (FormatError "unexpected path in pre-signed URL")) /\
  url.Scheme examples.pathParsedURL = "https" /\
  is_Some (validSTShostnames examples.verifier
             !! url.Host examples.pathParsedURL) /\
  url.Path examples.pathParsedURL <> "/".
Proof.
  split; [exact decodesTo_scheme |].
  split; [exact decodesTo_stray |].
  split; [exact decodesTo_path |].
  split.
  { apply (proj1 (Verify_host_before_path golib.library examples.verifier
                    (examples.world examples.signingTime) examples.schemeToken
                    examples.schemeParsedURL decodesTo_scheme)).
    vm_compute. discriminate. }
  split.
  { apply (proj1 (proj2 (Verify_host_before_path golib.library
                           examples.verifier
                           (examples.world examples.signingTime)
                           examples.strayToken examples.strayParsedURL
                           decodesTo_stray))).
    - reflexivity.
    - vm_compute. reflexivity. }
  split.
  { apply (proj1 (proj2 (proj2 (Verify_host_before_path golib.library
                                  examples.verifier
                                  (examples.world examples.signingTime)
                                  examples.pathToken examples.pathParsedURL
                                  decodesTo_path)))).
    - reflexivity.
    - exists true. vm_compute. reflexivity.
    - vm_compute. discriminate. }
  apply (proj2 (proj2 (proj2 (Verify_host_before_path golib.library
                                examples.verifier
                                (examples.world examples.signingTime)
                                examples.pathToken examples.pathParsedURL
                                decodesTo_path)))
           []).
  vm_compute. reflexivity.
Defined.

(** A token whose decoded URL has the scheme [https], a host that is not
    in the allow-set and a path other than [/] is rejected with the
    [FormatError] of the host name, and not with that of the path. *)
Lemma Verify_stray_host_counterexample :
  base64.DecodeString (strings.TrimPrefix examples.strayToken v1Prefix)
  = inr examples.strayURL /\
  url_Parse golib.library examples.strayURL = inr examples.strayParsedURL /\
  url.Scheme examples.strayParsedURL = "https" /\
  validSTShostnames examples.verifier !! url.Host examples.strayParsedURL
  = None /\
  String.eqb (url.Path examples.strayParsedURL) "/" = false /\
  Verify golib.library examples.verifier (examples.world examples.signingTime)
    examples.strayToken
  = ([], Err (FormatError ("unexpected hostname "
                           ++ golib.Quote "evil.example.com"
                           ++ " in pre-signed URL"))) /\
  String.eqb ("unexpected hostname " ++ golib.Quote "evil.example.com"
              ++ " in pre-signed URL")
             "unexpected path in pre-signed URL" = false.
Proof. repeat split; vm_compute; reflexivity. Qed.

Lemma Verify_identity_of_user_id_witness :
  Verify golib.library examples.verifier (examples.world examples.signingTime)
    examples.token
  = ([examples.request examples.presignedURL],
     Ok (examples.identity "AKIAEXAMPLE")) /\
  strings.Split (UserId examples.callerIdentity) ":"
  = ["AROAEXAMPLE"; "sess-1"] /\
  exists id,
    Ok (examples.identity "AKIAEXAMPLE") = Ok id /\
    UserID id = "AROAEXAMPLE" /\
    SessionName id = "sess-1" /\
    ARN id = Arn examples.callerIdentity /\
    AccountID id = Account examples.callerIdentity /\
    CanonicalARN id = "arn:aws:iam::123456789012:role/dev".
Proof.
  split; [vm_compute; reflexivity |].
  split; [vm_compute; reflexivity |].
  pose proof (Verify_identity_of_user_id golib.library examples.verifier
                (examples.world examples.signingTime) examples.token
                (examples.request examples.presignedURL)
                (Ok (examples.identity "AKIAEXAMPLE"))
                examples.response examples.body examples.callerIdentity
                Verify_on_example eq_refl eq_refl eq_refl eq_refl) as H.
  cbv zeta in H. destruct H as (_ & H & _).
  apply (H "arn:aws:iam::123456789012:role/dev" "AROAEXAMPLE" "sess-1");
    vm_compute; reflexivity.
Defined.

(** A 200 whose body parses and whose user ID is of one piece, but whose
    ARN does not canonicalize (the body holds none), is answered with an
    [STSError] and not with the identity of an IAM user. *)
Lemma Verify_bad_arn_counterexample :
  Do (examples.answering examples.signingTime (inr examples.noArnResponse))
     (examples.request examples.presignedURL)
  = inr examples.noArnResponse /\
  http.StatusCode examples.noArnResponse = 200 /\
  http.Body examples.noArnResponse = inr examples.noArnBody /\
  json_Unmarshal golib.library examples.noArnBody
  = inr examples.noArnIdentity /\
  strings.Split (UserId examples.noArnIdentity) ":" = ["AIDAEXAMPLE"] /\
  (exists text,
      arn_Canonicalize golib.library (Arn examples.noArnIdentity)
      = inl text) /\
  exists m,
    Verify golib.library examples.verifier
      (examples.answering examples.signingTime (inr examples.noArnResponse))
      examples.token
    = ([examples.request examples.presignedURL], Err (STSError m)).
Proof.
  do 5 (split; [vm_compute; reflexivity |]).
  split; eexists; vm_compute; reflexivity.
Qed.

Lemma Verify_without_signature_and_credential_witness :
  parseToken golib.library examples.verifier examples.unsignedToken
  = inr (examples.unsignedParsedURL, examples.unsignedQueryParamsLower) /\
  url_ParseQuery golib.library (url.RawQuery examples.unsignedParsedURL)
  = (examples.unsignedQueryParams, None) /\
  url.Get examples.unsignedQueryParamsLower "x-amz-signature" = EmptyString /\
  url.Get examples.unsignedQueryParamsLower "x-amz-credential" = EmptyString /\
  exists req id,
    Verify golib.library examples.verifier
      (examples.world examples.signingTime) examples.unsignedToken
    = ([req], Ok id) /\
    AccessKeyID id = EmptyString.
Proof.
  split; [vm_compute; reflexivity |].
  split; [vm_compute; reflexivity |].
  assert (Hkeys : forall key values,
             In (key, values) examples.unsignedQueryParams ->
             strings_ToLower golib.library key <> "x-amz-signature" /\
             strings_ToLower golib.library key <> "x-amz-credential").
  { intros key values Hin.
    repeat (destruct Hin as [Hin | Hin];
            [inversion Hin; subst; split; vm_compute; discriminate |]).
    destruct Hin. }
  assert (Hparse : time_Parse golib.library dateHeaderFormat
                     (url.Get examples.unsignedQueryParamsLower "x-amz-date")
                   = inr examples.signingTime)
    by (vm_compute; reflexivity).
  assert (Hnow : Now (examples.world examples.signingTime)
                 <= examples.signingTime + 15 * time.Minute)
    by (vm_compute; discriminate).
  destruct (Verify_without_signature_and_credential golib.library
              examples.verifier (examples.world examples.signingTime)
              examples.unsignedToken examples.unsignedParsedURL
              examples.unsignedQueryParamsLower examples.unsignedQueryParams
              examples.signingTime parseToken_on_unsigned eq_refl Hkeys
              paramsValid_on_unsigned Hparse Hnow)
    as (Hsig & Hcred & _ & _ & Hidentity).
  split; [exact Hsig |]. split; [exact Hcred |].
  destruct (Hidentity {| http.Method := "GET";
                         http.URL := examples.unsignedURL;
                         http.Header := [] |})
    as (req & _ & Hid).
  { vm_compute. reflexivity. }
  exists req.
  apply (Hid examples.response examples.body examples.callerIdentity
           "arn:aws:iam::123456789012:role/dev").
  - reflexivity.
  - reflexivity.
  - reflexivity.
  - vm_compute. reflexivity.
  - vm_compute. reflexivity.
  - right. vm_compute. reflexivity.
Defined.

Example Verify_on_unsigned :
  Verify golib.library examples.verifier (examples.world examples.signingTime)
    examples.unsignedToken
  = ([examples.request examples.unsignedURL], Ok (examples.identity "")).
Proof. vm_compute. reflexivity. Qed.

(** ** The credential file cache *)

Section CacheFacts.

Context {S : Type}.
Variable C : filecache.Capabilities S.

Import filecache.

Lemma cacheFile_Get_empty (k : cacheKey) : cacheFile_Get ∅ k = None.
Proof. reflexivity. Qed.

Lemma cacheFile_Get_Put (c : cacheFile) (k : cacheKey) (cred : Credentials) :
  cacheFile_Get (cacheFile_Put c k cred) k = Some cred.
Proof.
  unfold cacheFile_Get, cacheFile_Put. cbv zeta.
  rewrite lookup_insert_eq. cbv beta iota.
  rewrite lookup_insert_eq. cbv beta iota.
  apply lookup_insert_eq.
Qed.

(** The refresh returns the credential of the provider, and writes the
    file once, under its name and with mode 0600, when it holds the
    lock. *)
Lemma refresh_returns_credential (p : FileCacheProvider) (s s1 s2 : S)
    (credential : Credentials) (expiration : time.Time) (ok : bool)
    (lockErr : option string) :
  upstream C s = (s1, inr (credential, Some expiration)) ->
  TryLockContext C (CacheFilename C s1) retryInterval s1
  = (s2, (ok, lockErr)) ->
  snd (snd (refresh C p (s, []))) = inr credential /\
  writes (snd (fst (refresh C p (s, [])))) =
    (if ok then [(CacheFilename C s1, 384)] else []).
Proof.
  intros Hup Hlock.
  unfold refresh, bind, op, gets, ret, readCache. cbn [fst snd].
  rewrite Hup. cbn [fst snd app]. rewrite Hlock.
  destruct ok; cbn [negb fst snd].
  - unfold bind, op, ret.
    destruct (ReadFile C (CacheFilename C s1) s2) as [s3 [data [[| text] |]]];
      cbn [fst snd];
      match goal with
      | |- context [WriteFile C ?f ?d ?m ?st] =>
          destruct (WriteFile C f d m st) as [s4 werr]
      end; cbn; auto.
  - cbn. auto.
Qed.

(** C7.  For every call of [Retrieve] where the cached credential is
    expired and the upstream provider returns a credential that carries an
    expiration: whether or not the exclusive lock is acquired, and
    whatever the read and the write of the file answer, [Retrieve] returns
    the credential of the provider with no error; nothing is written
    without the lock, and with it the one write goes to the cache file
    path with permissions 0600 (0o600 is 384). *)
Theorem Retrieve_returns_credential_anyway
    (p : FileCacheProvider) (s s1 s2 : S) (credential : Credentials)
    (expiration : time.Time) (ok : bool) (lockErr : option string) :
  IsExpired (clock C s) (cachedCredential p) = true ->
  upstream C s = (s1, inr (credential, Some expiration)) ->
  TryLockContext C (CacheFilename C s1) retryInterval s1
  = (s2, (ok, lockErr)) ->
  snd (snd (run (Retrieve C p) s)) = inr credential /\
  writes (snd (fst (run (Retrieve C p) s))) =
    (if ok then [(CacheFilename C s1, 384)] else []).
Proof.
  intros Hexp Hup Hlock.
  pose proof (refresh_returns_credential p s s1 s2 credential expiration ok
                lockErr Hup Hlock) as Hrefresh.
  unfold run, Retrieve, bind, gets, ret. cbn [fst snd].
  destruct (cachedCredential p) as [cred |] eqn:Hc.
  - rewrite Hexp. cbn [negb]. exact Hrefresh.
  - exact Hrefresh.
Qed.

(** A cached credential that is not expired is returned with no
    operation on the world. *)
Lemma Retrieve_cache_hit (p : FileCacheProvider) (s : S) (cred : Credentials) :
  cachedCredential p = Some cred ->
  IsExpired (clock C s) (Some cred) = false ->
  run (Retrieve C p) s = ((s, []), (p, inr cred)).
Proof.
  intros Hc Hexp. unfold run, Retrieve, bind, gets, ret. cbn [fst snd].
  rewrite Hc, Hexp. reflexivity.
Qed.

(** C8.  [NewFileCacheProvider] fails exactly when the file is there with
    permissions outside the owner bits, the lock cannot be acquired, the
    file cannot be read, or its contents are unparseable; and when it
    succeeds on a missing cache file, an empty cache file, or a file that
    lacks the path of the key, it keeps the key and yields a cached
    credential that reports expired at every time.  (An empty text parses
    as a file with no cluster.) *)
Theorem NewFileCacheProvider_outcome (s : S)
    (clusterID profile roleARN : string) :
  yaml_Unmarshal C EmptyString = inr ∅ ->
  let a := probe C s in
  let key := {| filecache.clusterID := clusterID;
                filecache.profile := profile;
                filecache.roleARN := roleARN |} in
  let r := snd (run (NewFileCacheProvider C clusterID profile roleARN) s) in
  ((exists text, r = inl text) <->
   (badPermissions a \/ unlockable a \/ unreadable a \/ unparseable C a)) /\
  (forall p, r = inr p ->
             cacheKey_ p = key /\
             (missingFile a \/ emptyFile a \/ lacksPath C a key ->
              forall now, IsExpired now (cachedCredential p) = true)).
Proof.
  intros Hempty. cbv zeta.
  cbv beta iota zeta delta
    [run NewFileCacheProvider probe bind gets op ret readCache fst snd].
  destruct (MkdirAll C (Dir (CacheFilename C s)) 448 s) as [s1 mkErr].
  destruct (Stat C (CacheFilename C s) s1) as [s2 [info serr]].
  destruct (IsNotExist serr) eqn:Hmiss.
  - destruct (WriteFile C (CacheFilename C s) EmptyString 384 s2) as [s3 werr].
    filecache.reduce.
    destruct (TryRLockContext C (CacheFilename C s) retryInterval s3)
      as [s4 [ok lerr]].
    destruct ok; filecache.reduce.
    + destruct (ReadFile C (CacheFilename C s) s4)
        as [s5 [data [[| text] |]]]; filecache.reduce.
      * filecache.unfold_answers. rewrite Hmiss. split.
        -- split; [intros [t Ht]; discriminate |].
           intros [[H _] | [H | [[t H] | [H _]]]]; discriminate.
        -- intros p Hp. inversion Hp; subst p. cbn. auto.
      * filecache.unfold_answers. rewrite Hmiss. split.
        -- split; [eauto 6 |]. eauto.
        -- intros p Hp. discriminate.
      * filecache.unfold_answers. rewrite Hmiss.
        destruct (yaml_Unmarshal C data) as [etext | cache] eqn:Hy; split.
        -- split; [eauto 8 |]. eauto.
        -- intros p Hp. discriminate.
        -- split; [intros [t Ht]; discriminate |].
           intros [[H _] | [H | [[t H] | [_ [t H]]]]]; discriminate.
        -- intros p Hp. inversion Hp; subst p. cbn. split; [reflexivity |].
           intros [H | [[_ H] | [_ (cache' & Hc & Hg)]]] now.
           ++ discriminate.
           ++ subst data. rewrite Hempty in Hy. inversion Hy; subst cache.
              reflexivity.
           ++ inversion Hc; subst cache'. rewrite Hg. reflexivity.
    + destruct (ReadFile C (CacheFilename C s) s4) as [s5 [data rerr]].
      filecache.unfold_answers. split.
      * split; [auto |]. eauto.
      * intros p Hp. discriminate.
  - filecache.reduce.
    destruct (Z.eqb_spec (Z.land (mode info) 63) 0) as [Hmode | Hmode]; filecache.reduce.
    + destruct (TryRLockContext C (CacheFilename C s) retryInterval s2)
        as [s4 [ok lerr]].
      destruct ok; filecache.reduce.
      * destruct (ReadFile C (CacheFilename C s) s4)
          as [s5 [data [[| text] |]]]; filecache.reduce.
        -- filecache.unfold_answers. split.
           ++ split; [intros [t Ht]; discriminate |].
              intros [[_ H] | [H | [[t H] | [H _]]]]; try discriminate.
              contradiction.
           ++ intros p Hp. inversion Hp; subst p. cbn. auto.
        -- filecache.unfold_answers. split.
           ++ split; [eauto 6 |]. eauto.
           ++ intros p Hp. discriminate.
        -- filecache.unfold_answers.
           destruct (yaml_Unmarshal C data) as [etext | cache] eqn:Hy; split.
           ++ split; [eauto 8 |]. eauto.
           ++ intros p Hp. discriminate.
           ++ split; [intros [t Ht]; discriminate |].
              intros [[_ H] | [H | [[t H] | [_ [t H]]]]]; try discriminate.
              contradiction.
           ++ intros p Hp. inversion Hp; subst p. cbn.
              split; [reflexivity |].
              intros [H | [[_ H] | [_ (cache' & Hc & Hg)]]] now.
              ** discriminate.
              ** subst data. rewrite Hempty in Hy. inversion Hy; subst cache.
                 reflexivity.
              ** inversion Hc; subst cache'. rewrite Hg. reflexivity.
      * destruct (ReadFile C (CacheFilename C s) s4) as [s5 [data rerr]].
        filecache.unfold_answers. split.
        -- split; [auto |]. eauto.
        -- intros p Hp. discriminate.
    + destruct (TryRLockContext C (CacheFilename C s) retryInterval s2)
        as [s4 [ok lerr]].
      destruct (ReadFile C (CacheFilename C s) s4) as [s5 [data rerr]].
      filecache.unfold_answers. split.
      * split; [auto |]. eauto.
      * intros p Hp. discriminate.
Qed.

End CacheFacts.

(** ** The tests of the cache, on the model *)

Example TestCacheFilename :
  filecache.CacheFilename mockcap.capabilities
    {| mocks.tf := mocks.testFS_reset;
       mocks.te := {| mocks.values :=
                        <["HOME" := "homedir"]>
                          (<["USERPROFILE" := "homedir"]> ∅) |};
       mocks.testFlock := mocks.testFilelock_reset;
       mocks.provider := mockcap.stub; mocks.now := examples.testTime |}
  = "homedir/.kube/cache/aws-iam-authenticator/credentials.yaml" /\
  filecache.CacheFilename mockcap.capabilities
    {| mocks.tf := mocks.testFS_reset;
       mocks.te := {| mocks.values :=
                        <["AWS_IAM_AUTHENTICATOR_CACHE_FILE" := "special.yaml"]>
                          (<["HOME" := "homedir"]>
                             (<["USERPROFILE" := "homedir"]> ∅)) |};
       mocks.testFlock := mocks.testFilelock_reset;
       mocks.provider := mockcap.stub; mocks.now := examples.testTime |}
  = "special.yaml".
Proof. split; vm_compute; reflexivity. Qed.

Example TestNewFileCacheProvider_Missing :
  snd (examples.opened
         (mockcap.withErr (Some filecache.ErrNotExist)
            (mockcap.getMocks mockcap.stub examples.testTime)))
  = inr examples.missingProvider /\
  filecache.IsExpired examples.testTime
    (filecache.cachedCredential examples.missingProvider) = true.
Proof. split; vm_compute; reflexivity. Qed.

Example TestNewFileCacheProvider_BadPermissions :
  snd (examples.opened
         (mockcap.withMode 511
            (mockcap.getMocks mockcap.stub examples.testTime)))
  = inl ("cache file " ++ examples.cacheFilename ++ " is not private") /\
  mocks.filename
    (mocks.tf (fst (fst (examples.opened
                           (mockcap.withMode 511
                              (mockcap.getMocks mockcap.stub
                                 examples.testTime))))))
  = examples.cacheFilename.
Proof. split; vm_compute; reflexivity. Qed.

Example TestNewFileCacheProvider_Unlockable :
  snd (examples.opened
         (mockcap.withLock false (Some "lock stuck, needs wd-40")
            (mockcap.getMocks mockcap.stub examples.testTime)))
  = inl ("unable to read lock file " ++ examples.cacheFilename
         ++ ": lock stuck, needs wd-40").
Proof. vm_compute. reflexivity. Qed.

Example TestNewFileCacheProvider_Unreadable :
  snd (examples.opened
         (mockcap.withErr (Some (filecache.ErrOther "read failure"))
            (mockcap.getMocks mockcap.stub examples.testTime)))
  = inl ("unable to open file " ++ examples.cacheFilename ++ ": read failure").
Proof. vm_compute. reflexivity. Qed.

Example TestNewFileCacheProvider_Unparseable :
  snd (examples.opened
         (mockcap.withData "invalid: yaml: file"
            (mockcap.getMocks mockcap.stub examples.testTime)))
  = inl "yaml: unmarshal errors".
Proof. vm_compute. reflexivity. Qed.

Example TestNewFileCacheProvider_Empty :
  snd (examples.opened (mockcap.getMocks mockcap.stub examples.testTime))
  = inr examples.missingProvider.
Proof. vm_compute. reflexivity. Qed.

Example TestNewFileCacheProvider_ExistingCluster :
  snd (examples.opened
         (mockcap.withData ("clusters:" ++ yaml.nl ++ "  CLUSTER:" ++ yaml.nl)
            (mockcap.getMocks mockcap.stub examples.testTime)))
  = inr examples.missingProvider.
Proof. vm_compute. reflexivity. Qed.

Example TestNewFileCacheProvider_ExistingARN :
  snd (examples.opened
         (mockcap.withData mockcap.expectedData
            (mockcap.getMocks mockcap.stub examples.testTime)))
  = inr {| filecache.cacheKey_ := examples.testKey;
           filecache.cachedCredential := Some mocks.makeCredential |} /\
  filecache.IsExpired examples.testTime (Some mocks.makeCredential) = false.
Proof. split; vm_compute; reflexivity. Qed.

Example TestFileCacheProvider_Retrieve_WithExpirer_Unlockable :
  snd (snd (filecache.run
              (filecache.Retrieve mockcap.capabilities examples.missingProvider)
              examples.unlockableWorld))
  = inr mocks.makeCredential.
Proof. vm_compute. reflexivity. Qed.

Example TestFileCacheProvider_Retrieve_WithExpirer_Unwritable :
  snd (snd (filecache.run
              (filecache.Retrieve mockcap.capabilities examples.missingProvider)
              examples.unwritableWorld))
  = inr mocks.makeCredential /\
  mocks.filename
    (mocks.tf (fst (fst (filecache.run
                           (filecache.Retrieve mockcap.capabilities
                              examples.missingProvider)
                           examples.unwritableWorld))))
  = examples.cacheFilename /\
  mocks.perm
    (mocks.tf (fst (fst (filecache.run
                           (filecache.Retrieve mockcap.capabilities
                              examples.missingProvider)
                           examples.unwritableWorld))))
  = 384 /\
  mocks.data
    (mocks.tf (fst (fst (filecache.run
                           (filecache.Retrieve mockcap.capabilities
                              examples.missingProvider)
                           examples.unwritableWorld))))
  = mockcap.expectedData.
Proof. repeat split; vm_compute; reflexivity. Qed.

Lemma Retrieve_returns_credential_anyway_witness :
  (snd (snd (filecache.run
               (filecache.Retrieve mockcap.capabilities examples.missingProvider)
               examples.unlockableWorld))
   = inr mocks.makeCredential /\
   filecache.writes
     (snd (fst (filecache.run
                  (filecache.Retrieve mockcap.capabilities
                     examples.missingProvider)
                  examples.unlockableWorld)))
   = []) /\
  (snd (snd (filecache.run
               (filecache.Retrieve mockcap.capabilities examples.missingProvider)
               examples.unwritableWorld))
   = inr mocks.makeCredential /\
   filecache.writes
     (snd (fst (filecache.run
                  (filecache.Retrieve mockcap.capabilities
                     examples.missingProvider)
                  examples.unwritableWorld)))
   = [(examples.cacheFilename, 384)]).
Proof.
  split.
  - exact (Retrieve_returns_credential_anyway mockcap.capabilities
             examples.missingProvider examples.unlockableWorld
             (fst (filecache.upstream mockcap.capabilities
                     examples.unlockableWorld))
             (fst (filecache.TryLockContext mockcap.capabilities
                     examples.cacheFilename filecache.retryInterval
                     (fst (filecache.upstream mockcap.capabilities
                             examples.unlockableWorld))))
             mocks.makeCredential 1600521240001000000 false
             (Some "lock stuck, needs wd-40") eq_refl eq_refl eq_refl).
  - exact (Retrieve_returns_credential_anyway mockcap.capabilities
             examples.missingProvider examples.unwritableWorld
             (fst (filecache.upstream mockcap.capabilities
                     examples.unwritableWorld))
             (fst (filecache.TryLockContext mockcap.capabilities
                     examples.cacheFilename filecache.retryInterval
                     (fst (filecache.upstream mockcap.capabilities
                             examples.unwritableWorld))))
             mocks.makeCredential 1600521240001000000 true None
             eq_refl eq_refl eq_refl).
Defined.

Lemma NewFileCacheProvider_outcome_witness :
  filecache.yaml_Unmarshal mockcap.capabilities EmptyString = inr ∅ /\
  (snd (examples.opened
          (mockcap.withErr (Some filecache.ErrNotExist)
             (mockcap.getMocks mockcap.stub examples.testTime)))
   = inr examples.missingProvider /\
   filecache.missingFile
     (filecache.probe mockcap.capabilities
        (mockcap.withErr (Some filecache.ErrNotExist)
           (mockcap.getMocks mockcap.stub examples.testTime))) /\
   filecache.cacheKey_ examples.missingProvider = examples.testKey /\
   forall now,
     filecache.IsExpired now
       (filecache.cachedCredential examples.missingProvider) = true) /\
  (filecache.badPermissions
     (filecache.probe mockcap.capabilities
        (mockcap.withMode 511
           (mockcap.getMocks mockcap.stub examples.testTime))) /\
   exists text,
     snd (examples.opened
            (mockcap.withMode 511
               (mockcap.getMocks mockcap.stub examples.testTime)))
     = inl text).
Proof.
  split; [reflexivity |]. split.
  - split; [vm_compute; reflexivity |].
    split; [vm_compute; reflexivity |].
    pose proof (NewFileCacheProvider_outcome mockcap.capabilities
                  (mockcap.withErr (Some filecache.ErrNotExist)
                     (mockcap.getMocks mockcap.stub examples.testTime))
                  "CLUSTER" "PROFILE" "ARN" eq_refl) as H.
    cbv zeta in H. destruct H as [_ H].
    destruct (H examples.missingProvider) as [Hkey Hexpired].
    + vm_compute. reflexivity.
    + split; [exact Hkey |].
      apply Hexpired. left. vm_compute. reflexivity.
  - assert (Hbad :
        filecache.badPermissions
          (filecache.probe mockcap.capabilities
             (mockcap.withMode 511
                (mockcap.getMocks mockcap.stub examples.testTime)))).
    { split; vm_compute; [reflexivity | discriminate]. }
    split; [exact Hbad |].
    pose proof (NewFileCacheProvider_outcome mockcap.capabilities
                  (mockcap.withMode 511
                     (mockcap.getMocks mockcap.stub examples.testTime))
                  "CLUSTER" "PROFILE" "ARN" eq_refl) as H.
    cbv zeta in H. destruct H as [[_ H] _].
    apply H. left. exact Hbad.
Defined.

(** * Further properties of the code *)

(** ** [pkg/partitions] *)

(** What the table holds under an identifier. *)
Lemma partitions_lookup (id : string) :
  partitions.GetDefaultPartitions !! id =
    if String.eqb id "aws" then
      Some ("aws", partitions.GetRegions "aws")
    else if String.eqb id "aws-cn" then
      Some ("aws-cn", partitions.GetRegions "aws-cn")
    else if String.eqb id "aws-us-gov" then
      Some ("aws-us-gov", partitions.GetRegions "aws-us-gov")
    else if String.eqb id "aws-iso" then
      Some ("aws-iso", partitions.GetRegions "aws-iso")
    else if String.eqb id "aws-iso-b" then
      Some ("aws-isb-b", partitions.GetRegions "aws-iso-b")
    else None.
Proof.
  repeat match goal with
         | |- context [String.eqb id ?k] =>
             destruct (String.eqb_spec id k) as [-> | ?];
             [vm_compute; reflexivity |]
         end.
  unfold partitions.GetDefaultPartitions, partitions.partitions.
  cbn [list_to_map foldr uncurry fst snd].
  rewrite !lookup_insert_ne by congruence. apply lookup_empty.
Qed.

(** X1.  The list of names and the table of partitions agree: a partition
    is valid exactly when its identifier is one of
    [GetDefaultPartitionsNames]; [GetRegions] returns a region for a valid
    partition and none for any other identifier; and the default partition
    is one of the names. *)
Theorem ValidPartition_names (id : string) :
  (partitions.ValidPartition id = true <->
   In id partitions.GetDefaultPartitionsNames) /\
  (partitions.GetRegions id <> [] <-> partitions.ValidPartition id = true) /\
  In partitions.GetDefaultPartitionId partitions.GetDefaultPartitionsNames.
Proof.
  unfold partitions.ValidPartition, partitions.GetRegions at 1.
  change partitions.partitions with partitions.GetDefaultPartitions.
  rewrite partitions_lookup.
  unfold partitions.GetDefaultPartitionsNames, partitions.partitionNames.
  split; [| split].
  - split.
    + repeat match goal with
             | |- context [String.eqb id ?k] =>
                 destruct (String.eqb_spec id k) as [-> | ?];
                 [intros _; cbn [In]; tauto |]
             end.
      intros H. apply bool_decide_eq_true in H. destruct H as [x H].
      discriminate H.
    + intros H. cbn [In] in H.
      repeat destruct H as [<- | H]; try reflexivity. contradiction.
  - repeat match goal with
           | |- context [String.eqb id ?k] =>
               destruct (String.eqb_spec id k) as [-> | ?];
               [split; [reflexivity | intros _; vm_compute; discriminate] |]
           end.
    split; [congruence |].
    intros H. apply bool_decide_eq_true in H. destruct H as [x H].
    discriminate H.
  - cbn. tauto.
Qed.

(** ** The host names of a verifier *)

Section HostFacts.

Variable L : Library.

(** The loop of [stsHostsForPartition]: a host name is in the set after
    the loop when it was there before or is the host name of the endpoint
    of a region, and the loop puts no [false] into the set. *)
Lemma hosts_fold (regions : list string) (acc : gmap string bool) (h : string) :
  (is_Some
     (fold_left
        (fun (validSTShostnames : gmap string bool) (region : string) =>
           match ResolveEndpoint L region with
           | inl _ => validSTShostnames
           | inr endpoint =>
               match url_Parse L endpoint with
               | inl _ => validSTShostnames
               | inr parsedURL =>
                   <[URL_Hostname L parsedURL := true]> validSTShostnames
               end
           end)
        regions acc !! h) <->
   is_Some (acc !! h) \/
   exists region endpoint u,
     In region regions /\ ResolveEndpoint L region = inr endpoint /\
     url_Parse L endpoint = inr u /\ URL_Hostname L u = h) /\
  (fold_left
     (fun (validSTShostnames : gmap string bool) (region : string) =>
        match ResolveEndpoint L region with
        | inl _ => validSTShostnames
        | inr endpoint =>
            match url_Parse L endpoint with
            | inl _ => validSTShostnames
            | inr parsedURL =>
                <[URL_Hostname L parsedURL := true]> validSTShostnames
            end
        end)
     regions acc !! h = Some false -> acc !! h = Some false).
Proof.
  revert acc. induction regions as [| region regions IH]; intros acc;
    cbn [fold_left].
  - split; [| auto]. split; [auto |].
    intros [H | (? & ? & ? & [] & _)]. exact H.
  - destruct (IH
      match ResolveEndpoint L region with
      | inl _ => acc
      | inr endpoint =>
          match url_Parse L endpoint with
          | inl _ => acc
          | inr parsedURL => <[URL_Hostname L parsedURL := true]> acc
          end
      end) as [IH1 IH2]. clear IH.
    split.
    + rewrite IH1. clear IH1 IH2.
      destruct (ResolveEndpoint L region) as [e | endpoint] eqn:Hr.
      { split.
        - intros [H | (r & ep & u & Hin & H1 & H2 & H3)]; [auto |].
          right. exists r, ep, u. cbn [In]. auto.
        - intros [H | (r & ep & u & [<- | Hin] & H1 & H2 & H3)];
            [auto | congruence |].
          right. exists r, ep, u. auto. }
      destruct (url_Parse L endpoint) as [e | u0] eqn:Hp.
      { split.
        - intros [H | (r & ep & u & Hin & H1 & H2 & H3)]; [auto |].
          right. exists r, ep, u. cbn [In]. auto.
        - intros [H | (r & ep & u & [<- | Hin] & H1 & H2 & H3)];
            [auto | congruence |].
          right. exists r, ep, u. auto. }
      split.
      * intros [H | (r & ep & u & Hin & H1 & H2 & H3)].
        -- destruct (decide (URL_Hostname L u0 = h)) as [E | NE].
           ++ right. exists region, endpoint, u0. cbn [In]. auto.
           ++ rewrite lookup_insert_ne in H by exact NE. auto.
        -- right. exists r, ep, u. cbn [In]. auto.
      * intros [H | (r & ep & u & [<- | Hin] & H1 & H2 & H3)].
        -- left. destruct (decide (URL_Hostname L u0 = h)) as [E | NE].
           ++ rewrite E, lookup_insert_eq. eauto.
           ++ rewrite lookup_insert_ne by exact NE. exact H.
        -- left. rewrite Hr in H1. inversion H1; subst ep.
           rewrite Hp in H2. inversion H2; subst u.
           rewrite H3, lookup_insert_eq. eauto.
        -- right. exists r, ep, u. auto.
    + intros H. apply IH2 in H. clear IH1 IH2.
      destruct (ResolveEndpoint L region) as [e | endpoint]; [exact H |].
      destruct (url_Parse L endpoint) as [e | u0]; [exact H |].
      destruct (decide (URL_Hostname L u0 = h)) as [E | NE].
      * rewrite E, lookup_insert_eq in H. discriminate H.
      * rewrite lookup_insert_ne in H by exact NE. exact H.
Qed.

(** X2.  A verifier made by [NewVerifier] passes the host check for
    exactly the host names of the STS endpoints of its partition:
    [verifyHost] returns no error for a host if and only if the host is
    the host name of the URL of the endpoint of a region of the partition,
    for a region whose endpoint resolves to a URL that parses. *)
Theorem verifyHost_NewVerifier (clusterID partitionID host : string) :
  verifyHost L (NewVerifier L clusterID partitionID) host = None <->
  exists region endpoint u,
    In region (partitions.GetRegions partitionID) /\
    ResolveEndpoint L region = inr endpoint /\
    url_Parse L endpoint = inr u /\
    URL_Hostname L u = host.
Proof.
  unfold verifyHost, NewVerifier. cbn [validSTShostnames].
  unfold stsHostsForPartition.
  destruct (hosts_fold (partitions.GetRegions partitionID) ∅ host) as [H _].
  split.
  - intros Hv.
    assert (Hs : is_Some
                   (fold_left
                      (fun (validSTShostnames : gmap string bool)
                           (region : string) =>
                         match ResolveEndpoint L region with
                         | inl _ => validSTShostnames
                         | inr endpoint =>
                             match url_Parse L endpoint with
                             | inl _ => validSTShostnames
                             | inr parsedURL =>
                                 <[URL_Hostname L parsedURL := true]>
                                   validSTShostnames
                             end
                         end)
                      (partitions.GetRegions partitionID) ∅ !! host)).
    { match type of Hv with
      | match ?m with _ => _ end = None =>
          destruct m as [b |]; [eauto | discriminate Hv]
      end. }
    apply H in Hs. destruct Hs as [[b Hb] | Hex]; [| exact Hex].
    rewrite lookup_empty in Hb. discriminate Hb.
  - intros Hex.
    assert (Hs : is_Some ((∅ : gmap string bool) !! host) \/
                 exists region endpoint u,
                   In region (partitions.GetRegions partitionID) /\
                   ResolveEndpoint L region = inr endpoint /\
                   url_Parse L endpoint = inr u /\ URL_Hostname L u = host)
      by (right; exact Hex).
    apply H in Hs. destruct Hs as [b Hb]. rewrite Hb. reflexivity.
Qed.

(** X3.  A verifier for a partition that is not in the table accepts no
    token: whatever the token and the answers of the world, [Verify]
    returns a [FormatError] and sends nothing. *)
Theorem Verify_unknown_partition (clusterID partitionID : string)
    (w : World) (token : string) :
  partitions.ValidPartition partitionID = false ->
  exists m,
    Verify L (NewVerifier L clusterID partitionID) w token
    = ([], Err (FormatError m)).
Proof.
  intros Hp.
  assert (Hregions : partitions.GetRegions partitionID = []).
  { unfold partitions.GetRegions.
    unfold partitions.ValidPartition in Hp.
    apply bool_decide_eq_false in Hp.
    destruct (partitions.partitions !! partitionID) as [value |];
      [| reflexivity].
    exfalso. apply Hp. eauto. }
  unfold Verify, fail.
  destruct (parseToken L (NewVerifier L clusterID partitionID) token)
    as [e | [u qpl]] eqn:Hparse.
  - destruct (isFormatError_inv e (parseToken_error L _ _ _ Hparse))
      as [m ->].
    eauto.
  - exfalso. apply (parseToken_inv L) in Hparse.
    destruct Hparse as (_ & _ & Hhost & _).
    unfold NewVerifier, stsHostsForPartition in Hhost.
    cbn [validSTShostnames] in Hhost. rewrite Hregions in Hhost.
    cbn [fold_left] in Hhost. rewrite lookup_empty in Hhost.
    destruct Hhost as [b Hb]. discriminate Hb.
Qed.

End HostFacts.

Lemma Verify_unknown_partition_witness :
  partitions.ValidPartition "aws-mars" = false /\
  exists m,
    Verify golib.library (NewVerifier golib.library "my-cluster" "aws-mars")
      (examples.world examples.signingTime) examples.token
    = ([], Err (FormatError m)).
Proof.
  split; [vm_compute; reflexivity |].
  apply (Verify_unknown_partition golib.library "my-cluster" "aws-mars"
           (examples.world examples.signingTime) examples.token).
  vm_compute. reflexivity.
Defined.

(** ** The query parameters *)

(** [Split] undoes [Join] on pieces that do not hold the separator. *)
Lemma Split_cons_piece (piece rest : string) (sep : ascii) :
  strings.Count piece sep = O ->
  strings.Split (piece ++ String sep rest) sep
  = piece :: strings.Split rest sep.
Proof.
  induction piece as [| c piece IH]; intros Hc.
  - change (EmptyString ++ String sep rest) with (String sep rest).
    cbn [strings.Split]. rewrite Ascii.eqb_refl. reflexivity.
  - rewrite append_cons. cbn [strings.Split strings.Count] in *.
    destruct (Ascii.eqb c sep); [discriminate Hc |].
    rewrite IH by exact Hc. reflexivity.
Qed.

Lemma Split_Join (pieces : list string) (sep : ascii) :
  pieces <> [] ->
  List.Forall (fun piece => strings.Count piece sep = O) pieces ->
  strings.Split (arn.Join pieces (String sep EmptyString)) sep = pieces.
Proof.
  induction pieces as [| piece rest IH]; [congruence |].
  intros _ H. inversion H as [| ? ? Hp Hrest]; subst.
  destruct rest as [| piece' rest'].
  - cbn [arn.Join]. apply Split_without_separator. exact Hp.
  - change (arn.Join (piece :: piece' :: rest') (String sep EmptyString))
      with (piece ++ String sep EmptyString
            ++ arn.Join (piece' :: rest') (String sep EmptyString)).
    change (String sep EmptyString
            ++ arn.Join (piece' :: rest') (String sep EmptyString))
      with (String sep (arn.Join (piece' :: rest') (String sep EmptyString))).
    rewrite Split_cons_piece by exact Hp.
    rewrite IH by (congruence || exact Hrest). reflexivity.
Qed.

(** What [Set_] leaves in a map. *)
Lemma In_Set (v : url.Values) (key value k : string) (vs : list string) :
  In (k, vs) (url.Set_ v key value) ->
  (k = key /\ vs = [value]) \/ In (k, vs) v.
Proof.
  induction v as [| [k0 vs0] rest IH]; cbn [url.Set_].
  - intros [H | []]. inversion H; subst. auto.
  - destruct (String.eqb_spec k0 key) as [-> | Hne].
    + intros [H | H].
      * inversion H; subst. auto.
      * right. right. exact H.
    + intros [H | H].
      * right. left. exact H.
      * destruct (IH H) as [E | Hin]; [auto | right; right; exact Hin].
Qed.

Lemma keys_Set (v : url.Values) (key value k : string) :
  In k (map fst (url.Set_ v key value)) -> k = key \/ In k (map fst v).
Proof.
  intros H. apply in_map_iff in H. destruct H as ([k' vs] & <- & Hin).
  apply In_Set in Hin. destruct Hin as [[-> _] | Hin]; [auto |].
  right. apply in_map_iff. exists (k', vs). auto.
Qed.

Lemma NoDup_Set (v : url.Values) (key value : string) :
  List.NoDup (map fst v) -> List.NoDup (map fst (url.Set_ v key value)).
Proof.
  induction v as [| [k0 vs0] rest IH]; cbn [url.Set_ map fst]; intros H.
  - apply List.NoDup_cons; [intros [] | apply List.NoDup_nil].
  - inversion H as [| ? ? Hnotin Hrest]; subst.
    destruct (String.eqb_spec k0 key) as [-> | Hne]; cbn [map fst].
    + apply List.NoDup_cons; assumption.
    + apply List.NoDup_cons; [| apply IH; exact Hrest].
      intros Hin. apply keys_Set in Hin. destruct Hin as [E | Hin];
        [congruence | contradiction].
Qed.

Section ParamFacts.

Variable L : Library.

(** The loop over a query in two parts. *)
Lemma lowerParams_app (qp1 qp2 acc : url.Values) :
  lowerParams L (qp1 ++ qp2)%list acc =
    match lowerParams L qp1 acc with
    | inl e => inl e
    | inr acc' => lowerParams L qp2 acc'
    end.
Proof.
  revert acc. induction qp1 as [| [k vs] rest IH]; intros acc;
    cbn [app lowerParams]; [reflexivity |].
  destruct (negb (index_bool parameterWhitelist (strings_ToLower L k)));
    [reflexivity |].
  destruct (negb (length vs =? 1)%nat); [reflexivity |].
  apply IH.
Qed.

(** The loop ends without an error exactly when every key of the query is
    in the whitelist once lowered and carries one value. *)
Lemma lowerParams_succeeds (queryParams acc : url.Values) :
  (exists queryParamsLower,
      lowerParams L queryParams acc = inr queryParamsLower) <->
  List.Forall
    (fun kv =>
       index_bool parameterWhitelist (strings_ToLower L (fst kv)) = true /\
       length (snd kv) = 1%nat)
    queryParams.
Proof.
  revert acc. induction queryParams as [| [k vs] rest IH]; intros acc;
    cbn [lowerParams].
  - split; [intros _; apply List.Forall_nil | eauto].
  - destruct (index_bool parameterWhitelist (strings_ToLower L k)) eqn:Hw;
      cbn [negb].
    + destruct (Nat.eqb_spec (length vs) 1) as [Hlen | Hlen]; cbn [negb].
      * rewrite IH. split.
        -- intros H. apply List.Forall_cons; [cbn [fst snd]; auto | exact H].
        -- intros H. inversion H; assumption.
      * split; [intros [? H]; discriminate H |].
        intros H. inversion H as [| ? ? [_ Hl] _]; subst.
        cbn [snd] in Hl. contradiction.
    + split; [intros [? H]; discriminate H |].
      intros H. inversion H as [| ? ? [Hk _] _]; subst.
      cbn [fst] in Hk. congruence.
Qed.

(** What the loop keeps of a map of lowered parameters: its keys differ
    from one another, are in the whitelist, and carry one value each. *)
Lemma lowerParams_keeps (qp acc qpl : url.Values) :
  lowerParams L qp acc = inr qpl ->
  List.NoDup (map fst acc) ->
  (forall k vs, In (k, vs) acc ->
                index_bool parameterWhitelist k = true /\ exists x, vs = [x]) ->
  List.NoDup (map fst qpl) /\
  (forall k vs, In (k, vs) qpl ->
                index_bool parameterWhitelist k = true /\ exists x, vs = [x]).
Proof.
  revert acc. induction qp as [| [key values] rest IH]; intros acc H Hnd Hacc;
    cbn [lowerParams] in H.
  - inversion H; subst. auto.
  - destruct (index_bool parameterWhitelist (strings_ToLower L key)) eqn:Hw;
      cbn [negb] in H; [| discriminate H].
    destruct (negb (length values =? 1)%nat); [discriminate H |].
    apply (IH _ H).
    + apply NoDup_Set. exact Hnd.
    + intros k vs Hin. apply In_Set in Hin.
      destruct Hin as [[-> ->] | Hin]; [eauto | eauto].
Qed.

(** X4.  The checks of [Verify] up to the loop over the query parameters
    pass, with the parsed URL [u], if and only if the token is of at most
    4096 bytes, carries the prefix, and its base64 text decodes to a
    string that parses as [u]; the scheme of [u] is [https]; its host is
    among the host names of the verifier; its path is [/]; and its query
    parses into keys that are each in the whitelist once lowered, with
    exactly one value. *)
Theorem parseToken_succeeds_iff (v : tokenVerifier) (token : string)
    (u : url.URL) :
  (exists queryParamsLower,
      parseToken L v token = inr (u, queryParamsLower)) <->
  decodesTo L token u /\
  url.Scheme u = "https" /\
  is_Some (validSTShostnames v !! url.Host u) /\
  url.Path u = "/" /\
  exists queryParams,
    url_ParseQuery L (url.RawQuery u) = (queryParams, None) /\
    List.Forall
      (fun kv =>
         index_bool parameterWhitelist (strings_ToLower L (fst kv)) = true /\
         length (snd kv) = 1%nat)
      queryParams.
Proof.
  split.
  - intros [qpl H]. apply (parseToken_inv L) in H.
    destruct H as (Hd & Hs & Hh & Hp & qp & Hq & Hl).
    split; [exact Hd |]. split; [exact Hs |]. split; [exact Hh |].
    split; [exact Hp |].
    exists qp. split; [exact Hq |].
    apply (lowerParams_succeeds qp []). eauto.
  - intros (Hd & Hs & [b Hh] & Hp & qp & Hq & Hall).
    apply (lowerParams_succeeds qp []) in Hall. destruct Hall as [qpl Hl].
    exists qpl. rewrite (parseToken_decodesTo L v token u Hd).
    unfold verifyHost. rewrite Hs, Hh, Hp, Hq, Hl. reflexivity.
Qed.

(** X5.  The parameters [Verify] goes on with after the loop over the
    query are a map whose keys are in the whitelist, each with exactly one
    value. *)
Theorem parseToken_parameters (v : tokenVerifier) (token : string)
    (u : url.URL) (queryParamsLower : url.Values) :
  parseToken L v token = inr (u, queryParamsLower) ->
  List.NoDup (map fst queryParamsLower) /\
  (forall key values,
      In (key, values) queryParamsLower ->
      index_bool parameterWhitelist key = true /\
      exists value, values = [value]).
Proof.
  intros H. apply (parseToken_inv L) in H.
  destruct H as (_ & _ & _ & _ & qp & _ & Hl).
  apply (lowerParams_keeps qp [] queryParamsLower Hl).
  - apply List.NoDup_nil.
  - intros k vs [].
Qed.

(** The values of a key that no later key lowers to the same name: one
    value, which the loop leaves under the lowered name. *)
Lemma lowerParams_Get_last (qp1 qp2 acc queryParamsLower : url.Values)
    (key : string) (values : list string) :
  lowerParams L (qp1 ++ (key, values) :: qp2)%list acc
  = inr queryParamsLower ->
  (forall k vs, In (k, vs) qp2 ->
                strings_ToLower L k <> strings_ToLower L key) ->
  values = [url.Get queryParamsLower (strings_ToLower L key)].
Proof.
  intros H Hlater. rewrite lowerParams_app in H.
  destruct (lowerParams L qp1 acc) as [e | acc1]; [discriminate H |].
  cbn [lowerParams] in H.
  destruct (negb (index_bool parameterWhitelist (strings_ToLower L key)));
    [discriminate H |].
  destruct values as [| value [| ? ?]]; try discriminate H.
  cbn [length Nat.eqb negb hd] in H.
  rewrite (lowerParams_Get_other L qp2 _ queryParamsLower _ H Hlater).
  rewrite Get_Set, String.eqb_refl. reflexivity.
Qed.

(** X6.  When several keys of the query lower to the same name, the value
    kept under that name is the value of the key that the loop visits
    last. *)
Theorem lowerParams_last_wins (qp1 qp2 acc queryParamsLower : url.Values)
    (key value : string) :
  lowerParams L (qp1 ++ (key, [value]) :: qp2)%list acc
  = inr queryParamsLower ->
  (forall k vs, In (k, vs) qp2 ->
                strings_ToLower L k <> strings_ToLower L key) ->
  url.Get queryParamsLower (strings_ToLower L key) = value.
Proof.
  intros H Hlater.
  pose proof (lowerParams_Get_last qp1 qp2 acc queryParamsLower key [value]
                H Hlater) as E.
  inversion E as [Evalue]. rewrite <- Evalue. reflexivity.
Qed.

(** With keys that lower to names that differ from one another, the value
    under the lowered name of a key is the value of that key. *)
Lemma lowerParams_Get_entry (qp qpl : url.Values) (key : string)
    (values : list string) :
  lowerParams L qp [] = inr qpl ->
  List.NoDup (map (fun kv => strings_ToLower L (fst kv)) qp) ->
  In (key, values) qp ->
  values = [url.Get qpl (strings_ToLower L key)].
Proof.
  intros Hl Hnd Hin.
  apply in_split in Hin. destruct Hin as (qp1 & qp2 & ->).
  apply (lowerParams_Get_last qp1 qp2 [] qpl key values Hl).
  intros k vs Hk E.
  rewrite map_app in Hnd. cbn [map fst] in Hnd.
  apply List.NoDup_remove_2 in Hnd. apply Hnd.
  apply in_or_app. right. rewrite <- E.
  apply (in_map (fun kv => strings_ToLower L (fst kv)) qp2 (k, vs) Hk).
Qed.

(** The checks of the parameters read the map through [Get] only. *)
Lemma checkParams_Get (now : time.Time) (qpl qpl' : url.Values) :
  (forall key, url.Get qpl' key = url.Get qpl key) ->
  checkParams L now qpl' = checkParams L now qpl.
Proof.
  intros Hsame.
  unfold checkParams, hasSignedClusterIDHeader, accessKeyIDOf.
  rewrite !Hsame. reflexivity.
Qed.

(** In another order, the loop ends without an error too, and with the
    same value under every name, when no two keys lower to the same
    name. *)
Lemma lowerParams_permuted (qp qp' qpl : url.Values) :
  Permutation qp qp' ->
  List.NoDup (map (fun kv => strings_ToLower L (fst kv)) qp) ->
  lowerParams L qp [] = inr qpl ->
  exists qpl',
    lowerParams L qp' [] = inr qpl' /\
    forall key, url.Get qpl' key = url.Get qpl key.
Proof.
  intros Hperm Hnd Hl.
  assert (Hall : List.Forall
                   (fun kv =>
                      index_bool parameterWhitelist
                        (strings_ToLower L (fst kv)) = true /\
                      length (snd kv) = 1%nat) qp).
  { apply (lowerParams_succeeds qp []). eauto. }
  assert (Hall' : List.Forall
                    (fun kv =>
                       index_bool parameterWhitelist
                         (strings_ToLower L (fst kv)) = true /\
                       length (snd kv) = 1%nat) qp').
  { rewrite List.Forall_forall in *. intros kv Hkv. apply Hall.
    apply (Permutation_in kv (Permutation_sym Hperm) Hkv). }
  apply (lowerParams_succeeds qp' []) in Hall'.
  destruct Hall' as [qpl' Hl']. exists qpl'. split; [exact Hl' |].
  assert (Hnd' : List.NoDup (map (fun kv => strings_ToLower L (fst kv)) qp')).
  { apply (Permutation_NoDup
             (Permutation_map (fun kv => strings_ToLower L (fst kv)) Hperm)).
    exact Hnd. }
  intros key.
  destruct (in_dec string_dec key
              (map (fun kv => strings_ToLower L (fst kv)) qp)) as [Hin | Hout].
  - apply in_map_iff in Hin. destruct Hin as ([k vs] & Hk & Hin).
    cbn [fst] in Hk. subst key.
    pose proof (lowerParams_Get_entry qp qpl k vs Hl Hnd Hin) as E.
    pose proof (lowerParams_Get_entry qp' qpl' k vs Hl' Hnd'
                  (Permutation_in _ Hperm Hin)) as E'.
    congruence.
  - rewrite (lowerParams_Get_other L qp [] qpl key Hl).
    + rewrite (lowerParams_Get_other L qp' [] qpl' key Hl'); [reflexivity |].
      intros k vs Hk E. apply Hout. rewrite <- E.
      apply (in_map (fun kv => strings_ToLower L (fst kv)) qp (k, vs)).
      apply (Permutation_in _ (Permutation_sym Hperm) Hk).
    + intros k vs Hk E. apply Hout. rewrite <- E.
      apply (in_map (fun kv => strings_ToLower L (fst kv)) qp (k, vs) Hk).
Qed.

(** X7.  The order in which the loop visits the query parameters (the
    order of iteration of a Go map) does not matter when no two keys
    lower to the same name: if the loop ends without an error in one
    order, it does so in every other, with the same value under every
    name, and the checks of the parameters that follow give the same
    result. *)
Theorem lowerParams_order (qp qp' qpl : url.Values) :
  Permutation qp qp' ->
  List.NoDup (map (fun kv => strings_ToLower L (fst kv)) qp) ->
  lowerParams L qp [] = inr qpl ->
  exists qpl',
    lowerParams L qp' [] = inr qpl' /\
    (forall key, url.Get qpl' key = url.Get qpl key) /\
    (forall now, checkParams L now qpl' = checkParams L now qpl).
Proof.
  intros Hperm Hnd Hl.
  destruct (lowerParams_permuted qp qp' qpl Hperm Hnd Hl)
    as (qpl' & Hl' & Hsame).
  exists qpl'. split; [exact Hl' |]. split; [exact Hsame |].
  intros now. apply checkParams_Get. exact Hsame.
Qed.

(** X8.  When [x-amz-signedheaders] lists header names between
    semicolons, [hasSignedClusterIDHeader] holds exactly when one of the
    names is the cluster ID header, the case of the letters apart. *)
Theorem hasSignedClusterIDHeader_of_list (paramsLower : url.Values)
    (headers : list string) :
  headers <> [] ->
  List.Forall (fun hdr => strings.Count hdr ";" = O) headers ->
  url.Get paramsLower "x-amz-signedheaders" = arn.Join headers ";" ->
  hasSignedClusterIDHeader L paramsLower
  = existsb
      (fun hdr =>
         String.eqb (strings_ToLower L hdr) (strings_ToLower L "x-k8s-aws-id"))
      headers.
Proof.
  intros Hne Hno Hget. unfold hasSignedClusterIDHeader.
  rewrite Hget, (Split_Join headers ";" Hne Hno). reflexivity.
Qed.

(** ** The checks of the parameters *)

(** What the checks of the parameters have found when they pass. *)
Lemma checkParams_inv (now : time.Time) (qpl : url.Values) (k : string) :
  checkParams L now qpl = inr k ->
  paramsValid L qpl /\
  k = accessKeyIDOf qpl /\
  exists d,
    time_Parse L dateHeaderFormat (url.Get qpl "x-amz-date") = inr d /\
    now <= d + 15 * time.Minute.
Proof.
  unfold checkParams, paramsValid. intros H.
  destruct (String.eqb_spec (url.Get qpl "action") "GetCallerIdentity")
    as [Hact |]; [| discriminate H].
  cbn [negb] in H.
  destruct (hasSignedClusterIDHeader L qpl) eqn:Hsig; [| discriminate H].
  cbn [negb] in H.
  destruct (strconv.Atoi (url.Get qpl "x-amz-expires")) as [expires err]
    eqn:Hexp.
  destruct err as [err |]; [discriminate H |].
  cbn [isSome orb] in H.
  destruct (Z.ltb_spec expires 0); [discriminate H |].
  destruct (Z.ltb_spec 900 expires); [discriminate H |].
  cbn [orb] in H.
  destruct (String.eqb_spec (url.Get qpl "x-amz-date") "") as [| Hdate];
    [discriminate H |].
  destruct (time_Parse L dateHeaderFormat (url.Get qpl "x-amz-date"))
    as [e | d] eqn:Hd; [discriminate H |].
  rewrite After_expiration in H.
  destruct (Z.ltb_spec (d + 15 * time.Minute) now); [discriminate H |].
  inversion H; subst k.
  split; [| split; [reflexivity | eauto]].
  repeat split; try assumption.
  exists expires. split; [reflexivity | lia].
Qed.

(** X9.  The value of [x-amz-expires] does not move the expiration: two
    maps of parameters that differ only under [x-amz-expires], each with
    an integer between 0 and 900 there, pass or fail the checks of the
    parameters alike, at every time. *)
Theorem checkParams_ignores_expires (now : time.Time) (qpl qpl' : url.Values)
    (expires expires' : Z) :
  (forall key, key <> "x-amz-expires" -> url.Get qpl key = url.Get qpl' key) ->
  strconv.Atoi (url.Get qpl "x-amz-expires") = (expires, None) ->
  0 <= expires <= 900 ->
  strconv.Atoi (url.Get qpl' "x-amz-expires") = (expires', None) ->
  0 <= expires' <= 900 ->
  checkParams L now qpl = checkParams L now qpl'.
Proof.
  intros Hsame He Hr He' Hr'.
  unfold checkParams, hasSignedClusterIDHeader, accessKeyIDOf.
  rewrite He, He'.
  rewrite <- !(Hsame _) by discriminate.
  cbn [isSome orb].
  replace (expires <? 0) with false by lia.
  replace (900 <? expires) with false by lia.
  replace (expires' <? 0) with false by lia.
  replace (900 <? expires') with false by lia.
  reflexivity.
Qed.

(** ** The request *)

(** X10.  [Verify] sends at most one request, and it sends one exactly
    when the token passes the checks up to the query parameters, the
    action, the signed headers and [x-amz-expires] are valid, [x-amz-date]
    is there and parses as a date not more than 15 minutes before the
    current time, and [http.NewRequest] returns a request for the parsed
    URL. *)
Theorem Verify_sends_request_iff (v : tokenVerifier) (w : World)
    (token : string) :
  (length (fst (Verify L v w token)) <= 1)%nat /\
  (fst (Verify L v w token) <> [] <->
   exists u qpl d req,
     parseToken L v token = inr (u, qpl) /\
     paramsValid L qpl /\
     time_Parse L dateHeaderFormat (url.Get qpl "x-amz-date") = inr d /\
     Now w <= d + 15 * time.Minute /\
     http_NewRequest L "GET" (URL_String L u) = inr req).
Proof.
  split.
  - destruct (Verify L v w token) as [calls r] eqn:HV.
    apply (Verify_inv L) in HV.
    destruct HV as [[-> _] | (u & qpl & k & req & _ & _ & _ & -> & _)];
      cbn; lia.
  - split.
    + intros Hsent.
      destruct (Verify L v w token) as [calls r] eqn:HV.
      apply (Verify_inv L) in HV. cbn [fst] in Hsent.
      destruct HV as [[-> _] | (u & qpl & k & req & Hp & Hc & Hr & _ & _)];
        [contradiction |].
      apply checkParams_inv in Hc. destruct Hc as (Hv & _ & d & Hd & Hnow).
      unfold newRequest in Hr.
      destruct (http_NewRequest L "GET" (URL_String L u)) as [e | req0] eqn:Hn;
        [discriminate Hr |].
      exists u, qpl, d, req0. auto.
    + intros (u & qpl & d & req0 & Hp & Hv & Hd & Hnow & Hn).
      rewrite (Verify_not_expired L v w token u qpl d Hp Hv Hd Hnow).
      unfold callSTS, newRequest. rewrite Hn. cbn [fst]. discriminate.
Qed.

(** X11.  Where [Verify] sends its request: a request that [Verify]
    sends is the request built for the URL that the token decodes to,
    whose scheme is [https], whose host is among the host names of the
    verifier and whose path is [/]. *)
Theorem Verify_request_target (v : tokenVerifier) (w : World)
    (token : string) (req : http.Request) (r : result Identity) :
  Verify L v w token = ([req], r) ->
  exists u,
    decodesTo L token u /\
    url.Scheme u = "https" /\
    is_Some (validSTShostnames v !! url.Host u) /\
    url.Path u = "/" /\
    newRequest L v u = Some req.
Proof.
  intros HV. apply (Verify_inv L) in HV.
  destruct HV as [[Hnil _] | (u & qpl & k & req' & Hp & _ & Hr & Hreq & _)];
    [discriminate Hnil |].
  inversion Hreq; subst req'.
  apply (parseToken_inv L) in Hp.
  destruct Hp as (Hd & Hs & Hh & Hpath & _).
  exists u. auto.
Qed.

End ParamFacts.

Lemma parseToken_parameters_witness :
  parseToken golib.library examples.verifier examples.token
  = inr (examples.parsedURL, examples.queryParamsLower) /\
  List.NoDup (map fst examples.queryParamsLower) /\
  (forall key values,
      In (key, values) examples.queryParamsLower ->
      index_bool parameterWhitelist key = true /\
      exists value, values = [value]).
Proof.
  split; [vm_compute; reflexivity |].
  apply (parseToken_parameters golib.library examples.verifier examples.token
           examples.parsedURL examples.queryParamsLower).
  vm_compute. reflexivity.
Defined.

Lemma lowerParams_last_wins_witness :
  lowerParams golib.library
    ([("Action", ["GetCallerIdentity"])]
     ++ ("action", ["Other"]) :: [("Version", ["2011-06-15"])])%list []
  = inr [("action", ["Other"]); ("version", ["2011-06-15"])] /\
  url.Get [("action", ["Other"]); ("version", ["2011-06-15"])]
    (golib.ToLower "action")
  = "Other".
Proof.
  split; [vm_compute; reflexivity |].
  apply (lowerParams_last_wins golib.library
           [("Action", ["GetCallerIdentity"])] [("Version", ["2011-06-15"])]
           [] [("action", ["Other"]); ("version", ["2011-06-15"])]
           "action" "Other").
  - vm_compute. reflexivity.
  - intros k vs [Hin | []]. inversion Hin; subst. vm_compute. discriminate.
Defined.

Lemma hasSignedClusterIDHeader_of_list_witness :
  url.Get examples.queryParamsLower "x-amz-signedheaders"
  = arn.Join ["host"; "x-k8s-aws-id"] ";" /\
  hasSignedClusterIDHeader golib.library examples.queryParamsLower
  = existsb
      (fun hdr =>
         String.eqb (golib.ToLower hdr) (golib.ToLower "x-k8s-aws-id"))
      ["host"; "x-k8s-aws-id"].
Proof.
  split; [vm_compute; reflexivity |].
  apply (hasSignedClusterIDHeader_of_list golib.library
           examples.queryParamsLower ["host"; "x-k8s-aws-id"]).
  - discriminate.
  - repeat (apply List.Forall_cons; [vm_compute; reflexivity |]).
    apply List.Forall_nil.
  - vm_compute. reflexivity.
Defined.

Lemma checkParams_ignores_expires_witness :
  strconv.Atoi (url.Get examples.queryParamsLower "x-amz-expires")
  = (60, None) /\
  strconv.Atoi
    (url.Get (url.Set_ examples.queryParamsLower "x-amz-expires" "900")
       "x-amz-expires")
  = (900, None) /\
  checkParams golib.library examples.signingTime examples.queryParamsLower
  = checkParams golib.library examples.signingTime
      (url.Set_ examples.queryParamsLower "x-amz-expires" "900").
Proof.
  split; [vm_compute; reflexivity |].
  split; [vm_compute; reflexivity |].
  apply (checkParams_ignores_expires golib.library examples.signingTime
           examples.queryParamsLower
           (url.Set_ examples.queryParamsLower "x-amz-expires" "900")
           60 900).
  - intros key Hkey. rewrite Get_Set.
    destruct (String.eqb_spec "x-amz-expires" key) as [E | _];
      [congruence | reflexivity].
  - vm_compute. reflexivity.
  - lia.
  - vm_compute. reflexivity.
  - lia.
Defined.

Lemma Verify_request_target_witness :
  Verify golib.library examples.verifier (examples.world examples.signingTime)
    examples.token
  = ([examples.request examples.presignedURL],
     Ok (examples.identity "AKIAEXAMPLE")) /\
  exists u,
    decodesTo golib.library examples.token u /\
    url.Scheme u = "https" /\
    is_Some (validSTShostnames examples.verifier !! url.Host u) /\
    url.Path u = "/" /\
    newRequest golib.library examples.verifier u
    = Some (examples.request examples.presignedURL).
Proof.
  split; [vm_compute; reflexivity |].
  apply (Verify_request_target golib.library examples.verifier
           (examples.world examples.signingTime) examples.token
           (examples.request examples.presignedURL)
           (Ok (examples.identity "AKIAEXAMPLE"))).
  vm_compute. reflexivity.
Defined.

Lemma lowerParams_order_witness :
  Permutation examples.unsignedQueryParams (rev examples.unsignedQueryParams) /\
  lowerParams golib.library examples.unsignedQueryParams []
  = inr examples.unsignedQueryParamsLower /\
  exists qpl',
    lowerParams golib.library (rev examples.unsignedQueryParams) []
    = inr qpl' /\
    (forall key,
        url.Get qpl' key = url.Get examples.unsignedQueryParamsLower key) /\
    (forall now,
        checkParams golib.library now qpl'
        = checkParams golib.library now examples.unsignedQueryParamsLower).
Proof.
  split; [apply Permutation_rev |].
  split; [vm_compute; reflexivity |].
  apply (lowerParams_order golib.library examples.unsignedQueryParams
           (rev examples.unsignedQueryParams)
           examples.unsignedQueryParamsLower).
  - apply Permutation_rev.
  - vm_compute.
    repeat (apply List.NoDup_cons;
            [intros H; repeat (destruct H as [H | H]; [discriminate H |]);
             exact H |]).
    apply List.NoDup_nil.
  - vm_compute. reflexivity.
Defined.

(** ** Two runs of the verifier *)

(** The checks of the parameters that pass at a time pass at every
    earlier time. *)
Lemma checkParams_earlier (L : Library) (now now' : time.Time)
    (qpl : url.Values) (k : string) :
  checkParams L now qpl = inr k ->
  now' <= now ->
  checkParams L now' qpl = inr k.
Proof.
  intros Hc Hle. apply (checkParams_inv L) in Hc.
  destruct Hc as (Hv & -> & d & Hd & Hnow).
  rewrite (checkParams_valid L now' qpl d Hv Hd), After_expiration.
  destruct (Z.ltb_spec (d + 15 * time.Minute) now'); [lia | reflexivity].
Qed.

Section TwoRuns.

Variables L L' : Library.
Hypothesis HLL : reordered L L'.

Lemma lowerParams_reordered (qp acc : url.Values) :
  lowerParams L' qp acc = lowerParams L qp acc.
Proof.
  revert acc. induction qp as [| [key values] rest IH]; intros acc;
    cbn [lowerParams]; [reflexivity |].
  rewrite <- (same_ToLower L L' HLL), <- (same_fmt_q L L' HLL), IH.
  reflexivity.
Qed.

Lemma hasSignedClusterIDHeader_reordered (qpl : url.Values) :
  hasSignedClusterIDHeader L' qpl = hasSignedClusterIDHeader L qpl.
Proof.
  unfold hasSignedClusterIDHeader.
  induction (strings.Split (url.Get qpl "x-amz-signedheaders") ";")
    as [| hdr rest IH]; cbn [existsb]; [reflexivity |].
  rewrite IH, <- !(same_ToLower L L' HLL). reflexivity.
Qed.

Lemma checkParams_reordered (now : time.Time) (qpl : url.Values) :
  checkParams L' now qpl = checkParams L now qpl.
Proof.
  unfold checkParams. rewrite hasSignedClusterIDHeader_reordered.
  rewrite <- (same_time_Parse L L' HLL).
  destruct (time_Parse L dateHeaderFormat (url.Get qpl "x-amz-date"));
    [reflexivity |].
  rewrite <- (same_Time_String L L' HLL). reflexivity.
Qed.

Lemma newRequest_reordered (v : tokenVerifier) (u : url.URL) :
  newRequest L' v u = newRequest L v u.
Proof.
  unfold newRequest.
  rewrite <- (same_URL_String L L' HLL), <- (same_NewRequest L L' HLL).
  reflexivity.
Qed.

Lemma parseResponse_reordered (k : string)
    (answer : http.DoError + http.Response) :
  parseResponse L' k answer = parseResponse L k answer.
Proof.
  unfold parseResponse. destruct answer as [e | response]; [reflexivity |].
  destruct (http.Body response) as [e | body]; [reflexivity |].
  rewrite <- (same_Unmarshal L L' HLL).
  destruct (json_Unmarshal L body) as [e | ci]; [reflexivity |].
  rewrite <- (same_Canonicalize L L' HLL), <- (same_fmt_q L L' HLL).
  reflexivity.
Qed.

(** A token that passes the checks up to the query parameters in one run
    passes them in another, with the same URL and the same value under
    every name, when no two keys of its query lower to the same name. *)
Lemma parseToken_reordered (v v' : tokenVerifier) (token : string)
    (u : url.URL) (qpl : url.Values) :
  validSTShostnames v = validSTShostnames v' ->
  (forall qp, url_ParseQuery L (url.RawQuery u) = (qp, None) ->
              List.NoDup (map (fun kv => strings_ToLower L (fst kv)) qp)) ->
  parseToken L v token = inr (u, qpl) ->
  exists qpl',
    parseToken L' v' token = inr (u, qpl') /\
    forall key, url.Get qpl' key = url.Get qpl key.
Proof.
  intros Hhosts Hdistinct Hp.
  apply (parseToken_inv L) in Hp.
  destruct Hp as (Hd & Hs & [b Hh] & Hpath & qp & Hq & Hl).
  pose proof (same_parameters L L' HLL (url.RawQuery u)) as Hperm.
  pose proof (same_query_error L L' HLL (url.RawQuery u)) as Herr.
  rewrite Hq in Hperm, Herr. cbn [fst snd] in Hperm, Herr.
  destruct (url_ParseQuery L' (url.RawQuery u)) as [qp' err'] eqn:Hq'.
  cbn [fst snd] in Hperm, Herr. subst err'.
  destruct (lowerParams_permuted L qp qp' qpl Hperm (Hdistinct qp Hq) Hl)
    as (qpl' & Hl' & Hsame).
  exists qpl'. split; [| exact Hsame].
  assert (Hd' : decodesTo L' token u).
  { destruct Hd as (Hlen & Hpre & bytes & Hdec & Hurl).
    repeat split; try assumption. exists bytes. split; [exact Hdec |].
    rewrite <- (same_url_Parse L L' HLL). exact Hurl. }
  rewrite (parseToken_decodesTo L' v' token u Hd').
  unfold verifyHost. rewrite <- Hhosts, Hs, Hh, Hpath, Hq'.
  rewrite lowerParams_reordered, Hl'. reflexivity.
Qed.

(** A second run, by another verifier with the same host names and at an
    earlier time, of a token that passes the checks in a first run. *)
Lemma Verify_reordered (v v' : tokenVerifier) (w w' : World)
    (token : string) (u : url.URL) (qpl : url.Values) (k : string) :
  validSTShostnames v = validSTShostnames v' ->
  (forall qp, url_ParseQuery L (url.RawQuery u) = (qp, None) ->
              List.NoDup (map (fun kv => strings_ToLower L (fst kv)) qp)) ->
  parseToken L v token = inr (u, qpl) ->
  checkParams L (Now w) qpl = inr k ->
  Now w' <= Now w ->
  Verify L' v' w' token =
    match newRequest L v' u with
    | None => ([], Panic)
    | Some req' => ([req'], parseResponse L k (Do w' req'))
    end.
Proof.
  intros Hhosts Hdistinct Hp Hc Hle.
  destruct (parseToken_reordered v v' token u qpl Hhosts Hdistinct Hp)
    as (qpl' & Hp' & Hsame).
  unfold Verify. rewrite Hp'.
  rewrite checkParams_reordered.
  rewrite (checkParams_Get L (Now w') qpl qpl' Hsame).
  rewrite (checkParams_earlier L (Now w) (Now w') qpl k Hc Hle).
  unfold callSTS. rewrite newRequest_reordered.
  destruct (newRequest L v' u) as [req' |]; [| reflexivity].
  rewrite parseResponse_reordered. reflexivity.
Qed.

(** X12.  The cluster ID of a verifier has no part in the decision to
    send the request.  For a token whose query has no two keys that lower
    to the same name: when a verifier sends a request, every verifier
    with the same host names, in whatever order its run visits the query
    parameters, sends a request too, built for the same URL; and when the
    service gives both requests the same answer, the results are the
    same. *)
Theorem Verify_cluster_id_only_in_request (v v' : tokenVerifier) (w : World)
    (token : string) (req : http.Request) (r : result Identity) :
  validSTShostnames v = validSTShostnames v' ->
  (forall u qp,
      decodesTo L token u ->
      url_ParseQuery L (url.RawQuery u) = (qp, None) ->
      List.NoDup (map (fun kv => strings_ToLower L (fst kv)) qp)) ->
  Verify L v w token = ([req], r) ->
  exists u req' r',
    newRequest L v u = Some req /\
    newRequest L' v' u = Some req' /\
    Verify L' v' w token = ([req'], r') /\
    (Do w req' = Do w req -> r' = r).
Proof.
  intros Hhosts Hdistinct HV. apply (Verify_inv L) in HV.
  destruct HV as [[Hnil _] | (u & qpl & k & req0 & Hp & Hc & Hr & Hreq & ->)];
    [discriminate Hnil |].
  inversion Hreq; subst req0.
  assert (Hd : decodesTo L token u) by (apply (parseToken_inv L) in Hp; tauto).
  pose proof (Verify_reordered v v' w w token u qpl k Hhosts
                (fun qp => Hdistinct u qp Hd) Hp Hc (Z.le_refl _)) as HV'.
  assert (Hsome : exists req', newRequest L v' u = Some req').
  { unfold newRequest in *.
    destruct (http_NewRequest L "GET" (URL_String L u)); [discriminate Hr |].
    eauto. }
  destruct Hsome as [req' Hr']. rewrite Hr' in HV'.
  exists u, req', (parseResponse L k (Do w req')).
  split; [exact Hr |].
  split; [rewrite newRequest_reordered; exact Hr' |].
  split; [exact HV' |].
  intros Hdo. rewrite Hdo. reflexivity.
Qed.

(** X13.  The check of the date has no lower bound.  For a token whose
    query has no two keys that lower to the same name: when [Verify] sends
    its request at some time, a run at any earlier time, however far
    before [x-amz-date] and in whatever order it visits the query
    parameters, sends the same request and returns the same result for
    the same answers. *)
Theorem Verify_earlier (v : tokenVerifier) (w w' : World) (token : string) :
  (forall u qp,
      decodesTo L token u ->
      url_ParseQuery L (url.RawQuery u) = (qp, None) ->
      List.NoDup (map (fun kv => strings_ToLower L (fst kv)) qp)) ->
  fst (Verify L v w token) <> [] ->
  Now w' <= Now w ->
  (forall req, Do w' req = Do w req) ->
  Verify L' v w' token = Verify L v w token.
Proof.
  intros Hdistinct Hsent Hnow Hdo.
  destruct (Verify L v w token) as [calls r] eqn:HV.
  apply (Verify_inv L) in HV. cbn [fst] in Hsent.
  destruct HV as [[-> _] | (u & qpl & k & req & Hp & Hc & Hr & -> & ->)];
    [contradiction |].
  assert (Hd : decodesTo L token u) by (apply (parseToken_inv L) in Hp; tauto).
  rewrite (Verify_reordered v v w w' token u qpl k eq_refl
             (fun qp => Hdistinct u qp Hd) Hp Hc Hnow).
  rewrite Hr, Hdo. reflexivity.
Qed.

End TwoRuns.

Lemma reordered_reversed : reordered golib.library golib.reversed.
Proof.
  constructor; try (intros; reflexivity).
  intros q. cbn [url_ParseQuery golib.library golib.reversed fst].
  apply Permutation_rev.
Defined.

(** No two keys of the query of the example lower to the same name. *)
Lemma distinct_on_example (u : url.URL) (qp : url.Values) :
  decodesTo golib.library examples.token u ->
  url_ParseQuery golib.library (url.RawQuery u) = (qp, None) ->
  List.NoDup (map (fun kv => strings_ToLower golib.library (fst kv)) qp).
Proof.
  intros (_ & _ & bytes & Hdec & Hparse) Hq.
  vm_compute in Hdec. inversion Hdec; subst bytes. clear Hdec.
  vm_compute in Hparse. inversion Hparse; subst u. clear Hparse.
  vm_compute in Hq. inversion Hq; subst qp. clear Hq.
  vm_compute.
  repeat (apply List.NoDup_cons;
          [intros H; repeat (destruct H as [H | H]; [discriminate H |]);
           exact H |]).
  apply List.NoDup_nil.
Defined.

Lemma Verify_cluster_id_only_in_request_witness :
  reordered golib.library golib.reversed /\
  validSTShostnames examples.verifier
  = validSTShostnames (NewVerifier golib.library "other-cluster" "aws") /\
  Verify golib.library examples.verifier (examples.world examples.signingTime)
    examples.token
  = ([examples.request examples.presignedURL],
     Ok (examples.identity "AKIAEXAMPLE")) /\
  exists u req' r',
    newRequest golib.library examples.verifier u
    = Some (examples.request examples.presignedURL) /\
    newRequest golib.reversed
      (NewVerifier golib.library "other-cluster" "aws") u
    = Some req' /\
    Verify golib.reversed (NewVerifier golib.library "other-cluster" "aws")
      (examples.world examples.signingTime) examples.token
    = ([req'], r') /\
    (Do (examples.world examples.signingTime) req'
     = Do (examples.world examples.signingTime)
         (examples.request examples.presignedURL) ->
     r' = Ok (examples.identity "AKIAEXAMPLE")).
Proof.
  split; [exact reordered_reversed |].
  split; [reflexivity |].
  split; [vm_compute; reflexivity |].
  apply (Verify_cluster_id_only_in_request golib.library golib.reversed
           reordered_reversed examples.verifier
           (NewVerifier golib.library "other-cluster" "aws")
           (examples.world examples.signingTime) examples.token
           (examples.request examples.presignedURL)
           (Ok (examples.identity "AKIAEXAMPLE"))).
  - reflexivity.
  - exact distinct_on_example.
  - vm_compute. reflexivity.
Defined.

Lemma Verify_earlier_witness :
  reordered golib.library golib.reversed /\
  fst (Verify golib.library examples.verifier
         (examples.world (examples.signingTime + 15 * time.Minute))
         examples.token)
  = [examples.request examples.presignedURL] /\
  Now (examples.world (examples.signingTime - 60 * time.Minute))
  <= Now (examples.world (examples.signingTime + 15 * time.Minute)) /\
  Verify golib.reversed examples.verifier
    (examples.world (examples.signingTime - 60 * time.Minute)) examples.token
  = Verify golib.library examples.verifier
      (examples.world (examples.signingTime + 15 * time.Minute))
      examples.token.
Proof.
  split; [exact reordered_reversed |].
  split; [vm_compute; reflexivity |].
  split; [vm_compute; discriminate |].
  apply (Verify_earlier golib.library golib.reversed reordered_reversed
           examples.verifier
           (examples.world (examples.signingTime + 15 * time.Minute))
           (examples.world (examples.signingTime - 60 * time.Minute))
           examples.token).
  - exact distinct_on_example.
  - vm_compute. discriminate.
  - vm_compute. discriminate.
  - intros req. reflexivity.
Defined.

(** ** The identity *)

(** No piece of [Split] holds the separator. *)
Lemma Split_pieces (s : string) (sep : ascii) :
  List.Forall (fun piece => strings.Count piece sep = O) (strings.Split s sep).
Proof.
  induction s as [| c s IH]; cbn [strings.Split].
  - apply List.Forall_cons; [reflexivity | apply List.Forall_nil].
  - destruct (Ascii.eqb c sep) eqn:Hc.
    + apply List.Forall_cons; [reflexivity | exact IH].
    + destruct (strings.Split s sep) as [| piece pieces].
      * apply List.Forall_cons; [| apply List.Forall_nil].
        cbn [strings.Count]. rewrite Hc. reflexivity.
      * inversion IH; subst. apply List.Forall_cons; [| assumption].
        cbn [strings.Count]. rewrite Hc. assumption.
Qed.

(** The pieces of [Split], joined by the separator, are the string. *)
Lemma Join_Split (s : string) (sep : ascii) :
  arn.Join (strings.Split s sep) (String sep EmptyString) = s.
Proof.
  induction s as [| c s IH]; cbn [strings.Split]; [reflexivity |].
  destruct (Ascii.eqb_spec c sep) as [-> | Hc].
  - pose proof (Split_length s sep) as Hlen.
    destruct (strings.Split s sep) as [| piece pieces]; [discriminate Hlen |].
    change (arn.Join (EmptyString :: piece :: pieces) (String sep EmptyString))
      with (EmptyString ++ String sep EmptyString
            ++ arn.Join (piece :: pieces) (String sep EmptyString)).
    rewrite IH. reflexivity.
  - pose proof (Split_length s sep) as Hlen.
    destruct (strings.Split s sep) as [| piece pieces]; [discriminate Hlen |].
    destruct pieces as [| piece' pieces'].
    + cbn [arn.Join] in *. rewrite IH. reflexivity.
    + change (arn.Join (String c piece :: piece' :: pieces')
                (String sep EmptyString))
        with (String c piece ++ String sep EmptyString
              ++ arn.Join (piece' :: pieces') (String sep EmptyString)).
      change (arn.Join (piece :: piece' :: pieces') (String sep EmptyString))
        with (piece ++ String sep EmptyString
              ++ arn.Join (piece' :: pieces') (String sep EmptyString)) in IH.
      rewrite append_cons, IH. reflexivity.
Qed.

Lemma hd_Split_no_sep (s : string) (sep : ascii) :
  strings.Count (hd EmptyString (strings.Split s sep)) sep = O.
Proof.
  pose proof (Split_pieces s sep) as H.
  destruct (strings.Split s sep) as [| piece pieces]; [reflexivity |].
  inversion H; assumption.
Qed.

Section IdentityFacts.

Variable L : Library.

(** What an identity that comes of an answer is made of. *)
Lemma parseResponse_Ok (k : string) (answer : http.DoError + http.Response)
    (id : Identity) :
  parseResponse L k answer = Ok id ->
  exists response body callerIdentity,
    answer = inr response /\
    http.StatusCode response = 200 /\
    http.Body response = inr body /\
    json_Unmarshal L body = inr callerIdentity /\
    ARN id = Arn callerIdentity /\
    AccountID id = Account callerIdentity /\
    arn_Canonicalize L (Arn callerIdentity) = inr (CanonicalARN id) /\
    AccessKeyID id = k /\
    (strings.Split (UserId callerIdentity) ":" = [UserID id]
     /\ SessionName id = EmptyString
     \/ strings.Split (UserId callerIdentity) ":"
        = [UserID id; SessionName id]).
Proof.
  unfold parseResponse. intros H.
  destruct answer as [[e | e] | response]; try discriminate H.
  destruct (http.Body response) as [e | body] eqn:Hb; [discriminate H |].
  destruct (Z.eqb_spec (http.StatusCode response) 200) as [Hs | Hs];
    [| discriminate H].
  cbn [negb] in H.
  destruct (json_Unmarshal L body) as [e | ci] eqn:Hj; [discriminate H |].
  destruct (arn_Canonicalize L (Arn ci)) as [e | c] eqn:Hc; [discriminate H |].
  exists response, body, ci.
  destruct (strings.Split (UserId ci) ":") as [| p1 [| p2 [| p3 rest]]] eqn:Hsp;
    cbn [length Nat.eqb nth] in H; try discriminate H;
    inversion H; subst id; cbn; repeat split; auto.
Qed.

(** X14.  [Verify] returns an identity only from an answer of the remote
    service: one request was sent, it was answered with the status 200 and
    a body that unmarshals, and the identity holds the ARN and the account
    of the answer, the canonical form of that ARN, and as access key ID
    the piece of [x-amz-credential] before its first slash. *)
Theorem Verify_identity_from_answer (v : tokenVerifier) (w : World)
    (token : string) (calls : list http.Request) (id : Identity) :
  Verify L v w token = (calls, Ok id) ->
  exists u qpl req response body callerIdentity,
    parseToken L v token = inr (u, qpl) /\
    calls = [req] /\
    Do w req = inr response /\
    http.StatusCode response = 200 /\
    http.Body response = inr body /\
    json_Unmarshal L body = inr callerIdentity /\
    ARN id = Arn callerIdentity /\
    AccountID id = Account callerIdentity /\
    arn_Canonicalize L (Arn callerIdentity) = inr (CanonicalARN id) /\
    AccessKeyID id
    = hd EmptyString (strings.Split (url.Get qpl "x-amz-credential") "/").
Proof.
  intros HV. apply (Verify_inv L) in HV.
  destruct HV as [[_ [[m Hm] | Hm]]
                 | (u & qpl & k & req & Hp & Hc & _ & -> & Hr)];
    try discriminate.
  symmetry in Hr. apply parseResponse_Ok in Hr.
  destruct Hr as (response & body & ci & Ha & Hs & Hb & Hj & H1 & H2 & H3
                  & H4 & _).
  apply (checkParams_inv L) in Hc. destruct Hc as (_ & -> & _).
  exists u, qpl, req, response, body, ci. unfold accessKeyIDOf in H4.
  repeat split; assumption.
Qed.

(** X15.  In an identity that [Verify] returns, neither the user ID nor
    the session name holds a colon, and the access key ID holds no slash.
    The user ID of the answer holds at most one colon: with none, it is
    the user ID of the identity, and the session name is empty; with one,
    it is the user ID, a colon and the session name (which is empty when
    the user ID of the answer ends in its colon). *)
Theorem Verify_identity_pieces (v : tokenVerifier) (w : World)
    (token : string) (calls : list http.Request) (id : Identity) :
  Verify L v w token = (calls, Ok id) ->
  strings.Count (UserID id) ":" = O /\
  strings.Count (SessionName id) ":" = O /\
  strings.Count (AccessKeyID id) "/" = O /\
  exists req response body callerIdentity,
    calls = [req] /\ Do w req = inr response /\
    http.Body response = inr body /\
    json_Unmarshal L body = inr callerIdentity /\
    (strings.Count (UserId callerIdentity) ":" = 0%nat /\
     UserId callerIdentity = UserID id /\ SessionName id = EmptyString \/
     strings.Count (UserId callerIdentity) ":" = 1%nat /\
     UserId callerIdentity = UserID id ++ ":" ++ SessionName id).
Proof.
  intros HV. apply (Verify_inv L) in HV.
  destruct HV as [[_ [[m Hm] | Hm]]
                 | (u & qpl & k & req & Hp & Hc & _ & -> & Hr)];
    try discriminate.
  symmetry in Hr. apply parseResponse_Ok in Hr.
  destruct Hr as (response & body & ci & Ha & Hs & Hb & Hj & H1 & H2 & H3
                  & H4 & Hparts).
  apply (checkParams_inv L) in Hc. destruct Hc as (_ & -> & _).
  pose proof (Split_pieces (UserId ci) ":") as Hno.
  pose proof (Join_Split (UserId ci) ":") as Hjoin.
  pose proof (Split_length (UserId ci) ":") as Hlen.
  assert (Hkey : strings.Count (AccessKeyID id) "/" = O).
  { rewrite H4. apply hd_Split_no_sep. }
  destruct Hparts as [[Hsp Hsn] | Hsp]; rewrite Hsp in Hno, Hjoin, Hlen.
  - inversion Hno; subst. rewrite Hsn.
    cbn [length] in Hlen. injection Hlen as Hcount.
    repeat split; try assumption; try reflexivity.
    exists req, response, body, ci. cbn [arn.Join] in Hjoin. auto 10.
  - inversion Hno as [| ? ? Hu Hrest]; subst.
    inversion Hrest as [| ? ? Hsn _]; subst.
    cbn [length] in Hlen. injection Hlen as Hcount.
    repeat split; try assumption.
    exists req, response, body, ci. cbn [arn.Join] in Hjoin. auto 10.
Qed.

End IdentityFacts.

Lemma Verify_identity_from_answer_witness :
  Verify golib.library examples.verifier (examples.world examples.signingTime)
    examples.token
  = ([examples.request examples.presignedURL],
     Ok (examples.identity "AKIAEXAMPLE")) /\
  exists u qpl req response body callerIdentity,
    parseToken golib.library examples.verifier examples.token
    = inr (u, qpl) /\
    [examples.request examples.presignedURL] = [req] /\
    Do (examples.world examples.signingTime) req = inr response /\
    http.StatusCode response = 200 /\
    http.Body response = inr body /\
    json_Unmarshal golib.library body = inr callerIdentity /\
    ARN (examples.identity "AKIAEXAMPLE") = Arn callerIdentity /\
    AccountID (examples.identity "AKIAEXAMPLE") = Account callerIdentity /\
    arn_Canonicalize golib.library (Arn callerIdentity)
    = inr (CanonicalARN (examples.identity "AKIAEXAMPLE")) /\
    AccessKeyID (examples.identity "AKIAEXAMPLE")
    = hd EmptyString (strings.Split (url.Get qpl "x-amz-credential") "/").
Proof.
  split; [vm_compute; reflexivity |].
  apply (Verify_identity_from_answer golib.library examples.verifier
           (examples.world examples.signingTime) examples.token
           [examples.request examples.presignedURL]
           (examples.identity "AKIAEXAMPLE")).
  vm_compute. reflexivity.
Defined.

Lemma Verify_identity_pieces_witness :
  Verify golib.library examples.verifier (examples.world examples.signingTime)
    examples.token
  = ([examples.request examples.presignedURL],
     Ok (examples.identity "AKIAEXAMPLE")) /\
  strings.Count (UserID (examples.identity "AKIAEXAMPLE")) ":" = O /\
  strings.Count (SessionName (examples.identity "AKIAEXAMPLE")) ":" = O /\
  strings.Count (AccessKeyID (examples.identity "AKIAEXAMPLE")) "/" = O /\
  exists req response body callerIdentity,
    [examples.request examples.presignedURL] = [req] /\
    Do (examples.world examples.signingTime) req = inr response /\
    http.Body response = inr body /\
    json_Unmarshal golib.library body = inr callerIdentity /\
    (strings.Count (UserId callerIdentity) ":" = 0%nat /\
     UserId callerIdentity = UserID (examples.identity "AKIAEXAMPLE") /\
     SessionName (examples.identity "AKIAEXAMPLE") = EmptyString \/
     strings.Count (UserId callerIdentity) ":" = 1%nat /\
     UserId callerIdentity
     = UserID (examples.identity "AKIAEXAMPLE") ++ ":"
       ++ SessionName (examples.identity "AKIAEXAMPLE")).
Proof.
  split; [vm_compute; reflexivity |].
  apply (Verify_identity_pieces golib.library examples.verifier
           (examples.world examples.signingTime) examples.token
           [examples.request examples.presignedURL]
           (examples.identity "AKIAEXAMPLE")).
  vm_compute. reflexivity.
Defined.

(** ** The errors *)

Lemma append_inj (p s s' : string) : p ++ s = p ++ s' -> s = s'.
Proof.
  induction p as [| c p IH]; [exact (fun H => H) |].
  rewrite !append_cons. intros H. inversion H. auto.
Qed.

(** X16.  The text of an error of the package tells its kind and its
    message: the texts of a [FormatError] and of an [STSError] are never
    the same, two errors of the same kind with the same text have the
    same message, and [NewSTSError] makes an error whose text is
    [sts getCallerIdentity failed: ] and the message. *)
Theorem Error_distinguishes (m m' : string) :
  Error (FormatError m) <> Error (STSError m') /\
  (Error (FormatError m) = Error (FormatError m') <-> m = m') /\
  (Error (STSError m) = Error (STSError m') <-> m = m') /\
  Error (NewSTSError m) = "sts getCallerIdentity failed: " ++ m.
Proof.
  cbn [Error NewSTSError]. split; [| split; [| split]].
  - discriminate.
  - split; [apply append_inj | congruence].
  - split; [apply append_inj | congruence].
  - reflexivity.
Qed.

(** ** The generator *)

Section GeneratorFacts.

Variable K : generator.SDK.

(** X17.  A cluster ID is required: with an empty cluster ID,
    [GetWithOptions] returns the error [ClusterID is required], whatever
    the generator, the other options and the SDK; and so do [Get],
    [GetWithRole] and [GetWithRoleForSession]. *)
Theorem GetWithOptions_requires_ClusterID (g : generator.t) :
  (forall options,
      generator.ClusterID options = EmptyString ->
      generator.GetWithOptions K g options
      = inl (OtherError "ClusterID is required")) /\
  generator.Get K g EmptyString = inl (OtherError "ClusterID is required") /\
  (forall roleARN,
      generator.GetWithRole K g EmptyString roleARN
      = inl (OtherError "ClusterID is required")) /\
  (forall roleARN sess,
      generator.GetWithRoleForSession K g EmptyString roleARN sess
      = inl (OtherError "ClusterID is required")).
Proof.
  split; [| split; [| split]]; try reflexivity.
  intros options H. unfold generator.GetWithOptions, generator.clientOf.
  rewrite H. reflexivity.
Qed.

(** The options after the session was made: all but the session are as
    they were. *)
Lemma clientOf_options (g : generator.t)
    (options options' : generator.GetTokenOptions)
    (client : generator.Client) :
  generator.clientOf K g options = inr (options', client) ->
  generator.ClusterID options <> EmptyString /\
  generator.ClusterID options' = generator.ClusterID options /\
  generator.AssumeRoleARN options' = generator.AssumeRoleARN options.
Proof.
  unfold generator.clientOf. intros H.
  destruct (String.eqb_spec (generator.ClusterID options) "") as [| Hc];
    [discriminate H |].
  split; [exact Hc |].
  destruct (generator.Credentials (generator.Session options)) as [c |] eqn:Hs.
  - destruct (negb (String.eqb (generator.AssumeRoleARN options) "")).
    + destruct (generator.assumeRole K g options
                  (generator.NewFromConfig (generator.Session options)))
        as [e | [setters cl]]; [discriminate H |].
      inversion H; subst. auto.
    + inversion H; subst. auto.
  - destruct (generator.newSession K g options) as [e | sess];
      [discriminate H |].
    cbn [generator.AssumeRoleARN generator.Session] in H.
    destruct (negb (String.eqb (generator.AssumeRoleARN options) "")).
    + match type of H with
      | match ?a with _ => _ end = _ =>
          destruct a as [e | [setters cl]]; [discriminate H |]
      end.
      inversion H; subst. cbn. auto.
    + inversion H; subst. cbn. auto.
Qed.

(** X18.  Every token [GetWithOptions] returns, through whichever path,
    is the prefix and the base64 text of a URL that the SDK presigned for
    a request on which the header [x-k8s-aws-id] is set to the cluster ID
    of the options and the header [X-Amz-Expires] to 60, and from whose
    build step the [UserAgent] middleware is removed; it expires 14
    minutes after the current time. *)
Theorem GetWithOptions_token (g : generator.t)
    (options : generator.GetTokenOptions) (tok : Token) :
  generator.GetWithOptions K g options = inr tok ->
  generator.ClusterID options <> EmptyString /\
  exists client presignOptions presignedURL,
    generator.PresignGetCallerIdentity K client presignOptions
    = inr presignedURL /\
    generator.SetHeaderValue presignOptions
    = [("x-k8s-aws-id", generator.ClusterID options);
       ("X-Amz-Expires", "60")] /\
    generator.BuildRemove presignOptions = ["UserAgent"] /\
    Token_ tok = "k8s-aws-v1." ++ base64.EncodeToString presignedURL /\
    Expiration tok = generator.Now K + 14 * time.Minute.
Proof.
  unfold generator.GetWithOptions. intros H.
  destruct (generator.clientOf K g options) as [e | [options' client]] eqn:Hc;
    [discriminate H |].
  apply clientOf_options in Hc. destruct Hc as (Hid & Hsame & _).
  split; [exact Hid |].
  unfold generator.GetWithSTS in H. rewrite Hsame in H.
  destruct (generator.PresignGetCallerIdentity K client
              (generator.presignOptions (generator.ClusterID options)))
    as [e | presignedURL] eqn:Hp; [discriminate H |].
  inversion H; subst tok. cbn [Token_ Expiration].
  exists client, (generator.presignOptions (generator.ClusterID options)),
    presignedURL.
  split; [exact Hp |].
  split; [reflexivity |]. split; [reflexivity |]. split; [reflexivity |].
  unfold time.Add, time.Local, presignedURLExpiration, time.Minute,
    time.Second, time.Nanosecond. lia.
Qed.

(** X19.  A file cache that does not open is no obstacle: when
    [NewFileCacheProvider] fails, a generator with the cache returns what
    a generator without it returns. *)
Theorem GetWithOptions_cache_failure (forward : bool)
    (options : generator.GetTokenOptions) :
  (forall clusterID profile roleARN creds,
      generator.NewFileCacheProvider_ K clusterID profile roleARN creds
      <> None) ->
  generator.GetWithOptions K (generator.NewGenerator forward true) options
  = generator.GetWithOptions K (generator.NewGenerator forward false) options.
Proof.
  intros Hfail.
  assert (Hsess : generator.newSession K (generator.NewGenerator forward true)
                    options
                  = generator.newSession K
                      (generator.NewGenerator forward false) options).
  { unfold generator.newSession, generator.NewGenerator.
    cbn [generator.cache].
    destruct (generator.LoadDefaultConfig K (generator.loadOptions K options))
      as [e | sess]; [reflexivity |].
    match goal with
    | |- match ?x with _ => _ end = _ =>
        destruct x as [err |] eqn:Hx; [reflexivity |]
    end.
    exfalso. exact (Hfail _ _ _ _ Hx). }
  unfold generator.GetWithOptions, generator.clientOf. rewrite Hsess.
  reflexivity.
Qed.

End GeneratorFacts.

(** X20.  With a session that has credentials, [GetWithOptions] loads no
    configuration, reads no environment and opens no file cache: its
    result is the same under every generator with the same
    [forwardSessionName] and every SDK with the same client calls and the
    same clock. *)
Theorem GetWithOptions_with_session (K K' : generator.SDK)
    (g g' : generator.t) (options : generator.GetTokenOptions)
    (creds : generator.CredentialsProvider) :
  generator.Credentials (generator.Session options) = Some creds ->
  generator.forwardSessionName g = generator.forwardSessionName g' ->
  (forall client,
      generator.GetCallerIdentity K client
      = generator.GetCallerIdentity K' client) ->
  (forall client o,
      generator.PresignGetCallerIdentity K client o
      = generator.PresignGetCallerIdentity K' client o) ->
  generator.Now K = generator.Now K' ->
  generator.GetWithOptions K g options = generator.GetWithOptions K' g' options.
Proof.
  intros Hs Hf Hci Hpre Hnow.
  unfold generator.GetWithOptions, generator.clientOf. rewrite Hs.
  destruct (String.eqb (generator.ClusterID options) ""); [reflexivity |].
  assert (Hassume :
            generator.assumeRole K g options
              (generator.NewFromConfig (generator.Session options))
            = generator.assumeRole K' g' options
                (generator.NewFromConfig (generator.Session options))).
  { unfold generator.assumeRole, generator.sessionSettersOf.
    rewrite Hf, Hci. reflexivity. }
  rewrite Hassume.
  destruct (negb (String.eqb (generator.AssumeRoleARN options) "")).
  - destruct (generator.assumeRole K' g' options
                (generator.NewFromConfig (generator.Session options)))
      as [e | [setters client]]; [reflexivity |].
    unfold generator.GetWithSTS. rewrite Hpre, Hnow. reflexivity.
  - unfold generator.GetWithSTS. rewrite Hpre, Hnow. reflexivity.
Qed.

(** X21.  Without a role to assume, the client that presigns is made of
    the session itself, and neither [forwardSessionName] nor the identity
    of the caller has a part: generators that differ only in
    [forwardSessionName] return the same, and [GetWithRole] with an empty
    role ARN is [Get]. *)
Theorem GetWithOptions_without_role (K : generator.SDK) (g : generator.t)
    (options : generator.GetTokenOptions) :
  generator.AssumeRoleARN options = EmptyString ->
  (forall options' client,
      generator.clientOf K g options = inr (options', client) ->
      client = generator.NewFromConfig (generator.Session options')) /\
  (forall forward,
      generator.GetWithOptions K
        (generator.NewGenerator forward (generator.cache g)) options
      = generator.GetWithOptions K g options) /\
  (forall clusterID,
      generator.GetWithRole K g clusterID EmptyString
      = generator.Get K g clusterID).
Proof.
  intros Hrole. split; [| split].
  - intros options' client. unfold generator.clientOf.
    destruct (String.eqb (generator.ClusterID options) ""); [discriminate |].
    destruct (generator.Credentials (generator.Session options)).
    + rewrite Hrole. cbn [String.eqb negb]. intros H. inversion H; subst.
      reflexivity.
    + destruct (generator.newSession K g options) as [e | sess];
        [discriminate |].
      cbn [generator.AssumeRoleARN generator.Session]. rewrite Hrole.
      cbn [String.eqb negb]. intros H. inversion H; subst. reflexivity.
  - intros forward. unfold generator.GetWithOptions, generator.clientOf.
    destruct (String.eqb (generator.ClusterID options) ""); [reflexivity |].
    assert (Hsess : generator.newSession K
                      (generator.NewGenerator forward (generator.cache g))
                      options
                    = generator.newSession K g options) by reflexivity.
    rewrite Hsess.
    destruct (generator.Credentials (generator.Session options)).
    + rewrite Hrole. reflexivity.
    + destruct (generator.newSession K g options) as [e | sess];
        [reflexivity |].
      cbn [generator.AssumeRoleARN generator.Session]. rewrite Hrole.
      reflexivity.
  - reflexivity.
Qed.

(** X22.  The function on the options of a role that the load options
    carry never clears a field: where an option is empty, what the SDK
    read from the shared configuration stays; where it is not, it
    replaces it.  It always installs the token provider that reads
    standard input, and applying it twice is applying it once. *)
Theorem loadOptions_callback (K : generator.SDK)
    (options : generator.GetTokenOptions) (o : generator.AssumeRoleOptions) :
  let f := generator.AssumeRoleCredentialOptions
             (generator.loadOptions K options) in
  f (f o) = f o /\
  generator.TokenProvider (f o) = Some generator.StdinStderrTokenProvider /\
  generator.ExternalID (f o)
  = (if String.eqb (generator.AssumeRoleExternalID options) ""
     then generator.ExternalID o
     else Some (generator.AssumeRoleExternalID options)) /\
  generator.RoleSessionName (f o)
  = (if String.eqb (generator.SessionName options) ""
     then generator.RoleSessionName o
     else generator.SessionName options) /\
  generator.RoleARN (f o)
  = (if String.eqb (generator.AssumeRoleARN options) ""
     then generator.RoleARN o
     else generator.AssumeRoleARN options).
Proof.
  cbv zeta. unfold generator.loadOptions.
  cbn [generator.AssumeRoleCredentialOptions generator.RoleARN
       generator.ExternalID generator.RoleSessionName
       generator.TokenProvider].
  destruct (String.eqb (generator.AssumeRoleExternalID options) "");
    destruct (String.eqb (generator.SessionName options) "");
    destruct (String.eqb (generator.AssumeRoleARN options) "");
    cbn [negb]; repeat split; reflexivity.
Qed.

Lemma GetWithOptions_token_witness :
  generator.GetWithOptions examples.strictSdk (generator.NewGenerator true true)
    examples.options = inr examples.minted /\
  generator.PresignGetCallerIdentity examples.strictSdk examples.session
    {| generator.SetHeaderValue := [("X-Amz-Expires", "60")];
       generator.BuildRemove := ["UserAgent"] |}
  = inl (OtherError "the cluster ID header is not set") /\
  generator.ClusterID examples.options <> EmptyString /\
  exists client presignOptions presignedURL,
    generator.PresignGetCallerIdentity examples.strictSdk client presignOptions
    = inr presignedURL /\
    generator.SetHeaderValue presignOptions
    = [("x-k8s-aws-id", generator.ClusterID examples.options);
       ("X-Amz-Expires", "60")] /\
    generator.BuildRemove presignOptions = ["UserAgent"] /\
    Token_ examples.minted
    = "k8s-aws-v1." ++ base64.EncodeToString presignedURL /\
    Expiration examples.minted
    = generator.Now examples.strictSdk + 14 * time.Minute.
Proof.
  split; [vm_compute; reflexivity |].
  split; [reflexivity |].
  apply (GetWithOptions_token examples.strictSdk (generator.NewGenerator true true)
           examples.options examples.minted).
  vm_compute. reflexivity.
Defined.

Lemma GetWithOptions_cache_failure_witness :
  generator.NewFileCacheProvider_ examples.uncachedSdk "my-cluster" "default"
    "" (Some (generator.sessionCredentials "EnvConfigCredentials"))
  = Some "cache file is not readable" /\
  generator.GetWithOptions examples.uncachedSdk
    (generator.NewGenerator false false) examples.plainOptions
  = inr examples.minted /\
  generator.GetWithOptions examples.uncachedSdk
    (generator.NewGenerator false true) examples.plainOptions
  = generator.GetWithOptions examples.uncachedSdk
      (generator.NewGenerator false false) examples.plainOptions.
Proof.
  split; [reflexivity |].
  split; [vm_compute; reflexivity |].
  apply (GetWithOptions_cache_failure examples.uncachedSdk false
           examples.plainOptions).
  intros clusterID profile roleARN creds. simpl. discriminate.
Defined.

Lemma GetWithOptions_with_session_witness :
  generator.Credentials (generator.Session examples.options)
  = Some (generator.sessionCredentials "EnvConfigCredentials") /\
  generator.LoadDefaultConfig examples.bareSdk
    (generator.loadOptions examples.bareSdk examples.options)
  = inl "no configuration" /\
  generator.GetWithOptions examples.sdk (generator.NewGenerator true false)
    examples.options
  = generator.GetWithOptions examples.bareSdk
      (generator.NewGenerator true true) examples.options.
Proof.
  split; [reflexivity |].
  split; [reflexivity |].
  apply (GetWithOptions_with_session examples.sdk examples.bareSdk
           (generator.NewGenerator true false)
           (generator.NewGenerator true true) examples.options
           (generator.sessionCredentials "EnvConfigCredentials")).
  - reflexivity.
  - reflexivity.
  - intros client. reflexivity.
  - intros client o. reflexivity.
  - reflexivity.
Defined.

Lemma GetWithOptions_without_role_witness :
  generator.AssumeRoleARN examples.plainOptions = EmptyString /\
  (forall options' client,
      generator.clientOf examples.sdk (generator.NewGenerator true false)
        examples.plainOptions = inr (options', client) ->
      client = generator.NewFromConfig (generator.Session options')) /\
  (forall forward,
      generator.GetWithOptions examples.sdk
        (generator.NewGenerator forward
           (generator.cache (generator.NewGenerator true false)))
        examples.plainOptions
      = generator.GetWithOptions examples.sdk
          (generator.NewGenerator true false) examples.plainOptions) /\
  (forall clusterID,
      generator.GetWithRole examples.sdk (generator.NewGenerator true false)
        clusterID EmptyString
      = generator.Get examples.sdk (generator.NewGenerator true false)
          clusterID).
Proof.
  split; [reflexivity |].
  apply (GetWithOptions_without_role examples.sdk
           (generator.NewGenerator true false) examples.plainOptions).
  reflexivity.
Defined.

(** ** Minting and verifying *)

Lemma length_append (p s : string) :
  String.length (p ++ s) = (String.length p + String.length s)%nat.
Proof.
  induction p as [| c p IH]; [reflexivity |].
  rewrite append_cons. cbn [String.length]. rewrite IH. reflexivity.
Qed.

(** The length of a token, from the length of the presigned URL. *)
Lemma token_length (presignedURL : string) :
  Z.of_nat (String.length (v1Prefix ++ base64.EncodeToString presignedURL))
  = 11 + (4 * Z.of_nat (String.length presignedURL) + 2) / 3.
Proof.
  rewrite length_append, Nat2Z.inj_add, EncodeToString_length. reflexivity.
Qed.

Section MintAndVerify.

Variable L : Library.
Variable K : generator.SDK.

(** X23.  [Verify] undoes what [GetWithSTS] does.  A token that
    [GetWithSTS] returns was made of a presigned URL; when the URL is of
    at most 3063 bytes, the token passes the checks of the length, the
    prefix and the base64 text of every verifier, which goes on with the
    parse of that very URL (and returns the error of the parse as a
    [FormatError] when there is one); when the URL is longer, every
    verifier rejects the token as too large and sends nothing. *)
Theorem Verify_of_minted_token (g : generator.t) (clusterID : string)
    (client : generator.Client) (tok : Token) (v : tokenVerifier) :
  generator.GetWithSTS K g clusterID client = inr tok ->
  exists presignedURL,
    generator.PresignGetCallerIdentity K client
      (generator.presignOptions clusterID) = inr presignedURL /\
    (Z.of_nat (String.length presignedURL) <= 3063 ->
     forall u, url_Parse L presignedURL = inr u ->
               decodesTo L (Token_ tok) u) /\
    (Z.of_nat (String.length presignedURL) <= 3063 ->
     forall e w, url_Parse L presignedURL = inl e ->
                 Verify L v w (Token_ tok) = ([], Err (FormatError e))) /\
    (3063 < Z.of_nat (String.length presignedURL) ->
     forall w, Verify L v w (Token_ tok)
               = ([], Err (FormatError "token is too large"))).
Proof.
  unfold generator.GetWithSTS. intros H.
  destruct (generator.PresignGetCallerIdentity K client
              (generator.presignOptions clusterID)) as [e | presignedURL];
    [discriminate H |].
  inversion H; subst tok. clear H. cbn [Token_].
  exists presignedURL. split; [reflexivity |].
  pose proof (token_length presignedURL) as Hlen.
  destruct (TrimPrefix_v1Prefix (base64.EncodeToString presignedURL))
    as [Hpre Htrim].
  split; [| split].
  - intros Hn u Hu. unfold decodesTo.
    split.
    { rewrite Hlen. unfold maxTokenLenBytes. Z.div_mod_to_equations. lia. }
    split; [exact Hpre |].
    exists presignedURL. rewrite Htrim.
    split; [apply DecodeString_EncodeToString | exact Hu].
  - intros Hn e w He. unfold Verify, parseToken.
    replace (maxTokenLenBytes <?
             Z.of_nat (String.length
                         (v1Prefix ++ base64.EncodeToString presignedURL)))
      with false.
    2:{ symmetry. apply Z.ltb_ge. rewrite Hlen. unfold maxTokenLenBytes.
        Z.div_mod_to_equations. lia. }
    rewrite Hpre, Htrim, DecodeString_EncodeToString, He. reflexivity.
  - intros Hn w. unfold Verify, parseToken.
    replace (maxTokenLenBytes <?
             Z.of_nat (String.length
                         (v1Prefix ++ base64.EncodeToString presignedURL)))
      with true.
    2:{ symmetry. apply Z.ltb_lt. rewrite Hlen. unfold maxTokenLenBytes.
        Z.div_mod_to_equations. lia. }
    reflexivity.
Qed.

(** X24.  The minute of cushion.  When the date of the presigned URL is
    not more than one minute before the time at which [GetWithSTS] stamped
    the token, a verifier whose clock has not passed the expiration of the
    token does not reject it as expired: with the other parameters valid,
    [Verify] goes on to the request. *)
Theorem Verify_before_token_expiration (g : generator.t) (clusterID : string)
    (client : generator.Client) (tok : Token) (v : tokenVerifier) (w : World)
    (u : url.URL) (qpl : url.Values) (d : time.Time) :
  generator.GetWithSTS K g clusterID client = inr tok ->
  parseToken L v (Token_ tok) = inr (u, qpl) ->
  paramsValid L qpl ->
  time_Parse L dateHeaderFormat (url.Get qpl "x-amz-date") = inr d ->
  generator.Now K - 1 * time.Minute <= d ->
  Now w <= Expiration tok ->
  Verify L v w (Token_ tok) = callSTS L v w u (accessKeyIDOf qpl).
Proof.
  intros Hmint Hp Hv Hd Hsigned Hnow.
  apply (Verify_not_expired L v w (Token_ tok) u qpl d Hp Hv Hd).
  unfold generator.GetWithSTS in Hmint.
  destruct (generator.PresignGetCallerIdentity K client
              (generator.presignOptions clusterID)); [discriminate Hmint |].
  inversion Hmint; subst tok. cbn [Expiration] in Hnow.
  unfold time.Add, time.Local, presignedURLExpiration, time.Minute,
    time.Second, time.Nanosecond in *. lia.
Qed.

End MintAndVerify.

Lemma Verify_of_minted_token_witness :
  generator.GetWithSTS examples.sdk (generator.NewGenerator false false)
    "my-cluster" examples.session
  = inr examples.minted /\
  exists presignedURL,
    generator.PresignGetCallerIdentity examples.sdk examples.session
      (generator.presignOptions "my-cluster") = inr presignedURL /\
    (Z.of_nat (String.length presignedURL) <= 3063 ->
     forall u, url_Parse golib.library presignedURL = inr u ->
               decodesTo golib.library (Token_ examples.minted) u) /\
    (Z.of_nat (String.length presignedURL) <= 3063 ->
     forall e w, url_Parse golib.library presignedURL = inl e ->
                 Verify golib.library examples.verifier w
                   (Token_ examples.minted)
                 = ([], Err (FormatError e))) /\
    (3063 < Z.of_nat (String.length presignedURL) ->
     forall w, Verify golib.library examples.verifier w
                 (Token_ examples.minted)
               = ([], Err (FormatError "token is too large"))).
Proof.
  split; [vm_compute; reflexivity |].
  apply (Verify_of_minted_token golib.library examples.sdk
           (generator.NewGenerator false false) "my-cluster" examples.session
           examples.minted examples.verifier).
  vm_compute. reflexivity.
Defined.

Lemma Verify_before_token_expiration_witness :
  generator.GetWithSTS examples.sdk (generator.NewGenerator false false)
    "my-cluster" examples.session
  = inr examples.minted /\
  time_Parse golib.library dateHeaderFormat
    (url.Get examples.queryParamsLower "x-amz-date")
  = inr examples.signingTime /\
  Verify golib.library examples.verifier
    (examples.world (Expiration examples.minted)) (Token_ examples.minted)
  = callSTS golib.library examples.verifier
      (examples.world (Expiration examples.minted))
      examples.parsedURL (accessKeyIDOf examples.queryParamsLower).
Proof.
  split; [vm_compute; reflexivity |].
  split; [vm_compute; reflexivity |].
  apply (Verify_before_token_expiration golib.library examples.sdk
           (generator.NewGenerator false false) "my-cluster" examples.session
           examples.minted examples.verifier
           (examples.world (Expiration examples.minted))
           examples.parsedURL examples.queryParamsLower examples.signingTime).
  - vm_compute. reflexivity.
  - exact parseToken_on_example.
  - exact paramsValid_on_example.
  - vm_compute. reflexivity.
  - vm_compute. discriminate.
  - vm_compute. discriminate.
Defined.
